(** * Verification of the Masumi purchase script and the email service

    Shallow embedding of [test_real_purchase.py] (function [main]) and of
    [emailService.py] (classes [ServiceResult] and [EmailService], function
    [get_agentic_service]).

    Conventions of the embedding:
    - Python values that come out of [response.json()], [json.loads] or a
      request body are values of type [pyval]; a [dict] is an association
      list in insertion order, looked up by first match;
    - an f-string is a list of fragments ([fstr]): literal text and
      interpolated values, so that no [str()] of a number has to be chosen;
    - time is an integer count of milliseconds; [time.time()] reads the
      clock of the run, every network call and every sleep advances it;
    - the outside world (environment variables, standard input, the
      replies of the three HTTP services, the language model, the mail
      provider) is a record the functions take as an argument, and so are
      the functions of the interpreter that are not defined here
      ([int] on a [str], [json.loads], [str.strip]);
    - a float is the rational number it denotes, so [nan] and the
      infinities are left out; the quotient of two [int]s is rounded to
      the nearest binary64, as the interpreter does;
    - a value of type [line] is a [print] statement of [main] that prints
      text, or a block of consecutive ones; blank lines, rules and colour
      codes are left out. *)

From Stdlib Require Import List String Ascii ZArith QArith Qabs Bool Lia.
Import ListNotations.
Local Open Scope string_scope.
Local Open Scope Z_scope.
Set Warnings "-register-all".

(** ** Python values *)

Module Py.

Inductive pyval : Type :=
| PNone
| PBool (b : bool)
| PInt (z : Z)
| PFloat (q : Q)          (* a finite float, by its exact value *)
| PStr (s : string)
| PList (l : list pyval)
| PDict (d : list (string * pyval)).

(** Induction principle that reaches the elements of lists and dicts. *)
Section PyvalInd.
Variable P : pyval -> Prop.
Hypothesis HNone : P PNone.
Hypothesis HBool : forall b, P (PBool b).
Hypothesis HInt : forall z, P (PInt z).
Hypothesis HFloat : forall q, P (PFloat q).
Hypothesis HStr : forall s, P (PStr s).
Hypothesis HList : forall l, Forall P l -> P (PList l).
Hypothesis HDict : forall d, Forall (fun kv => P (snd kv)) d -> P (PDict d).

End PyvalInd.

(** [bool(v)]: the truth value Python gives to [v] in [if v:], [not v]
    and [a or b]. *)
Definition truthy (v : pyval) : bool :=
  match v with
  | PNone => false
  | PBool b => b
  | PInt z => negb (z =? 0)
  | PFloat q => negb (Qeq_bool q 0)
  | PStr s => negb (String.eqb s EmptyString)
  | PList l => match l with [] => false | _ => true end
  | PDict d => match d with [] => false | _ => true end
  end.

(** [a or b] *)
Definition py_or (a b : pyval) : pyval := if truthy a then a else b.

(** [d.get(k)] on the entries of a dict: first match. *)
Fixpoint lookup (k : string) (d : list (string * pyval)) : option pyval :=
  match d with
  | [] => None
  | (k', v) :: r => if String.eqb k k' then Some v else lookup k r
  end.

Definition mem (k : string) (ks : list string) : bool :=
  existsb (String.eqb k) ks.

(** Numbers compare by value across [bool], [int] and [float]. *)
Definition as_number (v : pyval) : option Q :=
  match v with
  | PBool b => Some (inject_Z (if b then 1 else 0))
  | PInt z => Some (inject_Z z)
  | PFloat q => Some q
  | _ => None
  end.

(** [a == b]. Dicts are equal when they map the same keys to equal
    values, whatever the order of their entries. *)
Fixpoint py_eq (a b : pyval) {struct a} : bool :=
  match a, b with
  | PNone, PNone => true
  | PStr s, PStr t => String.eqb s t
  | PList l, PList m =>
      (fix go (l m : list pyval) : bool :=
         match l, m with
         | [], [] => true
         | x :: l', y :: m' => py_eq x y && go l' m'
         | _, _ => false
         end) l m
  | PDict d, PDict e =>
      forallb (fun k => mem k (map fst d)) (map fst e)
      && (fix go (seen : list string) (d : list (string * pyval)) : bool :=
            match d with
            | [] => true
            | (k, v) :: d' =>
                (if mem k seen then true
                 else match lookup k e with
                      | Some w => py_eq v w
                      | None => false
                      end)
                && go (k :: seen) d'
            end) [] d
  | _, _ =>
      match as_number a, as_number b with
      | Some x, Some y => Qeq_bool x y
      | _, _ => false
      end
  end.

(** Exceptions, all of them subclasses of [Exception]. [HTTPError] is the
    one [raise_for_status] raises; it carries the status and the text of
    the response ([e.response.text]). [ApiException] is the mail
    provider's. Any other one is told by its class name and its text. *)
Inductive exn : Type :=
| HTTPError (status_code : Z) (response_text : string)
| JSONDecodeError (text : string)
| ApiException (text : string)
| Exception (cls : string) (text : string).

(** [v[k]] for a string key. *)
Definition getitem (v : pyval) (k : string) : exn + pyval :=
  match v with
  | PDict d =>
      match lookup k d with
      | Some x => inr x
      | None => inl (Exception "KeyError" k)
      end
  | PStr _ => inl (Exception "TypeError" "string indices must be integers")
  | PList _ => inl (Exception "TypeError" "list indices must be integers or slices")
  | _ => inl (Exception "TypeError" "object is not subscriptable")
  end.

(** [v[0]] *)
Definition getitem0 (v : pyval) : exn + pyval :=
  match v with
  | PList (x :: _) => inr x
  | PList [] => inl (Exception "IndexError" "list index out of range")
  | PStr (String c _) => inr (PStr (String c EmptyString))
  | PStr EmptyString => inl (Exception "IndexError" "string index out of range")
  | PDict _ => inl (Exception "KeyError" "0")
  | _ => inl (Exception "TypeError" "object is not subscriptable")
  end.

(** [v.get(k)]: only a dict has the method; a missing key gives [None]. *)
Definition dict_get (v : pyval) (k : string) : exn + pyval :=
  match v with
  | PDict d =>
      match lookup k d with
      | Some x => inr x
      | None => inr PNone
      end
  | _ => inl (Exception "AttributeError" "object has no attribute 'get'")
  end.

(** [v.get(k, {})] *)
Definition dict_get_or_empty (v : pyval) (k : string) : exn + pyval :=
  match v with
  | PDict d =>
      match lookup k d with
      | Some x => inr x
      | None => inr (PDict [])
      end
  | _ => inl (Exception "AttributeError" "object has no attribute 'get'")
  end.

(** [int(v)]. For a [str] the parsing is the interpreter's, [int_of_str];
    a float is truncated towards zero. *)
Definition py_int (int_of_str : string -> option Z) (v : pyval) : exn + Z :=
  match v with
  | PInt z => inr z
  | PBool b => inr (if b then 1 else 0)
  | PFloat q => inr (Z.quot (Qnum q) (Zpos (Qden q)))
  | PStr s =>
      match int_of_str s with
      | Some z => inr z
      | None => inl (Exception "ValueError" "invalid literal for int() with base 10")
      end
  | _ => inl (Exception "TypeError" "int() argument must be a string or a number")
  end.

(** The binary64 nearest to the quotient [n / d], ties to even.

    [exponent a d] is the [e] with [2^e <= a / d < 2^(e+1)], for [a > 0].
    A binary64 with that exponent is a multiple of [2^(e - 52)], and of
    [2^(-1074)] below the normal range. *)
Definition exponent (a : Z) (d : positive) : Z :=
  let e0 := Z.log2 a - Z.log2 (Zpos d) in
  if a * 2 ^ Z.max 0 (- e0) <? Zpos d * 2 ^ Z.max 0 e0 then e0 - 1 else e0.

(** The integer nearest to [num / den], the even one of two that are
    equally near. *)
Definition nearest_even (num den : Z) : Z :=
  let q := num / den in
  let r := num mod den in
  if 2 * r <? den then q
  else if den <? 2 * r then q + 1
  else if Z.even q then q else q + 1.

Definition binary64 (n : Z) (d : positive) : Q :=
  if n =? 0 then 0
  else
    let a := Z.abs n in
    let k := 52 - Z.max (exponent a d) (- 1022) in
    let m := nearest_even (a * 2 ^ Z.max 0 k) (Zpos d * 2 ^ Z.max 0 (- k)) in
    Qred (Qmake (Z.sgn n * m * 2 ^ Z.max 0 (- k)) (Z.to_pos (2 ^ Z.max 0 k))).

(** [n / d] on two [int]s (true division): the float nearest to the
    quotient. The division raises when that float would not be finite. *)
Definition float_limit : Z := 2 ^ 1024 - 2 ^ 970.

Definition true_div (n : Z) (d : positive) : exn + Q :=
  if float_limit * Zpos d <=? Z.abs n
  then inl (Exception "OverflowError" "integer division result too large for a float")
  else inr (binary64 n d).

(** ASCII versions of three functions of the interpreter, for the runs
    that are evaluated below. On ASCII text they agree with [str.strip()],
    [int(s)] and [re.search(r"\{.*\}", s, re.DOTALL)]. *)
Definition is_space (c : ascii) : bool :=
  let n := nat_of_ascii c in
  ((9 <=? n) && (n <=? 13) || (28 <=? n) && (n <=? 32))%nat.

Definition digit_of (c : ascii) : option Z :=
  let n := Z.of_nat (nat_of_ascii c) in
  if (48 <=? n) && (n <=? 57) then Some (n - 48) else None.

Fixpoint lstrip (s : string) : string :=
  match s with
  | String c r => if is_space c then lstrip r else s
  | EmptyString => EmptyString
  end.

Fixpoint rstrip (s : string) : string :=
  match s with
  | EmptyString => EmptyString
  | String c r =>
      match rstrip r with
      | EmptyString => if is_space c then EmptyString else String c EmptyString
      | r' => String c r'
      end
  end.

Definition strip (s : string) : string := rstrip (lstrip s).

(** Decimal digits, where one underscore may stand between two digits. *)
Fixpoint digits (s : string) (acc : Z) (after_digit : bool) : option Z :=
  match s with
  | EmptyString => if after_digit then Some acc else None
  | String c r =>
      match digit_of c with
      | Some d => digits r (10 * acc + d) true
      | None =>
          if Ascii.eqb c "_" && after_digit then digits r acc false else None
      end
  end.

Definition int_of_ascii (s : string) : option Z :=
  match strip s with
  | String "-" r => option_map Z.opp (digits r 0 false)
  | String "+" r => digits r 0 false
  | r => digits r 0 false
  end.

(** The suffix of [s] that starts at its first opening brace. *)
Fixpoint from_open_brace (s : string) : option string :=
  match s with
  | EmptyString => None
  | String c r => if Ascii.eqb c "{" then Some s else from_open_brace r
  end.

(** The longest prefix of [s] that ends with a closing brace. *)
Fixpoint to_last_close_brace (s : string) : option string :=
  match s with
  | EmptyString => None
  | String c r =>
      match to_last_close_brace r with
      | Some p => Some (String c p)
      | None => if Ascii.eqb c "}" then Some (String c EmptyString) else None
      end
  end.

(** [re.search(r"\{.*\}", s, re.DOTALL)]: from the first opening brace to
    the last closing brace after it. *)
Definition search_braces (s : string) : option string :=
  match from_open_brace s with
  | Some (String c r) => option_map (String c) (to_last_close_brace r)
  | _ => None
  end.

(** An f-string: literal text and the values it interpolates. *)
Inductive frag : Type :=
| Lit (s : string)
| Fmt (v : pyval)                  (* {v} *)
| FmtExn (e : exn)                 (* {e} for a caught exception *)
| FmtPrefix (n : nat) (v : pyval). (* {v[:n]} *)

Definition fstr : Type := list frag.

End Py.

(** ** Runs: a trace of timed events, a clock, and how control ends *)

Module Run.
Import Py.

Inductive request : Type :=
| GET (url : string) (params : list (string * pyval)) (timeout : Z)
| POST (url : string) (json : pyval) (headers : list (string * string))
       (timeout : Z).

(** How a block of statements ends: it falls through with a value, an
    exception escapes it, or a [return] leaves [main]. [OutOfFuel] belongs
    to the embedding of the [while] loop only. *)
Inductive ctl (A : Type) : Type :=
| Done (a : A)
| Raise (e : exn)
| Return
| OutOfFuel.
Arguments Done {A} a.
Arguments Raise {A} e.
Arguments Return {A}.
Arguments OutOfFuel {A}.

Section Monad.
(** [E] is the type of the events of the program. *)
Variable E : Type.

Record run (A : Type) : Type := Ran {
  trace : list (Z * E);     (* what happened, with the clock reading *)
  clock : Z;                (* the clock afterwards, in milliseconds *)
  result : ctl A
}.
Arguments Ran {A}.
Arguments trace {A}.
Arguments clock {A}.
Arguments result {A}.

Definition M (A : Type) : Type := Z -> run A.

Definition ret {A} (a : A) : M A := fun t => Ran [] t (Done a).

(** [extend tr r]: the run [r] after the events [tr]. *)
Definition extend {A} (tr : list (Z * E)) (r : run A) : run A :=
  match r with
  | Ran tr' c res => Ran (tr ++ tr') c res
  end.

Definition bind {A B} (m : M A) (f : A -> M B) : M B :=
  fun t =>
    match m t with
    | Ran tr c (Done a) => extend tr (f a c)
    | Ran tr c (Raise e) => Ran tr c (Raise e)
    | Ran tr c Return => Ran tr c Return
    | Ran tr c OutOfFuel => Ran tr c OutOfFuel
    end.

Definition raise {A} (e : exn) : M A := fun t => Ran [] t (Raise e).
Definition return_ {A} : M A := fun t => Ran [] t Return.
Definition out_of_fuel {A} : M A := fun t => Ran [] t OutOfFuel.

(** [try: m  except Exception as e: h e] *)
Definition try_except {A} (m : M A) (h : exn -> M A) : M A :=
  fun t =>
    match m t with
    | Ran tr c (Raise e) => extend tr (h e c)
    | r => r
    end.

Definition lift {A} (x : exn + A) : M A :=
  match x with
  | inl e => raise e
  | inr a => ret a
  end.

Definition emit (e : E) : M unit := fun t => Ran [(t, e)] t (Done tt).

(** [time.time()], in milliseconds *)
Definition time : M Z := fun t => Ran [] t (Done t).

Definition advance (d : N) : M unit := fun t => Ran [] (t + Z.of_N d) (Done tt).
End Monad.

Arguments Ran {E A}.
Arguments trace {E A}.
Arguments clock {E A}.
Arguments result {E A}.
Arguments ret {E A}.
Arguments extend {E A}.
Arguments bind {E A B}.
Arguments raise {E A}.
Arguments return_ {E A}.
Arguments out_of_fuel {E A}.
Arguments try_except {E A}.
Arguments lift {E A}.
Arguments emit {E}.
Arguments time {E}.
Arguments advance {E}.

Declare Scope run_scope.
Delimit Scope run_scope with run.
Notation "x <- m ;; k" := (bind m (fun x => k))
  (at level 61, m at next level, right associativity) : run_scope.
Notation "m ;; k" := (bind m (fun _ => k))
  (at level 61, right associativity) : run_scope.

End Run.

(** ** test_real_purchase.py *)

Module Purchase.
Import Py Run.
Local Open Scope run_scope.

(** The [print] statements of [main] that print text, with the values
    they interpolate. Colour codes, rules, blank lines and the mark that
    [print_success] and the like put before a text are left out.
    A statement that prints constant text is [Plain] with that text, unless
    it has a constructor of its own. Seven constructors stand for a block
    of consecutive statements: [Banner] (lines 61 to 68), [ConfigReport]
    (77 to 79), [SetupRequired] (84 to 118), [WalletSentAda] (227 to 230),
    [PossibleIssues] (236 to 239), [SummaryWhatHappened] (301 and 302) and
    [SummaryClosing] (321 to 323). *)
Inductive line : Type :=
| Plain (text : string)
| Banner
| ConfigReport (agent_url payment_url network : string)
| Timestamp (now : Z)              (* line 80: the clock, shown as a date *)
| SetupRequired (payment_url : string) (payment_api_key : option string)
                (network : string)
| PurchaserConfigured
| Header (title : string)
| ServiceOnline
| CannotConnect (e : exn)
| RunApiHint
| RequestingEmail (recipient subject : string)
| JobCreated (job_id : pyval)
| BlockchainContract (blockchain_id : pyval)
| PaymentRequired (amount_ada : Q) (amount_lovelace : pyval)
| TrackOnExplorer (explorer_url : fstr)
| FailedToCreateJob (e : exn)
| InitiatingPayment (amount_ada : Q)   (* line 198: Paying ... ADA *)
| PaymentSubmitted
| PaymentResultDump (payment_result : pyval)
| TransactionHash (tx_hash : pyval)
| ViewOnExplorer (explorer_url : fstr)
| WalletSentAda
| PaymentFailed (e : exn)
| PaymentResponse (response_text : string)
| PossibleIssues
| PaymentError (e : exn)
| WaitingForConfirmation
| StatusChange (elapsed : Z) (job_status payment_status : pyval)
| ServiceCompleted
| ServiceResult (result : pyval)
| ServiceFailed
| StatusPayload (status_data : pyval)
| StatusCheckError (e : exn)
| SummaryWhatHappened (amount_ada : Q) (network : string)
| SummaryNetwork (network : string)
| SummaryContract (blockchain_id : pyval)
| SummaryAmount (amount_ada : Q)
| SummaryTransaction (tx_hash : pyval)
| SummaryExplorer (explorer_url : fstr)
| SummaryClosing.

(** The text of the main line each site prints. [StatusPayload] and
    [PaymentResultDump] print [json.dumps(v, indent=2)], shown as [{v}]. *)
Definition message (l : line) : fstr :=
  match l with
  | Plain t => [Lit t]
  | Banner => [Lit "REAL WALLET PURCHASE TEST - MASUMI NETWORK"]
  | ConfigReport a p n =>
      [Lit "Service URL: "; Lit a; Lit " Payment Service: "; Lit p;
       Lit " Network: "; Lit n]
  | Timestamp now => [Lit "Timestamp: "; Fmt (PInt now)]
  | SetupRequired _ _ _ => [Lit "You need to set up a purchaser wallet first!"]
  | PurchaserConfigured => [Lit "Purchaser wallet configured!"]
  | Header t => [Lit t]
  | ServiceOnline => [Lit "AI Service is online and ready!"]
  | CannotConnect e => [Lit "Cannot connect to service: "; FmtExn e]
  | RunApiHint => [Lit "Make sure to run: python main.py api"]
  | RequestingEmail r s =>
      [Lit "Requesting email to: '"; Lit r; Lit "' with subject '"; Lit s; Lit "'"]
  | JobCreated j => [Lit "Job Created: "; Fmt j]
  | BlockchainContract b => [Lit "Blockchain Contract: "; Fmt b]
  | PaymentRequired a l =>
      [Lit "Payment Required: "; Fmt (PFloat a); Lit " ADA ("; Fmt l; Lit " lovelace)"]
  | TrackOnExplorer u => Lit "Track on explorer: " :: u
  | FailedToCreateJob e => [Lit "Failed to create job: "; FmtExn e]
  | InitiatingPayment a =>
      [Lit "Paying "; Fmt (PFloat a); Lit " ADA to smart contract..."]
  | PaymentSubmitted => [Lit "PAYMENT TRANSACTION SUBMITTED!"]
  | PaymentResultDump v => [Fmt v]
  | TransactionHash t => [Lit "Transaction Hash: "; Fmt t]
  | ViewOnExplorer u => Lit "View on Cardano Explorer: " :: u
  | WalletSentAda => [Lit "Your wallet has sent ADA on the Cardano blockchain!"]
  | PaymentFailed e => [Lit "Payment failed: "; FmtExn e]
  | PaymentResponse t => [Lit "Response: "; Lit t]
  | PossibleIssues => [Lit "Possible issues:"]
  | PaymentError e => [Lit "Payment error: "; FmtExn e]
  | WaitingForConfirmation => [Lit "Waiting for blockchain confirmation..."]
  | StatusChange s j p =>
      [Lit "["; Fmt (PInt s); Lit "s] Job: "; Fmt j; Lit " | Payment: "; Fmt p]
  | ServiceCompleted => [Lit "SERVICE COMPLETED!"]
  | ServiceResult r => [Fmt r]
  | ServiceFailed => [Lit "Service execution failed!"]
  | StatusPayload v => [Fmt v]
  | StatusCheckError e => [Lit "Status check error: "; FmtExn e]
  | SummaryWhatHappened a n =>
      [Lit "Your testnet wallet address sent "; Fmt (PFloat a); Lit " ADA";
       Lit " Transaction recorded on Cardano "; Lit n; Lit " blockchain"]
  | SummaryNetwork n => [Lit "Network: Cardano "; Lit n]
  | SummaryContract b => [Lit "Smart Contract: "; FmtPrefix 32 b; Lit "..."]
  | SummaryAmount a => [Lit "Amount: "; Fmt (PFloat a); Lit " ADA"]
  | SummaryTransaction t => [Lit "Transaction: "; FmtPrefix 32 t; Lit "..."]
  | SummaryExplorer u => Lit "Explorer: " :: u
  | SummaryClosing => [Lit "REAL BLOCKCHAIN TRANSACTION COMPLETE!"]
  end.

Inductive event : Type :=
| Request (r : request)          (* requests.get / requests.post *)
| Input (prompt : string)        (* input(prompt) *)
| Sleep (seconds : Z)            (* await asyncio.sleep(seconds) *)
| Print (l : line).

(** A reply of [requests]: after [latency] milliseconds the call raises
    or returns a response. [json] is what [response.json()] gives, [None]
    when the body is not JSON. *)
Record response : Type := {
  status_code : Z;
  text : string;
  json : option pyval
}.

Record reply : Type := {
  latency : N;
  outcome : exn + response
}.

Record World : Type := {
  environ : string -> option string;   (* os.environ after load_dotenv *)
  stdin : list string;                 (* the lines the user types *)
  start_clock : Z;                     (* the clock when main starts *)
  availability_reply : reply;
  start_job_reply : reply;
  purchase_reply : reply;
  status_reply : nat -> reply;         (* reply to the i-th status poll *)
  sleep_overrun : nat -> N;            (* how late the i-th sleep returns *)
  int_of_str : string -> option Z      (* int(s) of the interpreter; None: ValueError *)
}.

Definition M := Run.M event.

Definition say (l : line) : M unit := emit (Print l).

(** [os.getenv(name, default)] *)
Definition getenv (w : World) (name default : string) : string :=
  match environ w name with
  | Some v => v
  | None => default
  end.

(** [input(prompt) or default], for the [n]-th line of standard input *)
Definition input_or (w : World) (n : nat) (prompt default : string) : M string :=
  emit (Input prompt) ;;
  match nth_error (stdin w) n with
  | Some s => ret (if String.eqb s EmptyString then default else s)
  | None => raise (Exception "EOFError" "EOF when reading a line")
  end.

Definition http (rq : request) (rp : reply) : M response :=
  emit (Request rq) ;;
  advance (latency rp) ;;
  lift (outcome rp).

(** [response.raise_for_status()] raises on a 4xx or 5xx status. *)
Definition error_status (r : response) : bool :=
  (400 <=? status_code r) && (status_code r <? 600).

Definition raise_for_status (r : response) : M unit :=
  if error_status r
  then raise (HTTPError (status_code r) (text r))
  else ret tt.

(** [response.json()] *)
Definition response_json (r : response) : M pyval :=
  match json r with
  | Some v => ret v
  | None => raise (JSONDecodeError "Expecting value")
  end.

Definition AGENT_URL (w : World) : string :=
  getenv w "AGENT_API_URL" "https://emailagent-production-cc02.up.railway.app".
Definition PAYMENT_SERVICE_URL (w : World) : string :=
  getenv w "PAYMENT_SERVICE_URL"
    "https://masumi-payment-service-production-8680.up.railway.app/api/v1".
Definition PURCHASER_API_KEY (w : World) : option string :=
  environ w "PURCHASER_API_KEY".
Definition NETWORK (w : World) : string := getenv w "NETWORK" "Preprod".

(** [not PURCHASER_API_KEY] *)
Definition no_purchaser_key (w : World) : bool :=
  match PURCHASER_API_KEY w with
  | None => true
  | Some k => String.eqb k EmptyString
  end.

Definition token (w : World) : string :=
  match PURCHASER_API_KEY w with
  | Some k => k
  | None => EmptyString
  end.

(** *** Step 1: availability *)

Definition availability_url (w : World) : string := AGENT_URL w ++ "/availability".

Definition check_availability (w : World) : M unit :=
  say (Header "Step 1: Checking Service Availability") ;;
  try_except
    (response <- http (GET (availability_url w) [] 10) (availability_reply w) ;;
     raise_for_status response ;;
     say ServiceOnline)
    (fun e =>
       say (CannotConnect e) ;;
       say RunApiHint ;;
       return_).

(** *** Step 2: job creation *)

Definition start_job_url (w : World) : string := AGENT_URL w ++ "/start_job".

Definition job_payload (w : World) (recipient subject body : string) : pyval :=
  PDict [("identifier_from_purchaser",
          PStr (getenv w "PURCHASER_IDENTIFIER" "2ccab9ca3c8fd56f"));
         ("input_data",
          PDict [("recipient_email", PStr recipient);
                 ("subject", PStr subject);
                 ("body", PStr body)])].

(** What step 2 leaves in the local variables of [main]. *)
Record job : Type := {
  job_id : pyval;
  blockchain_id : pyval;
  amount_lovelace : pyval;
  amount_ada : Q;
  payment_details : pyval;
  explorer_url : fstr
}.

(** Sequencing of expressions that may raise. *)
Definition and_then {A B} (x : exn + A) (f : A -> exn + B) : exn + B :=
  match x with
  | inl e => inl e
  | inr a => f a
  end.
Notation "x <~ m ;; k" := (and_then m (fun x => k))
  (at level 61, m at next level, right associativity) : run_scope.

Definition explorer (network : string) (id : pyval) : fstr :=
  if String.eqb network "Preprod"
  then [Lit "https://preprod.cardanoscan.io/transaction/"; Fmt id]
  else [Lit "https://cardanoscan.io/transaction/"; Fmt id].

(** Lines 160 to 179: the reads of [job_data] and the [payment_details]
    dict, in the order of the source. *)
Definition read_job (w : World) (job_data : pyval) : exn + job :=
  job_id <~ getitem job_data "job_id" ;;
  blockchain_id <~ getitem job_data "blockchainIdentifier" ;;
  amounts0 <~ getitem job_data "amounts" ;;
  first <~ getitem0 amounts0 ;;
  amount_lovelace <~ getitem first "amount" ;;
  n <~ py_int (int_of_str w) amount_lovelace ;;
  amount_ada <~ true_div n 1000000 ;;
  input_hash <~ getitem job_data "input_hash" ;;
  seller_vkey <~ getitem job_data "sellerVKey" ;;
  agent_identifier <~ getitem job_data "agentIdentifier" ;;
  unlock_time <~ getitem job_data "unlockTime" ;;
  external_dispute_unlock_time <~ getitem job_data "externalDisputeUnlockTime" ;;
  submit_result_time <~ getitem job_data "submitResultTime" ;;
  pay_by_time <~ getitem job_data "payByTime" ;;
  identifier_from_purchaser <~ getitem job_data "identifierFromPurchaser" ;;
  amounts <~ getitem job_data "amounts" ;;
  inr {| job_id := job_id;
         blockchain_id := blockchain_id;
         amount_lovelace := amount_lovelace;
         amount_ada := amount_ada;
         payment_details :=
           PDict [("blockchainIdentifier", blockchain_id);
                  ("network", PStr (NETWORK w));
                  ("inputHash", input_hash);
                  ("sellerVkey", seller_vkey);
                  ("agentIdentifier", agent_identifier);
                  ("paymentType", PStr "Web3CardanoV1");
                  ("unlockTime", unlock_time);
                  ("externalDisputeUnlockTime", external_dispute_unlock_time);
                  ("submitResultTime", submit_result_time);
                  ("payByTime", pay_by_time);
                  ("identifierFromPurchaser", identifier_from_purchaser);
                  ("amounts", amounts)];
         explorer_url := explorer (NETWORK w) blockchain_id |}.

Definition create_job (w : World) : M job :=
  say (Header "Step 2: Creating Service Request with Payment") ;;
  recipient <- input_or w 0 "Recipient email (default: user@example.com): "
                 "user@example.com" ;;
  subject <- input_or w 1 "Email subject (default: Test Email Subject): "
               "Test Email Subject" ;;
  body <- input_or w 2 "Email body (default test body): "
            "This is a test email sent via Masumi-paid agent." ;;
  say (RequestingEmail recipient subject) ;;
  try_except
    (response <- http (POST (start_job_url w) (job_payload w recipient subject body)
                         [] 30)
                   (start_job_reply w) ;;
     raise_for_status response ;;
     job_data <- response_json response ;;
     j <- lift (read_job w job_data) ;;
     say (JobCreated (job_id j)) ;;
     say (BlockchainContract (blockchain_id j)) ;;
     say (PaymentRequired (amount_ada j) (amount_lovelace j)) ;;
     say (TrackOnExplorer (explorer_url j)) ;;
     ret j)
    (fun e =>
       say (FailedToCreateJob e) ;;
       return_).

(** *** Step 3: payment *)

Definition purchase_url (w : World) : string := PAYMENT_SERVICE_URL w ++ "/purchase".

Definition purchase_headers (w : World) : list (string * string) :=
  [("Content-Type", "application/json"); ("token", token w)].

(** Lines 218 and 219 *)
Definition read_tx_hash (payment_result : pyval) : exn + pyval :=
  data <~ dict_get_or_empty payment_result "data" ;;
  tx <~ dict_get data "txHash" ;;
  if truthy tx then inr tx
  else
    data' <~ dict_get_or_empty payment_result "data" ;;
    dict_get data' "transactionHash".

(** The result is [(tx_hash, explorer_url)] as the summary will read them. *)
Definition submit_payment (w : World) (j : job) : M (pyval * fstr) :=
  say (Header "Step 3: Making Real Blockchain Payment from Your Wallet") ;;
  say (Plain "Initiating payment from your testnet wallet...") ;;
  say (InitiatingPayment (amount_ada j)) ;;
  try_except
    (response <- http (POST (purchase_url w) (payment_details j)
                         (purchase_headers w) 60)
                   (purchase_reply w) ;;
     raise_for_status response ;;
     payment_result <- response_json response ;;
     say PaymentSubmitted ;;
     say (PaymentResultDump payment_result) ;;
     tx_hash <- lift (read_tx_hash payment_result) ;;
     (if truthy tx_hash
      then say (TransactionHash tx_hash) ;;
           say (ViewOnExplorer (explorer (NETWORK w) tx_hash))
      else ret tt) ;;
     say WalletSentAda ;;
     ret (tx_hash,
          if truthy tx_hash then explorer (NETWORK w) tx_hash else explorer_url j))
    (fun e =>
       match e with
       | HTTPError _ response_text =>
           say (PaymentFailed e) ;;
           say (PaymentResponse response_text) ;;
           say PossibleIssues ;;
           return_
       | _ =>
           say (PaymentError e) ;;
           return_
       end).

(** *** Step 4: monitoring *)

Definition max_wait : Z := 300.         (* seconds *)
Definition poll_interval : Z := 5.      (* seconds *)
Definition ms (seconds : Z) : Z := 1000 * seconds.

Definition status_url (w : World) : string := AGENT_URL w ++ "/status".

Definition status_request (w : World) (j : job) : request :=
  GET (status_url w) [("job_id", job_id j)] 10.

(** [await asyncio.sleep(5)] in iteration [i] *)
Definition sleep (w : World) (i : nat) : M unit :=
  emit (Sleep poll_interval) ;;
  advance (5000 + sleep_overrun w i)%N.

(** One iteration of the [while] loop, the [i]-th. The result is the new
    [last_status] and whether the iteration ended in [break]. An exception
    can only come from the first five statements of the [try] block, before
    [last_status] is assigned. *)
Definition poll (w : World) (j : job) (start_time : Z) (i : nat)
    (last_status : pyval) : M (pyval * bool) :=
  try_except
    (response <- http (status_request w j) (status_reply w i) ;;
     raise_for_status response ;;
     status_data <- response_json response ;;
     job_status <- lift (dict_get status_data "status") ;;
     payment_status <- lift (dict_get status_data "payment_status") ;;
     last_status' <-
       (if negb (py_eq job_status last_status)
        then now <- time ;;
             say (StatusChange ((now - start_time) / 1000) job_status payment_status) ;;
             ret job_status
        else ret last_status) ;;
     if py_eq job_status (PStr "completed") then
       say ServiceCompleted ;;
       result <- lift (dict_get status_data "result") ;;
       (if truthy result
        then say (Header "Your AI Service Result") ;; say (ServiceResult result)
        else ret tt) ;;
       ret (last_status', true)
     else if py_eq job_status (PStr "failed") then
       say ServiceFailed ;;
       say (StatusPayload status_data) ;;
       ret (last_status', true)
     else
       sleep w i ;;
       ret (last_status', false))
    (fun e =>
       say (StatusCheckError e) ;;
       sleep w i ;;
       ret (last_status, false)).

(** [while (time.time() - start_time) < max_wait: ...], with one unit of
    fuel for each iteration. *)
Fixpoint monitor_loop (fuel : nat) (w : World) (j : job) (start_time : Z)
    (i : nat) (last_status : pyval) : M unit :=
  now <- time ;;
  if now - start_time <? ms max_wait then
    match fuel with
    | O => out_of_fuel
    | S fuel' =>
        r <- poll w j start_time i last_status ;;
        if snd r then ret tt
        else monitor_loop fuel' w j start_time (S i) (fst r)
    end
  else ret tt.

(** Every iteration that does not break sleeps five seconds, so sixty
    iterations exhaust [max_wait] (lemma [monitor_total]). *)
Definition monitor_fuel : nat := 60.

Definition monitor (w : World) (j : job) : M unit :=
  say (Header "Step 4: Monitoring Blockchain & Service Execution") ;;
  say WaitingForConfirmation ;;
  say (Plain "This may take 20-60 seconds on Cardano testnet") ;;
  start_time <- time ;;
  monitor_loop monitor_fuel w j start_time 0 PNone.

(** *** Step 5: summary *)

(** [v[:32]] raises unless [v] is a sequence. *)
Definition prefix32 (v : pyval) : M unit :=
  match v with
  | PStr _ | PList _ => ret tt
  | _ => raise (Exception "TypeError" "object is not subscriptable")
  end.

Definition summary (w : World) (j : job) (tx : pyval * fstr) : M unit :=
  say (Header "Transaction Summary") ;;
  say (Plain "WHAT HAPPENED:") ;;
  say (SummaryWhatHappened (amount_ada j) (NETWORK w)) ;;
  say (Plain "Smart contract received and verified payment") ;;
  say (Plain "AI service executed your request") ;;
  say (Plain "Result delivered to you") ;;
  say (Plain "Payment released to seller's wallet") ;;
  say (Plain "BLOCKCHAIN VERIFICATION:") ;;
  say (SummaryNetwork (NETWORK w)) ;;
  prefix32 (blockchain_id j) ;;
  say (SummaryContract (blockchain_id j)) ;;
  say (SummaryAmount (amount_ada j)) ;;
  (if truthy (fst tx)
   then prefix32 (fst tx) ;;
        say (SummaryTransaction (fst tx)) ;;
        say (SummaryExplorer (snd tx))
   else ret tt) ;;
  say (Plain "YOUR WALLET:") ;;
  say (Plain "Test ADA was deducted from your wallet") ;;
  say (Plain "You can check your wallet balance in Masumi dashboard") ;;
  say (Plain "Transaction is permanently recorded on blockchain") ;;
  say SummaryClosing ;;
  say (Plain "This was a REAL transaction on Cardano testnet!") ;;
  say (Plain "Check the Cardano explorer link above to verify on-chain").

(** *** main *)

Definition main (w : World) : M unit :=
  say Banner ;;
  say (ConfigReport (AGENT_URL w) (PAYMENT_SERVICE_URL w) (NETWORK w)) ;;
  now <- time ;;
  say (Timestamp now) ;;
  (if no_purchaser_key w
   then say (SetupRequired (PAYMENT_SERVICE_URL w) (environ w "PAYMENT_API_KEY")
               (NETWORK w)) ;;
        return_
   else ret tt) ;;
  say PurchaserConfigured ;;
  check_availability w ;;
  j <- create_job w ;;
  tx <- submit_payment w j ;;
  monitor w j ;;
  summary w j tx.

Definition run_main (w : World) : run event unit := main w (start_clock w).

(** *** What a run observes of its world

    The functions below read off a world what the [try] blocks of [main]
    will see; the lemmas of [PurchaseFacts] connect them to [main]. *)

(** [requests.get/post(...); raise_for_status(); response.json()] on a
    reply: the exception raised or the parsed body. *)
Definition received (rp : reply) : exn + pyval :=
  match outcome rp with
  | inl e => inl e
  | inr r =>
      if error_status r then inl (HTTPError (status_code r) (text r))
      else match json r with
           | Some v => inr v
           | None => inl (JSONDecodeError "Expecting value")
           end
  end.

(** The exception of the health check, if it fails. *)
Definition availability_error (w : World) : option exn :=
  match outcome (availability_reply w) with
  | inl e => Some e
  | inr r =>
      if error_status r then Some (HTTPError (status_code r) (text r)) else None
  end.

(** The three answers of the user, when standard input has them. *)
Definition answers (w : World) : option (string * string * string) :=
  match stdin w with
  | a :: b :: c :: _ =>
      Some (if String.eqb a EmptyString then "user@example.com" else a,
            if String.eqb b EmptyString then "Test Email Subject" else b,
            if String.eqb c EmptyString
            then "This is a test email sent via Masumi-paid agent." else c)
  | _ => None
  end.

(** The job step 2 creates, or the exception its [try] block raises. *)
Definition created_job (w : World) : exn + job :=
  job_data <~ received (start_job_reply w) ;;
  read_job w job_data.

(** The run gets as far as the payment with job [j]. *)
Definition reaches_payment (w : World) (j : job) : Prop :=
  no_purchaser_key w = false /\
  availability_error w = None /\
  answers w <> None /\
  created_job w = inr j.

(** What the [i]-th poll reads: the exception of its [try] block, or
    [status_data], [job_status] and [payment_status]. *)
Definition polled (w : World) (i : nat) : exn + (pyval * pyval * pyval) :=
  status_data <~ received (status_reply w i) ;;
  job_status <~ dict_get status_data "status" ;;
  payment_status <~ dict_get status_data "payment_status" ;;
  inr (status_data, job_status, payment_status).

(** [status_data.get("result")] once [status_data] is known to be a dict *)
Definition result_of (status_data : pyval) : pyval :=
  match dict_get status_data "result" with
  | inr v => v
  | inl _ => PNone
  end.

Definition is_completed (job_status : pyval) : bool :=
  py_eq job_status (PStr "completed").
Definition is_failed (job_status : pyval) : bool :=
  py_eq job_status (PStr "failed").

(** The [i]-th poll does not end the loop: it raises, or its status is
    neither "completed" nor "failed". *)
Definition non_terminal (w : World) (i : nat) : Prop :=
  match polled w i with
  | inl _ => True
  | inr (_, job_status, _) =>
      is_completed job_status = false /\ is_failed job_status = false
  end.

(** The requests of steps 1 to 3. *)
Definition availability_request (w : World) : request :=
  GET (availability_url w) [] 10.
Definition start_job_request (w : World) (r s b : string) : request :=
  POST (start_job_url w) (job_payload w r s b) [] 30.

Definition purchase_request (w : World) (j : job) : request :=
  POST (purchase_url w) (payment_details j) (purchase_headers w) 60.

(** What step 2 does before the reply to [POST /start_job] arrives. *)
Definition create_job_prefix (w : World) (r s b : string) (t : Z) : list (Z * event) :=
  [(t, Print (Header "Step 2: Creating Service Request with Payment"));
   (t, Input "Recipient email (default: user@example.com): ");
   (t, Input "Email subject (default: Test Email Subject): ");
   (t, Input "Email body (default test body): ");
   (t, Print (RequestingEmail r s));
   (t, Request (POST (start_job_url w) (job_payload w r s b) [] 30))].

(** The transaction hash step 3 reads, or the exception its [try] block
    raises. *)
Definition paid (w : World) : exn + pyval :=
  payment_result <~ received (purchase_reply w) ;;
  read_tx_hash payment_result.

(** The clock when the [i]-th poll started at [t] has its reply, and when
    the sleep that started at [t] is over. *)
Definition answered (w : World) (i : nat) (t : Z) : Z :=
  t + Z.of_N (latency (status_reply w i)).

Definition woke (w : World) (i : nat) (t : Z) : Z :=
  t + Z.of_N (5000 + sleep_overrun w i).

(** The status-change line of a poll that read [s] and [p] at [t]. *)
Definition change_record (start t : Z) (s p last : pyval) : list (Z * event) :=
  if py_eq s last then []
  else [(t, Print (StatusChange ((t - start) / 1000) s p))].

(** What a poll that read [d] with status [s] does after the change
    record. *)
Definition outcome_record (t : Z) (d s : pyval) : list (Z * event) :=
  if is_completed s then
    (t, Print ServiceCompleted)
    :: (if truthy (result_of d)
        then [(t, Print (Header "Your AI Service Result"));
              (t, Print (ServiceResult (result_of d)))]
        else [])
  else if is_failed s then
    [(t, Print ServiceFailed); (t, Print (StatusPayload d))]
  else [(t, Sleep poll_interval)].

(** Lines the monitor prints while the job is still running. Every other
    line of the loop reports an outcome. *)
Definition progress_line (l : line) : bool :=
  match l with
  | StatusChange _ _ _ | StatusCheckError _ => true
  | _ => false
  end.

Definition outcome_lines (tr : list (Z * event)) : list line :=
  flat_map (fun te => match snd te with
                      | Print l => if progress_line l then [] else [l]
                      | _ => []
                      end) tr.

Definition change_records (tr : list (Z * event)) : list line :=
  flat_map (fun te => match snd te with
                      | Print (StatusChange s a b) => [StatusChange s a b]
                      | _ => []
                      end) tr.

(** The clock readings at which the requests of a trace were issued. *)
Definition request_times (tr : list (Z * event)) : list Z :=
  flat_map (fun te => match snd te with Request _ => [fst te] | _ => [] end) tr.

(** The keys of [payment_details], in the order of the dict literal, and
    for those whose value is read from [job_data], the key read there. *)
Definition descriptor_keys : list string :=
  ["blockchainIdentifier"; "network"; "inputHash"; "sellerVkey";
   "agentIdentifier"; "paymentType"; "unlockTime";
   "externalDisputeUnlockTime"; "submitResultTime"; "payByTime";
   "identifierFromPurchaser"; "amounts"].

Definition forwarded_fields : list (string * string) :=
  [("blockchainIdentifier", "blockchainIdentifier");
   ("inputHash", "input_hash");
   ("sellerVkey", "sellerVKey");
   ("agentIdentifier", "agentIdentifier");
   ("unlockTime", "unlockTime");
   ("externalDisputeUnlockTime", "externalDisputeUnlockTime");
   ("submitResultTime", "submitResultTime");
   ("payByTime", "payByTime");
   ("identifierFromPurchaser", "identifierFromPurchaser");
   ("amounts", "amounts")].

(** Text: [needle] occurs in [s]; [needle] occurs in a literal part of an
    f-string. *)
Definition occurs_in (needle s : string) : Prop :=
  exists before after, s = before ++ needle ++ after.
Definition shows (needle : string) (t : fstr) : Prop :=
  exists s, In (Lit s) t /\ occurs_in needle s.

(** The requests of a run, in order. *)
Definition requests (tr : list (Z * event)) : list request :=
  flat_map (fun te => match snd te with Request r => [r] | _ => [] end) tr.

Definition prints (tr : list (Z * event)) : list line :=
  flat_map (fun te => match snd te with Print l => [l] | _ => [] end) tr.

(** The run of [m] does not stop for lack of fuel, whenever it starts. *)
Definition within_fuel {A} (m : M A) : Prop :=
  forall t, result (m t) <> OutOfFuel.

(** Each of the four [except] sites of [main] prints the exception [e]
    when it is the one its [try] block raises. *)
Definition handlers_print (w : World) (j : job) (e : exn) : Prop :=
  (forall t, availability_error w = Some e ->
     In (CannotConnect e) (prints (trace (check_availability w t)))) /\
  (forall t, answers w <> None -> created_job w = inl e ->
     In (FailedToCreateJob e) (prints (trace (create_job w t)))) /\
  (forall t, paid w = inl e ->
     In (match e with
         | HTTPError _ _ => PaymentFailed e
         | _ => PaymentError e
         end) (prints (trace (submit_payment w j t)))) /\
  (forall start i last t, polled w i = inl e ->
     In (StatusCheckError e) (prints (trace (poll w j start i last t)))).

(** *** Further observations of a run *)

(** The keys that lines 160 to 178 read with [job_data[...]], in the
    order of the source. *)
Definition required_fields : list string :=
  ["job_id"; "blockchainIdentifier"; "amounts"; "input_hash"; "sellerVKey";
   "agentIdentifier"; "unlockTime"; "externalDisputeUnlockTime";
   "submitResultTime"; "payByTime"; "identifierFromPurchaser"].

(** [v[:32]] is defined: [v] is a sequence. *)
Definition sliceable (v : pyval) : bool :=
  match v with
  | PStr _ | PList _ => true
  | _ => false
  end.

(** The explorer link [main] keeps after step 3: the one of the
    transaction when there is a hash, else the one of the contract. *)
Definition link (w : World) (j : job) (tx_hash : pyval) : fstr :=
  if truthy tx_hash then explorer (NETWORK w) tx_hash else explorer_url j.

(** The clock when step 2 and step 3 start, in a run that gets there. *)
Definition job_time (w : World) : Z :=
  start_clock w + Z.of_N (latency (availability_reply w)).
Definition payment_time (w : World) : Z :=
  job_time w + Z.of_N (latency (start_job_reply w)).

(** What such a run has printed when step 3 starts. *)
Definition opening_lines (w : World) (r s : string) (j : job) : list line :=
  [Banner;
   ConfigReport (AGENT_URL w) (PAYMENT_SERVICE_URL w) (NETWORK w);
   Timestamp (start_clock w);
   PurchaserConfigured;
   Header "Step 1: Checking Service Availability";
   ServiceOnline;
   Header "Step 2: Creating Service Request with Payment";
   RequestingEmail r s;
   JobCreated (job_id j);
   BlockchainContract (blockchain_id j);
   PaymentRequired (amount_ada j) (amount_lovelace j);
   TrackOnExplorer (explorer_url j)].

(** The lines of step 3 when the purchase request is answered with the
    JSON value [payment_result], up to the reading of the hash. *)
Definition submitted_lines (j : job) (payment_result : pyval) : list line :=
  [Header "Step 3: Making Real Blockchain Payment from Your Wallet";
   Plain "Initiating payment from your testnet wallet...";
   InitiatingPayment (amount_ada j);
   PaymentSubmitted;
   PaymentResultDump payment_result].

(** The lines the monitor prints before its first poll. *)
Definition monitor_opening : list line :=
  [Header "Step 4: Monitoring Blockchain & Service Execution";
   WaitingForConfirmation;
   Plain "This may take 20-60 seconds on Cardano testnet"].

(** The lines of step 5 for the hash [tx_hash]: those before the slice of
    the contract identifier, those up to the slice of the hash, and the
    rest. *)
Definition summary_head (w : World) (j : job) : list line :=
  [Header "Transaction Summary";
   Plain "WHAT HAPPENED:";
   SummaryWhatHappened (amount_ada j) (NETWORK w);
   Plain "Smart contract received and verified payment";
   Plain "AI service executed your request";
   Plain "Result delivered to you";
   Plain "Payment released to seller's wallet";
   Plain "BLOCKCHAIN VERIFICATION:";
   SummaryNetwork (NETWORK w)].

Definition summary_contract (j : job) : list line :=
  [SummaryContract (blockchain_id j); SummaryAmount (amount_ada j)].

Definition summary_tail : list line :=
  [Plain "YOUR WALLET:";
   Plain "Test ADA was deducted from your wallet";
   Plain "You can check your wallet balance in Masumi dashboard";
   Plain "Transaction is permanently recorded on blockchain";
   SummaryClosing;
   Plain "This was a REAL transaction on Cardano testnet!";
   Plain "Check the Cardano explorer link above to verify on-chain"].

Definition summary_lines (w : World) (j : job) (tx_hash : pyval) : list line :=
  summary_head w j
  ++ summary_contract j
  ++ (if truthy tx_hash
      then [SummaryTransaction tx_hash; SummaryExplorer (link w j tx_hash)]
      else [])
  ++ summary_tail.

(** The prompts a run has shown. *)
Definition prompts (tr : list (Z * event)) : list string :=
  flat_map (fun te => match snd te with Input p => [p] | _ => [] end) tr.

(** Successive clock readings are at least [gap] apart. *)
Fixpoint spaced (gap : Z) (l : list Z) : Prop :=
  match l with
  | a :: (b :: _) as r => a + gap <= b /\ spaced gap r
  | _ => True
  end.

(** All lines are status changes, and the status of each differs from
    the status of the one before it, that of the first from [last]. *)
Fixpoint changes_from (last : pyval) (l : list line) : Prop :=
  match l with
  | [] => True
  | StatusChange _ s _ :: r => py_eq s last = false /\ changes_from s r
  | _ :: _ => False
  end.






(** The outcome lines the loop can print: none, or those of one poll that
    read "completed" or "failed" in the payload [d]. *)
Inductive verdict : list line -> Prop :=
| NoVerdict : verdict []
| Completed (d : pyval) :
    verdict (ServiceCompleted
             :: (if truthy (result_of d)
                 then [Header "Your AI Service Result"; ServiceResult (result_of d)]
                 else []))
| Failed (d : pyval) : verdict [ServiceFailed; StatusPayload d].

(** The traces of the [while] loop, iteration by iteration: the loop
    entered at iteration [i] with [last_status = last] when the clock
    reads [t] leaves the trace [tr] and the clock [c]. An iteration is
    run only before the deadline; it raises and sleeps, or reads a
    terminal status and breaks, or reads another status and sleeps. *)
Inductive loop_trace (w : World) (j : job) (start : Z)
  : nat -> pyval -> Z -> list (Z * event) -> Z -> Prop :=
| LoopEnds i last t : loop_trace w j start i last t [] t
| LoopRetries i last t e tr c :
    t - start < ms max_wait ->
    polled w i = inl e ->
    loop_trace w j start (S i) last (woke w i (answered w i t)) tr c ->
    loop_trace w j start i last t
      ((t, Request (status_request w j))
       :: (answered w i t, Print (StatusCheckError e))
       :: (answered w i t, Sleep poll_interval) :: tr) c
| LoopBreaks i last t d s p :
    t - start < ms max_wait ->
    polled w i = inr (d, s, p) ->
    is_completed s || is_failed s = true ->
    loop_trace w j start i last t
      ((t, Request (status_request w j))
       :: change_record start (answered w i t) s p last
       ++ outcome_record (answered w i t) d s) (answered w i t)
| LoopGoesOn i last t d s p tr c :
    t - start < ms max_wait ->
    polled w i = inr (d, s, p) ->
    is_completed s || is_failed s = false ->
    loop_trace w j start (S i) (if py_eq s last then last else s)
      (woke w i (answered w i t)) tr c ->
    loop_trace w j start i last t
      ((t, Request (status_request w j))
       :: change_record start (answered w i t) s p last
       ++ (answered w i t, Sleep poll_interval) :: tr) c.

End Purchase.

(** ** emailService.py *)

Module Email.
Import Py.
Local Open Scope list_scope.

(** What the logger receives, when there is one. *)
Inductive log : Type :=
| LogInfo (text : fstr)
| LogError (text : fstr).

(** A value of the [json_dict] of a result. *)
Inductive field : Type :=
| FVal (v : pyval)
| FBool (b : bool)
| FText (t : fstr).

(** class ServiceResult *)
Record ServiceResult : Type := {
  recipient : pyval;
  subject : pyval;
  success : bool;
  message : fstr;
  raw : fstr;
  json_dict : list (string * field)
}.

(** [ServiceResult.__init__] *)
Definition new_ServiceResult (recipient subject : pyval) (success : bool)
    (message : fstr) : ServiceResult :=
  {| recipient := recipient;
     subject := subject;
     success := success;
     message := message;
     raw := [Lit "Email "; Lit (if success then "sent" else "failed");
             Lit " to "; Fmt recipient; Lit ": "] ++ message;
     json_dict := [("recipient", FVal recipient);
                   ("subject", FVal subject);
                   ("success", FBool success);
                   ("message", FText message);
                   ("task", FVal (PStr "send_email"))] |}.

(** The mail handed to the provider. *)
Record SendSmtpEmail : Type := {
  to : pyval;
  sender_name_of : string;
  sender_email_of : string;
  mail_subject : pyval;
  text_content : pyval
}.

(** [chain.invoke] raises or returns a response whose [content] is a
    value, a [str] when the model answers with text. Before it, building
    the model, the prompt and the chain may raise ([chain_setup]). *)
Inductive llm_reply : Type :=
| LlmRaises (e : exn)
| LlmContent (content : pyval).

(** Building the mail and [send_transac_email] raise or return a response
    with a [message_id]. *)
Inductive send_reply : Type :=
| SendRaises (e : exn)
| SendReturns (message_id : pyval).

Record World : Type := {
  environ : string -> option string;        (* os.environ *)
  langchain_google_genai_installed : bool;
  langchain_installed : bool;
  chain_setup : option exn;                 (* lines 80 to 120, if they raise *)
  chain_invoke : string -> pyval -> pyval -> llm_reply;
                                            (* keypoints, subject, body *)
  json_loads : string -> exn + pyval;       (* json.loads on a str *)
  str_strip : string -> string;             (* str.strip() *)
  send_transac_email : SendSmtpEmail -> send_reply
}.

(** The module globals after the guarded import at the top of the file:
    both classes, or [None] twice. *)
Definition ChatGoogleGenerativeAI (w : World) : bool :=
  langchain_google_genai_installed w && langchain_installed w.
Definition ChatPromptTemplate (w : World) : bool :=
  langchain_google_genai_installed w && langchain_installed w.

Definition getenv (w : World) (name default : string) : string :=
  match environ w name with
  | Some v => v
  | None => default
  end.

(** class EmailService; [logger] tells whether one was given, and
    [has_api_instance] whether [api_instance] is not [None]. *)
Record EmailService : Type := {
  logger : bool;
  brevo_api_key : string;
  sender_email : string;
  sender_name : string;
  gemini_api_key : string;
  gemini_model_name : string;
  has_api_instance : bool
}.

Definition nonempty (s : string) : bool := negb (String.eqb s EmptyString).

(** [EmailService.__init__] *)
Definition new_EmailService (w : World) (logger : bool) : EmailService :=
  {| logger := logger;
     brevo_api_key := getenv w "BREVO_API_KEY" EmptyString;
     sender_email := getenv w "SENDER_EMAIL" EmptyString;
     sender_name := getenv w "SENDER_NAME" "Email Service";
     gemini_api_key := getenv w "GOOGLE_API_KEY" EmptyString;
     gemini_model_name := getenv w "GEMINI_MODEL_NAME" "gemini-1.5-flash";
     has_api_instance := nonempty (getenv w "BREVO_API_KEY" EmptyString) |}.

(** [if self.logger: self.logger.info(...)] *)
Definition info (self : EmailService) (t : fstr) : list log :=
  if logger self then [LogInfo t] else [].
Definition error (self : EmailService) (t : fstr) : list log :=
  if logger self then [LogError t] else [].

(** ["\n".join(keypoints)]: every item has to be a [str]. *)
Fixpoint join_lines (l : list pyval) : exn + string :=
  match l with
  | [] => inr EmptyString
  | [PStr s] => inr s
  | PStr s :: r =>
      match join_lines r with
      | inr t => inr (s ++ String (ascii_of_nat 10) t)%string
      | inl e => inl e
      end
  | _ => inl (Exception "TypeError" "sequence item: expected str instance")
  end.

(** Lines 135 to 142: [json.loads], and on a decode error a second
    [json.loads] on what the brace pattern finds. *)
Definition parse_reply (w : World) (text : string) : exn + pyval :=
  match json_loads w text with
  | inl (JSONDecodeError m) =>
      match search_braces text with
      | None => inl (JSONDecodeError m)
      | Some found => json_loads w found
      end
  | r => r
  end.

(** [(data.get(key) or original or "").strip()] *)
Definition pick (w : World) (data : pyval) (key : string) (original : pyval)
    : exn + pyval :=
  match dict_get data key with
  | inl e => inl e
  | inr v =>
      match py_or (py_or v original) (PStr EmptyString) with
      | PStr s => inr (PStr (str_strip w s))
      | _ => inl (Exception "AttributeError" "object has no attribute 'strip'")
      end
  end.

(** The body of the [try] of [_enhance_email_with_gemini], lines 77 to 150,
    without its log lines. *)
Definition enhance_try (w : World) (keypoints : list pyval)
    (original_subject original_body : pyval) : exn + (pyval * pyval) :=
  match chain_setup w with
  | Some e => inl e
  | None =>
      match join_lines keypoints with
      | inl e => inl e
      | inr points =>
          match chain_invoke w points original_subject original_body with
          | LlmRaises e => inl e
          | LlmContent (PStr text) =>
              match parse_reply w text with
              | inl e => inl e
              | inr data =>
                  match pick w data "subject" original_subject with
                  | inl e => inl e
                  | inr new_subject =>
                      match pick w data "body" original_body with
                      | inl e => inl e
                      | inr new_body => inr (new_subject, new_body)
                      end
                  end
              end
          | LlmContent _ =>
              inl (Exception "TypeError"
                     "the JSON object must be str, bytes or bytearray")
          end
      end
  end.

(** [EmailService._enhance_email_with_gemini]: the log lines and the pair
    [(subject, body)] it returns. *)
Definition _enhance_email_with_gemini (w : World) (self : EmailService)
    (keypoints : list pyval) (original_subject original_body : pyval)
    : list log * (pyval * pyval) :=
  if negb (ChatGoogleGenerativeAI w) || negb (ChatPromptTemplate w) then
    (info self [Lit "LangChain / Gemini not installed; skipping email enhancement."],
     (original_subject, original_body))
  else if negb (nonempty (gemini_api_key self)) then
    (info self [Lit "GOOGLE_API_KEY not set; skipping email enhancement."],
     (original_subject, original_body))
  else
    match enhance_try w keypoints original_subject original_body with
    | inr new =>
        (info self [Lit "Enhancing email with Gemini from keypoints."]
         ++ info self [Lit "Gemini enhancement completed."],
         new)
    | inl e =>
        (info self [Lit "Enhancing email with Gemini from keypoints."]
         ++ error self [Lit "Gemini enhancement failed, using original subject/body: ";
                        FmtExn e],
         (original_subject, original_body))
    end.

(** [input_data.get(key, "")] *)
Definition get_or_empty (input_data : list (string * pyval)) (key : string) : pyval :=
  match lookup key input_data with
  | Some v => v
  | None => PStr EmptyString
  end.

(** Lines 219 to 227: the mail built for the provider. *)
Definition outgoing (self : EmailService) (recipient_email subject body : pyval)
    : SendSmtpEmail :=
  {| to := PList [PDict [("email", recipient_email)]];
     sender_name_of := sender_name self;
     sender_email_of := sender_email self;
     mail_subject := subject;
     text_content := body |}.

(** Lines 186 to 248 of [execute_task]: validation and sending, on the
    subject and body the enhancement returned. *)
Definition validate_and_send (w : World) (self : EmailService)
    (recipient_email subject body : pyval) : list log * ServiceResult :=
  let fail (error_msg : fstr) :=
    (error self error_msg, new_ServiceResult recipient_email subject false error_msg) in
  if negb (truthy recipient_email) then fail [Lit "recipient_email is required"]
  else if negb (truthy subject) then fail [Lit "subject is required"]
  else if negb (truthy body) then fail [Lit "body is required"]
  else if negb (nonempty (brevo_api_key self)) then
    fail [Lit "Brevo API key not configured (BREVO_API_KEY missing)"]
  else if negb (nonempty (sender_email self)) then
    fail [Lit "Sender email not configured (SENDER_EMAIL missing)"]
  else if negb (has_api_instance self) then
    fail [Lit "Error sending email: ";
          FmtExn (Exception "AttributeError"
                    "'NoneType' object has no attribute 'send_transac_email'")]
  else
    match send_transac_email w (outgoing self recipient_email subject body) with
    | SendReturns message_id =>
        let success_msg :=
          [Lit "Email sent successfully to "; Fmt recipient_email;
           Lit " (Message ID: "; Fmt message_id; Lit ")"] in
        (info self success_msg,
         new_ServiceResult recipient_email subject true success_msg)
    | SendRaises (ApiException t) =>
        fail [Lit "Brevo API error: "; FmtExn (ApiException t)]
    | SendRaises e =>
        fail [Lit "Error sending email: "; FmtExn e]
    end.

(** [EmailService.execute_task] *)
Definition execute_task (w : World) (self : EmailService)
    (input_data : list (string * pyval)) : list log * ServiceResult :=
  let recipient_email := get_or_empty input_data "recipient_email" in
  let subject := get_or_empty input_data "subject" in
  let body := get_or_empty input_data "body" in
  let enhanced :=
    _enhance_email_with_gemini w self [subject; body] subject body in
  let sent :=
    validate_and_send w self recipient_email (fst (snd enhanced)) (snd (snd enhanced)) in
  (info self [Lit "Sending email to "; Fmt recipient_email;
              Lit " with subject: '"; Fmt subject; Lit "'"]
   ++ fst enhanced ++ fst sent,
   snd sent).

(** *** What a call observes *)

(** The enhancement step is not available: a library is missing or the
    API key is not set. *)
Definition unavailable (w : World) (self : EmailService) : Prop :=
  ChatGoogleGenerativeAI w = false \/
  ChatPromptTemplate w = false \/
  gemini_api_key self = EmptyString.

(** The subject and body [execute_task] validates and sends. *)
Definition enhanced (w : World) (self : EmailService)
    (input_data : list (string * pyval)) : pyval * pyval :=
  snd (_enhance_email_with_gemini w self
         [get_or_empty input_data "subject"; get_or_empty input_data "body"]
         (get_or_empty input_data "subject") (get_or_empty input_data "body")).

(** All five checks of [execute_task] pass. *)
Definition valid (self : EmailService) (recipient_email subject body : pyval) : bool :=
  truthy recipient_email && truthy subject && truthy body
  && nonempty (brevo_api_key self) && nonempty (sender_email self).

(** [get_agentic_service]; [logger] is [false] for the default [None]. *)
Definition get_agentic_service (w : World) (logger : bool) : EmailService :=
  new_EmailService w logger.

(** The enhancement step is available: both libraries are installed and
    the API key is set. *)
Definition available (w : World) (self : EmailService) : Prop :=
  ChatGoogleGenerativeAI w = true /\
  ChatPromptTemplate w = true /\
  gemini_api_key self <> EmptyString.

(** What the model is asked for the subject [s] and the body [b]. *)
Definition asked (w : World) (s b : string) : llm_reply :=
  chain_invoke w (s ++ String (ascii_of_nat 10) b)%string (PStr s) (PStr b).

(** The value the answer [d] of the model has for [key], when it is
    truthy. *)
Definition offered (d : list (string * pyval)) (key : string) : option pyval :=
  match lookup key d with
  | Some v => if truthy v then Some v else None
  | None => None
  end.

(** The text [(data.get(key) or original or "")] has before [strip()],
    for the answer [d] of the model and a [str] original; [None] when the
    value offered is not a [str], which has no [strip]. *)
Definition chosen (d : list (string * pyval)) (key original : string)
    : option string :=
  match offered d key with
  | Some (PStr x) => Some x
  | Some _ => None
  | None => Some original
  end.

(** The last entry of the log of a call that returns [r]. *)
Definition closing_entry (r : ServiceResult) : log :=
  if success r then LogInfo (message r) else LogError (message r).

End Email.

(** ** Sample worlds *)

Module Sample.
Import Py.

Definition dq : string := String (ascii_of_nat 34) EmptyString.

(** *** For the purchase script *)

Definition ok (v : pyval) : Purchase.reply :=
  {| Purchase.latency := 120;
     Purchase.outcome :=
       inr {| Purchase.status_code := 200;
              Purchase.text := EmptyString;
              Purchase.json := Some v |} |}.

Definition job_fields : list (string * pyval) :=
  [("job_id", PStr "job-1");
   ("blockchainIdentifier", PStr "contract-1");
   ("input_hash", PStr "hash-1");
   ("sellerVKey", PStr "vkey-1");
   ("agentIdentifier", PStr "agent-1");
   ("unlockTime", PInt 1700000300);
   ("externalDisputeUnlockTime", PInt 1700000400);
   ("submitResultTime", PInt 1700000200);
   ("payByTime", PInt 1700000100);
   ("identifierFromPurchaser", PStr "2ccab9ca3c8fd56f");
   ("amounts", PList [PDict [("amount", PStr "5000000")]])].

Definition status (s : string) : pyval :=
  PDict [("status", PStr s); ("payment_status", PStr "locked")].

Definition completed : pyval :=
  PDict [("status", PStr "completed"); ("payment_status", PStr "locked");
         ("result", PStr "Email sent")].

(** The purchaser key is set, every service answers, and the job is
    "pending" twice and then "completed". *)
Definition world : Purchase.World :=
  {| Purchase.environ :=
       fun name => if String.eqb name "PURCHASER_API_KEY" then Some "key-1" else None;
     Purchase.stdin := [EmptyString; EmptyString; EmptyString];
     Purchase.start_clock := 0;
     Purchase.availability_reply := ok (PDict []);
     Purchase.start_job_reply := ok (PDict job_fields);
     Purchase.purchase_reply := ok (PDict [("data", PDict [("txHash", PStr "abc123")])]);
     Purchase.status_reply :=
       fun i => match i with
                | 0%nat | 1%nat => ok (status "pending")
                | _ => ok completed
                end;
     Purchase.sleep_overrun := fun _ => 0%N;
     Purchase.int_of_str := int_of_ascii |}.

Definition with_availability (rp : Purchase.reply) (w : Purchase.World) : Purchase.World :=
  {| Purchase.environ := Purchase.environ w;
     Purchase.stdin := Purchase.stdin w;
     Purchase.start_clock := Purchase.start_clock w;
     Purchase.availability_reply := rp;
     Purchase.start_job_reply := Purchase.start_job_reply w;
     Purchase.purchase_reply := Purchase.purchase_reply w;
     Purchase.status_reply := Purchase.status_reply w;
     Purchase.sleep_overrun := Purchase.sleep_overrun w;
     Purchase.int_of_str := Purchase.int_of_str w |}.

Definition with_purchase (rp : Purchase.reply) (w : Purchase.World) : Purchase.World :=
  {| Purchase.environ := Purchase.environ w;
     Purchase.stdin := Purchase.stdin w;
     Purchase.start_clock := Purchase.start_clock w;
     Purchase.availability_reply := Purchase.availability_reply w;
     Purchase.start_job_reply := Purchase.start_job_reply w;
     Purchase.purchase_reply := rp;
     Purchase.status_reply := Purchase.status_reply w;
     Purchase.sleep_overrun := Purchase.sleep_overrun w;
     Purchase.int_of_str := Purchase.int_of_str w |}.

Definition with_status (f : nat -> Purchase.reply) (w : Purchase.World) : Purchase.World :=
  {| Purchase.environ := Purchase.environ w;
     Purchase.stdin := Purchase.stdin w;
     Purchase.start_clock := Purchase.start_clock w;
     Purchase.availability_reply := Purchase.availability_reply w;
     Purchase.start_job_reply := Purchase.start_job_reply w;
     Purchase.purchase_reply := Purchase.purchase_reply w;
     Purchase.status_reply := f;
     Purchase.sleep_overrun := Purchase.sleep_overrun w;
     Purchase.int_of_str := Purchase.int_of_str w |}.

Definition refused : Purchase.reply :=
  {| Purchase.latency := 30;
     Purchase.outcome := inl (Exception "ConnectionError" "Connection refused") |}.

(** The health check cannot connect. *)
Definition world_down : Purchase.World := with_availability refused world.

(** The body [{"message":"insufficient funds"}]. *)
Definition insufficient_funds : string :=
  "{" ++ dq ++ "message" ++ dq ++ ":" ++ dq ++ "insufficient funds" ++ dq ++ "}".

(** The payment service answers 402 with that body. *)
Definition world_rejected : Purchase.World :=
  with_purchase
    {| Purchase.latency := 200;
       Purchase.outcome :=
         inr {| Purchase.status_code := 402;
                Purchase.text := insufficient_funds;
                Purchase.json :=
                  Some (PDict [("message", PStr "insufficient funds")]) |} |}
    world.

(** The job stays "pending" for ever. *)
Definition world_pending : Purchase.World :=
  with_status (fun _ => ok (status "pending")) world.


(** The job is completed at the first poll, with the result [0]. *)
Definition world_result_zero : Purchase.World :=
  with_status
    (fun _ => ok (PDict [("status", PStr "completed"); ("result", PInt 0)]))
    world.

(** The first poll cannot connect, the second reads "completed". *)
Definition world_flaky : Purchase.World :=
  with_status (fun i => match i with 0%nat => refused | _ => ok completed end) world.

(** The job step 2 creates in [world]. *)
Definition job : Purchase.job :=
  {| Purchase.job_id := PStr "job-1";
     Purchase.blockchain_id := PStr "contract-1";
     Purchase.amount_lovelace := PStr "5000000";
     Purchase.amount_ada := 5;
     Purchase.payment_details :=
       PDict [("blockchainIdentifier", PStr "contract-1");
              ("network", PStr "Preprod");
              ("inputHash", PStr "hash-1");
              ("sellerVkey", PStr "vkey-1");
              ("agentIdentifier", PStr "agent-1");
              ("paymentType", PStr "Web3CardanoV1");
              ("unlockTime", PInt 1700000300);
              ("externalDisputeUnlockTime", PInt 1700000400);
              ("submitResultTime", PInt 1700000200);
              ("payByTime", PInt 1700000100);
              ("identifierFromPurchaser", PStr "2ccab9ca3c8fd56f");
              ("amounts", PList [PDict [("amount", PStr "5000000")]])];
     Purchase.explorer_url :=
       [Lit "https://preprod.cardanoscan.io/transaction/"; Fmt (PStr "contract-1")] |}.

(** No variable of the environment is set. *)
Definition world_without_key : Purchase.World :=
  {| Purchase.environ := fun _ => None;
     Purchase.stdin := Purchase.stdin world;
     Purchase.start_clock := Purchase.start_clock world;
     Purchase.availability_reply := Purchase.availability_reply world;
     Purchase.start_job_reply := Purchase.start_job_reply world;
     Purchase.purchase_reply := Purchase.purchase_reply world;
     Purchase.status_reply := Purchase.status_reply world;
     Purchase.sleep_overrun := Purchase.sleep_overrun world;
     Purchase.int_of_str := Purchase.int_of_str world |}.

(** Standard input ends after the first answer. *)
Definition world_short_input : Purchase.World :=
  {| Purchase.environ := Purchase.environ world;
     Purchase.stdin := ["user@example.com"];
     Purchase.start_clock := Purchase.start_clock world;
     Purchase.availability_reply := Purchase.availability_reply world;
     Purchase.start_job_reply := Purchase.start_job_reply world;
     Purchase.purchase_reply := Purchase.purchase_reply world;
     Purchase.status_reply := Purchase.status_reply world;
     Purchase.sleep_overrun := Purchase.sleep_overrun world;
     Purchase.int_of_str := Purchase.int_of_str world |}.

Definition with_start_job (rp : Purchase.reply) (w : Purchase.World) : Purchase.World :=
  {| Purchase.environ := Purchase.environ w;
     Purchase.stdin := Purchase.stdin w;
     Purchase.start_clock := Purchase.start_clock w;
     Purchase.availability_reply := Purchase.availability_reply w;
     Purchase.start_job_reply := rp;
     Purchase.purchase_reply := Purchase.purchase_reply w;
     Purchase.status_reply := Purchase.status_reply w;
     Purchase.sleep_overrun := Purchase.sleep_overrun w;
     Purchase.int_of_str := Purchase.int_of_str w |}.

(** The job-creation response has no [sellerVKey]. *)
Definition fields_without_seller : list (string * pyval) :=
  filter (fun kv => negb (String.eqb (fst kv) "sellerVKey")) job_fields.

Definition world_missing_field : Purchase.World :=
  with_start_job (ok (PDict fields_without_seller)) world.



(** The payment service answers [{"data": null}]; an answer with the hash
    under [transactionHash] only; and an answer without a hash. *)
Definition world_null_data : Purchase.World :=
  with_purchase (ok (PDict [("data", PNone)])) world.

Definition world_legacy_hash : Purchase.World :=
  with_purchase
    (ok (PDict [("data", PDict [("txHash", PStr EmptyString);
                                ("transactionHash", PStr "def456")])]))
    world.

Definition world_no_hash : Purchase.World :=
  with_purchase (ok (PDict [("status", PStr "success")])) world.

(** The health check is answered 304 Not Modified, without a body. *)
Definition world_not_modified : Purchase.World :=
  with_availability
    {| Purchase.latency := 120;
       Purchase.outcome :=
         inr {| Purchase.status_code := 304;
                Purchase.text := EmptyString;
                Purchase.json := None |} |}
    world.

(** The amount of the job is 8600000000000001 lovelace. *)
Definition fields_large_amount : list (string * pyval) :=
  map (fun kv => if String.eqb (fst kv) "amounts"
                 then (fst kv, PList [PDict [("amount", PStr "8600000000000001")]])
                 else kv) job_fields.

Definition world_large_amount : Purchase.World :=
  with_start_job (ok (PDict fields_large_amount)) world.

(** The job has failed at the first poll. *)
Definition world_failed : Purchase.World :=
  with_status (fun _ => ok (status "failed")) world.

(** *** For the email service *)

(** The answer [{"subject": "Quarterly report", "body": "Please find it attached."}]
    of the model, and what [json.loads] makes of it. *)
Definition answer : string :=
  "{" ++ dq ++ "subject" ++ dq ++ ": " ++ dq ++ "Quarterly report" ++ dq ++ ", "
      ++ dq ++ "body" ++ dq ++ ": " ++ dq ++ "Please find it attached." ++ dq ++ "}".

Definition loads (text : string) : exn + pyval :=
  if String.eqb text answer
  then inr (PDict [("subject", PStr "Quarterly report");
                   ("body", PStr "Please find it attached.")])
  else inl (JSONDecodeError "Expecting value").

(** LangChain is installed, the keys are set, the model answers with
    [reply] and the provider accepts the mail. *)
Definition mail_world (reply : Email.llm_reply) : Email.World :=
  {| Email.environ :=
       fun name =>
         if String.eqb name "BREVO_API_KEY" then Some "brevo-key"
         else if String.eqb name "SENDER_EMAIL" then Some "agent@example.com"
         else if String.eqb name "GOOGLE_API_KEY" then Some "google-key"
         else None;
     Email.langchain_google_genai_installed := true;
     Email.langchain_installed := true;
     Email.chain_setup := None;
     Email.chain_invoke := fun _ _ _ => reply;
     Email.json_loads := loads;
     Email.str_strip := strip;
     Email.send_transac_email := fun _ => Email.SendReturns (PStr "<id-1@example.com>") |}.

(** The same without LangChain. *)
Definition mail_world_plain : Email.World :=
  {| Email.environ := Email.environ (mail_world (Email.LlmContent PNone));
     Email.langchain_google_genai_installed := false;
     Email.langchain_installed := false;
     Email.chain_setup := None;
     Email.chain_invoke := fun _ _ _ => Email.LlmContent PNone;
     Email.json_loads := loads;
     Email.str_strip := strip;
     Email.send_transac_email := fun _ => Email.SendReturns (PStr "<id-1@example.com>") |}.

(** The model answers with the JSON object, or with plain words. *)
Definition mail_world_json : Email.World :=
  mail_world (Email.LlmContent (PStr answer)).
Definition mail_world_words : Email.World :=
  mail_world (Email.LlmContent (PStr "I cannot help with that.")).

(** The model wraps the JSON object in a sentence. *)
Definition wrapped_answer : string :=
  "Here is the email: " ++ answer ++ " Let me know if it works.".

Definition mail_world_wrapped : Email.World :=
  mail_world (Email.LlmContent (PStr wrapped_answer)).

(** The model answers [{"body": "Please find it attached."}], without a
    subject. *)
Definition answer_body_only : string :=
  "{" ++ dq ++ "body" ++ dq ++ ": " ++ dq ++ "Please find it attached." ++ dq ++ "}".

Definition mail_world_body_only : Email.World :=
  {| Email.environ := Email.environ (mail_world (Email.LlmContent PNone));
     Email.langchain_google_genai_installed := true;
     Email.langchain_installed := true;
     Email.chain_setup := None;
     Email.chain_invoke := fun _ _ _ => Email.LlmContent (PStr answer_body_only);
     Email.json_loads :=
       fun text =>
         if String.eqb text answer_body_only
         then inr (PDict [("body", PStr "Please find it attached.")])
         else inl (JSONDecodeError "Expecting value");
     Email.str_strip := strip;
     Email.send_transac_email := fun _ => Email.SendReturns (PStr "<id-1@example.com>") |}.

(** An input without a subject. *)
Definition input_without_subject : list (string * pyval) :=
  [("recipient_email", PStr "user@example.com"); ("body", PStr "report is ready")].

Definition input_complete : list (string * pyval) :=
  [("recipient_email", PStr "user@example.com");
   ("subject", PStr "Report");
   ("body", PStr "report is ready")].

(** An input whose subject is blank, and one whose subject is [None]. *)
Definition input_blank_subject : list (string * pyval) :=
  [("recipient_email", PStr "user@example.com");
   ("subject", PStr "   ");
   ("body", PStr "report is ready")].

Definition input_null_subject : list (string * pyval) :=
  [("recipient_email", PStr "user@example.com");
   ("subject", PNone);
   ("body", PStr "report is ready")].

End Sample.

(** * Facts *)

Module RunFacts.
Import Py Run.

Section Extend.
Context {E A : Type}.
Variables (tr : list (Z * E)) (r : run E A).

Lemma trace_extend : trace (extend tr r) = (tr ++ trace r)%list.
Proof. now destruct r. Qed.
Lemma clock_extend : clock (extend tr r) = clock r.
Proof. now destruct r. Qed.
Lemma result_extend : result (extend tr r) = result r.
Proof. now destruct r. Qed.
Lemma extend_nil : extend [] r = r.
Proof. now destruct r. Qed.
Lemma extend_eta :
  extend tr r = Ran (tr ++ trace r)%list (clock r) (result r).
Proof. now destruct r. Qed.
End Extend.

Section Bind.
Context {E A B : Type}.
Variables (m : M E A) (f : A -> M E B) (t : Z).

Lemma trace_bind :
  trace (bind m f t) =
  (trace (m t) ++ match result (m t) with
                  | Done a => trace (f a (clock (m t)))
                  | _ => []
                  end)%list.
Proof.
  unfold bind. destruct (m t) as [tr c [a|e| |]]; simpl;
    rewrite ?app_nil_r; try reflexivity.
  now destruct (f a c).
Qed.

Lemma result_bind :
  result (bind m f t) =
  match result (m t) with
  | Done a => result (f a (clock (m t)))
  | Raise e => Raise e
  | Return => Return
  | OutOfFuel => OutOfFuel
  end.
Proof.
  unfold bind. destruct (m t) as [tr c [a|e| |]]; simpl; try reflexivity.
  now destruct (f a c).
Qed.

Lemma clock_bind :
  clock (bind m f t) =
  match result (m t) with
  | Done a => clock (f a (clock (m t)))
  | _ => clock (m t)
  end.
Proof.
  unfold bind. destruct (m t) as [tr c [a|e| |]]; simpl; try reflexivity.
  now destruct (f a c).
Qed.
End Bind.

End RunFacts.

Module PurchaseFacts.
Import Py Run Purchase RunFacts.
Local Open Scope run_scope.

#[local] Arguments error_status : simpl never.
#[local] Arguments py_eq : simpl never.
#[local] Arguments truthy : simpl never.
#[local] Arguments dict_get : simpl never.
#[local] Arguments Z.add : simpl never.
#[local] Arguments Z.sub : simpl never.
#[local] Arguments Z.div : simpl never.
#[local] Arguments Z.ltb : simpl never.
#[local] Arguments Z.of_N : simpl never.
#[local] Arguments N.add : simpl never.
#[local] Arguments String.append : simpl never.

Ltac run_cbv :=
  cbv beta iota zeta delta
    [bind try_except emit advance lift raise return_ ret time out_of_fuel
     say fst snd];
  cbn [app extend trace clock result].

Lemma check_availability_fails w e t :
  availability_error w = Some e ->
  check_availability w t =
    Ran [(t, Print (Header "Step 1: Checking Service Availability"));
         (t, Request (GET (availability_url w) [] 10));
         (t + Z.of_N (latency (availability_reply w)), Print (CannotConnect e));
         (t + Z.of_N (latency (availability_reply w)), Print RunApiHint)]
        (t + Z.of_N (latency (availability_reply w))) Return.
Proof.
  unfold availability_error, check_availability, http, raise_for_status, say.
  intros H.
  destruct (outcome (availability_reply w)) as [e'|r] eqn:Ho.
  - inversion H; subst. reflexivity.
  - destruct (error_status r) eqn:Hs; [|discriminate].
    inversion H; subst. run_cbv. rewrite Hs. reflexivity.
Qed.

Lemma check_availability_passes w t :
  availability_error w = None ->
  check_availability w t =
    Ran [(t, Print (Header "Step 1: Checking Service Availability"));
         (t, Request (GET (availability_url w) [] 10));
         (t + Z.of_N (latency (availability_reply w)), Print ServiceOnline)]
        (t + Z.of_N (latency (availability_reply w))) (Done tt).
Proof.
  unfold availability_error, check_availability, http, raise_for_status, say.
  intros H.
  destruct (outcome (availability_reply w)) as [e'|r] eqn:Ho; [discriminate|].
  destruct (error_status r) eqn:Hs; [discriminate|].
  run_cbv. rewrite Hs. reflexivity.
Qed.

Lemma create_job_fails w r s b e t :
  answers w = Some (r, s, b) ->
  created_job w = inl e ->
  create_job w t =
    Ran (create_job_prefix w r s b t ++
         [(t + Z.of_N (latency (start_job_reply w)), Print (FailedToCreateJob e))])
        (t + Z.of_N (latency (start_job_reply w))) Return.
Proof.
  unfold answers, created_job, received, create_job, input_or, http,
    raise_for_status, response_json, create_job_prefix.
  intros Ha Hj.
  destruct (stdin w) as [|a [|b' [|c rest]]]; try discriminate.
  inversion Ha; subst; clear Ha.
  destruct (outcome (start_job_reply w)) as [e'|resp] eqn:Ho.
  - inversion Hj; subst. reflexivity.
  - cbn [nth_error]. run_cbv.
    destruct (error_status resp) eqn:Hs.
    + inversion Hj; subst. reflexivity.
    + destruct (json resp) as [v|] eqn:Hv.
      * cbn [and_then] in Hj. rewrite Hj. reflexivity.
      * inversion Hj; subst. reflexivity.
Qed.

Lemma create_job_succeeds w r s b j t :
  answers w = Some (r, s, b) ->
  created_job w = inr j ->
  create_job w t =
    Ran (create_job_prefix w r s b t ++
         [(t + Z.of_N (latency (start_job_reply w)), Print (JobCreated (job_id j)));
          (t + Z.of_N (latency (start_job_reply w)),
           Print (BlockchainContract (blockchain_id j)));
          (t + Z.of_N (latency (start_job_reply w)),
           Print (PaymentRequired (amount_ada j) (amount_lovelace j)));
          (t + Z.of_N (latency (start_job_reply w)),
           Print (TrackOnExplorer (explorer_url j)))])
        (t + Z.of_N (latency (start_job_reply w))) (Done j).
Proof.
  unfold answers, created_job, received, create_job, input_or, http,
    raise_for_status, response_json, create_job_prefix.
  intros Ha Hj.
  destruct (stdin w) as [|a [|b' [|c rest]]]; try discriminate.
  inversion Ha; subst; clear Ha.
  destruct (outcome (start_job_reply w)) as [e'|resp] eqn:Ho; [discriminate|].
  cbn [nth_error]. run_cbv.
  destruct (error_status resp) eqn:Hs; [discriminate|].
  destruct (json resp) as [v|] eqn:Hv; [|discriminate].
  cbn [and_then] in Hj. rewrite Hj. reflexivity.
Qed.

Lemma create_job_eof w t :
  answers w = None ->
  requests (trace (create_job w t)) = [] /\
  exists e, result (create_job w t) = Raise e.
Proof.
  unfold answers, create_job, input_or.
  intros Ha.
  destruct (stdin w) as [|a [|b' [|c rest]]]; try discriminate;
    cbn [nth_error]; run_cbv; cbn; eauto.
Qed.

Lemma submit_payment_rejected w j r t :
  outcome (purchase_reply w) = inr r ->
  error_status r = true ->
  let t' := t + Z.of_N (latency (purchase_reply w)) in
  submit_payment w j t =
    Ran [(t, Print (Header "Step 3: Making Real Blockchain Payment from Your Wallet"));
         (t, Print (Plain "Initiating payment from your testnet wallet..."));
         (t, Print (InitiatingPayment (amount_ada j)));
         (t, Request (purchase_request w j));
         (t', Print (PaymentFailed (HTTPError (status_code r) (text r))));
         (t', Print (PaymentResponse (text r)));
         (t', Print PossibleIssues)]
        t' Return.
Proof.
  unfold submit_payment, http, raise_for_status, purchase_request.
  intros Ho Hs. run_cbv. rewrite Ho. run_cbv. rewrite Hs. reflexivity.
Qed.

Lemma submit_payment_fails w j e t :
  paid w = inl e ->
  requests (trace (submit_payment w j t)) = [purchase_request w j] /\
  result (submit_payment w j t) = Return.
Proof.
  unfold paid, received, submit_payment, http, raise_for_status, response_json,
    purchase_request.
  intros Hp. run_cbv.
  destruct (outcome (purchase_reply w)) as [e'|r] eqn:Ho.
  - inversion Hp; subst. destruct e; run_cbv; cbn; auto.
  - run_cbv. destruct (error_status r) eqn:Hs.
    + run_cbv; cbn; auto.
    + destruct (json r) as [v|] eqn:Hv.
      * cbn [and_then] in Hp. run_cbv. rewrite Hp. destruct e; run_cbv; cbn; auto.
      * run_cbv; cbn; auto.
Qed.

Lemma submit_payment_succeeds w j tx t :
  paid w = inr tx ->
  requests (trace (submit_payment w j t)) = [purchase_request w j] /\
  clock (submit_payment w j t) = t + Z.of_N (latency (purchase_reply w)) /\
  result (submit_payment w j t) =
    Done (tx, if truthy tx then explorer (NETWORK w) tx else explorer_url j).
Proof.
  unfold paid, received, submit_payment, http, raise_for_status, response_json,
    purchase_request.
  intros Hp. run_cbv.
  destruct (outcome (purchase_reply w)) as [e'|r] eqn:Ho; [discriminate|].
  run_cbv. destruct (error_status r) eqn:Hs; [discriminate|].
  destruct (json r) as [v|] eqn:Hv; [|discriminate].
  cbn [and_then] in Hp. run_cbv. rewrite Hp. run_cbv.
  destruct (truthy tx); run_cbv; cbn; auto.
Qed.

Lemma poll_raises w j start i last t e :
  polled w i = inl e ->
  poll w j start i last t =
    Ran [(t, Request (status_request w j));
         (answered w i t, Print (StatusCheckError e));
         (answered w i t, Sleep poll_interval)]
        (woke w i (answered w i t)) (Done (last, false)).
Proof.
  unfold polled, received, poll, http, raise_for_status, response_json, sleep,
    woke, answered.
  intros Hp. run_cbv.
  destruct (outcome (status_reply w i)) as [e'|r] eqn:Ho.
  - inversion Hp; subst. reflexivity.
  - run_cbv. destruct (error_status r) eqn:Hs.
    + inversion Hp; subst. reflexivity.
    + destruct (json r) as [d|] eqn:Hd.
      * cbn [and_then] in Hp. run_cbv.
        destruct (dict_get d "status") as [e1|s] eqn:H1.
        -- inversion Hp; subst. reflexivity.
        -- cbn [and_then] in Hp. run_cbv.
           destruct (dict_get d "payment_status") as [e2|p] eqn:H2.
           ++ inversion Hp; subst. reflexivity.
           ++ discriminate.
      * inversion Hp; subst. reflexivity.
Qed.

Lemma polled_dict w i d s p :
  polled w i = inr (d, s, p) -> exists l, d = PDict l.
Proof.
  unfold polled. intros H.
  destruct (received (status_reply w i)) as [|d']; [discriminate|].
  cbn [and_then] in H. destruct d'; try discriminate.
  destruct (dict_get (PDict d0) "status"); [discriminate|].
  cbn [and_then] in H.
  destruct (dict_get (PDict d0) "payment_status"); [discriminate|].
  inversion H; subst. eauto.
Qed.

Lemma poll_reads w j start i last t d s p :
  polled w i = inr (d, s, p) ->
  poll w j start i last t =
    Ran ((t, Request (status_request w j))
         :: change_record start (answered w i t) s p last
         ++ outcome_record (answered w i t) d s)%list
        (if is_completed s || is_failed s then answered w i t
         else woke w i (answered w i t))
        (Done (if py_eq s last then last else s, is_completed s || is_failed s)).
Proof.
  intros Hp. destruct (polled_dict _ _ _ _ _ Hp) as [l ->].
  revert Hp.
  unfold polled, received, poll, http, raise_for_status, response_json, sleep,
    woke, answered, change_record, outcome_record, is_completed, is_failed,
    result_of.
  intros Hp. run_cbv.
  destruct (outcome (status_reply w i)) as [e'|r] eqn:Ho; [discriminate|].
  run_cbv. destruct (error_status r) eqn:Hs; [discriminate|].
  destruct (json r) as [d|] eqn:Hd; [|discriminate].
  cbn [and_then] in Hp. run_cbv.
  destruct (dict_get d "status") as [e1|s'] eqn:H1; [discriminate|].
  cbn [and_then] in Hp. run_cbv.
  destruct (dict_get d "payment_status") as [e2|p'] eqn:H2; [discriminate|].
  inversion Hp; subst. clear Hp.
  destruct (py_eq s last) eqn:Hc; run_cbv;
    destruct (py_eq s (PStr "completed")) eqn:Hk; run_cbv;
    try (destruct (py_eq s (PStr "failed")) eqn:Hf; run_cbv; reflexivity);
    unfold dict_get; destruct (lookup "result" l); run_cbv;
    match goal with
    | |- context [truthy ?v] => destruct (truthy v); reflexivity
    end.
Qed.

Lemma monitor_loop_exit fuel w j start i last t :
  ms max_wait <= t - start ->
  monitor_loop fuel w j start i last t = Ran [] t (Done tt).
Proof.
  intros H. destruct fuel; cbn [monitor_loop]; run_cbv;
    destruct (Z.ltb_spec (t - start) (ms max_wait)); try lia; reflexivity.
Qed.

Lemma monitor_loop_step fuel w j start i last t tr t' last' brk :
  t - start < ms max_wait ->
  poll w j start i last t = Ran tr t' (Done (last', brk)) ->
  monitor_loop (S fuel) w j start i last t =
    if brk then Ran tr t' (Done tt)
    else Ran (tr ++ trace (monitor_loop fuel w j start (S i) last' t'))%list
             (clock (monitor_loop fuel w j start (S i) last' t'))
             (result (monitor_loop fuel w j start (S i) last' t')).
Proof.
  intros H Hp. cbn [monitor_loop]. run_cbv.
  destruct (Z.ltb_spec (t - start) (ms max_wait)); try lia.
  rewrite Hp. run_cbv. destruct brk; run_cbv; rewrite ?app_nil_r; [reflexivity|].
  rewrite extend_nil. apply extend_eta.
Qed.

Lemma woke_late w i t : t + 5000 <= woke w i t.
Proof. unfold woke. lia. Qed.

Lemma answered_late w i t : t <= answered w i t.
Proof. unfold answered. lia. Qed.

Lemma monitor_loop_total fuel : forall w j start i last t,
  ms max_wait - (t - start) <= 5000 * Z.of_nat fuel ->
  result (monitor_loop fuel w j start i last t) = Done tt.
Proof.
  induction fuel as [|fuel IH]; intros w j start i last t Hf.
  - rewrite monitor_loop_exit by lia. reflexivity.
  - destruct (Z.lt_ge_cases (t - start) (ms max_wait)) as [Hlt|Hge];
      [|rewrite monitor_loop_exit by lia; reflexivity].
    pose proof (woke_late w i (answered w i t)) as Hw.
    pose proof (answered_late w i t) as Ha.
    destruct (polled w i) as [e|[[d s] p]] eqn:Hp.
    + rewrite (monitor_loop_step _ _ _ _ _ _ _ _ _ _ _ Hlt (poll_raises _ _ _ _ _ _ _ Hp)).
      cbn [result]. apply IH. lia.
    + rewrite (monitor_loop_step _ _ _ _ _ _ _ _ _ _ _ Hlt (poll_reads _ _ _ _ _ _ _ _ _ Hp)).
      destruct (is_completed s || is_failed s); cbn [result]; [reflexivity|].
      apply IH. lia.
Qed.

Lemma monitor_total w j t : result (monitor w j t) = Done tt.
Proof.
  unfold monitor. run_cbv. rewrite !result_extend.
  rewrite monitor_loop_total; [reflexivity|].
  unfold monitor_fuel, ms, max_wait. lia.
Qed.

Lemma requests_app a b : requests (a ++ b) = (requests a ++ requests b)%list.
Proof. apply flat_map_app. Qed.

Lemma prints_app a b : prints (a ++ b) = (prints a ++ prints b)%list.
Proof. apply flat_map_app. Qed.

Lemma main_no_key w :
  no_purchaser_key w = true ->
  requests (trace (run_main w)) = [] /\ result (run_main w) = Return.
Proof.
  unfold run_main, main. intros Hk. run_cbv. rewrite Hk. run_cbv. now cbn.
Qed.

Lemma main_unavailable w e :
  no_purchaser_key w = false ->
  availability_error w = Some e ->
  requests (trace (run_main w)) = [availability_request w] /\
  result (run_main w) = Return.
Proof.
  unfold run_main, main. intros Hk Ha. run_cbv. rewrite Hk. run_cbv.
  rewrite (check_availability_fails _ _ _ Ha). run_cbv. now cbn.
Qed.

Lemma main_job_fails w r s b e :
  no_purchaser_key w = false ->
  availability_error w = None ->
  answers w = Some (r, s, b) ->
  created_job w = inl e ->
  requests (trace (run_main w)) = [availability_request w; start_job_request w r s b] /\
  result (run_main w) = Return.
Proof.
  unfold run_main, main. intros Hk Ha Hi Hj. run_cbv. rewrite Hk. run_cbv.
  rewrite (check_availability_passes _ _ Ha). run_cbv.
  rewrite (create_job_fails _ _ _ _ _ _ Hi Hj). unfold create_job_prefix.
  run_cbv. now cbn.
Qed.

Lemma main_no_answers w :
  no_purchaser_key w = false ->
  availability_error w = None ->
  answers w = None ->
  requests (trace (run_main w)) = [availability_request w] /\
  exists e, result (run_main w) = Raise e.
Proof.
  unfold run_main, main. intros Hk Ha Hi. run_cbv. rewrite Hk. run_cbv.
  rewrite (check_availability_passes _ _ Ha). run_cbv.
  destruct (create_job_eof w (start_clock w + Z.of_N (latency (availability_reply w))) Hi)
    as [Hr [e He]].
  destruct (create_job w _) as [tr c res]. cbn [trace result] in *. subst res.
  run_cbv. cbn [requests flat_map snd app]. fold (requests tr). rewrite Hr. eauto.
Qed.

Lemma summary_requests w j tx t : requests (trace (summary w j tx t)) = [].
Proof.
  destruct tx as [h u]. unfold summary, prefix32. cbn [fst snd].
  destruct (blockchain_id j); destruct (truthy h); destruct h; run_cbv;
    reflexivity.
Qed.

Lemma reaches_payment_answers w j :
  reaches_payment w j -> exists r s b, answers w = Some (r, s, b).
Proof.
  intros (_ & _ & Hi & _). destruct (answers w) as [[[r s] b]|]; [eauto|easy].
Qed.

Lemma main_payment_fails w j e :
  reaches_payment w j ->
  paid w = inl e ->
  exists r s b,
    answers w = Some (r, s, b) /\
    requests (trace (run_main w)) =
      [availability_request w; start_job_request w r s b; purchase_request w j] /\
    result (run_main w) = Return.
Proof.
  intros Hr Hp. destruct (reaches_payment_answers _ _ Hr) as (r & s & b & Hi).
  destruct Hr as (Hk & Ha & _ & Hj).
  exists r, s, b. split; [assumption|].
  unfold run_main, main. run_cbv. rewrite Hk. run_cbv.
  rewrite (check_availability_passes _ _ Ha). run_cbv.
  rewrite (create_job_succeeds _ _ _ _ _ _ Hi Hj). unfold create_job_prefix.
  run_cbv.
  match goal with
  | |- context [submit_payment w j ?t] =>
      destruct (submit_payment_fails w j e t Hp) as [Hq Hres];
      destruct (submit_payment w j t) as [tr c res]
  end.
  cbn [trace result] in *. subst res. run_cbv.
  cbn [requests flat_map snd app]. fold (requests tr). rewrite Hq. now cbn.
Qed.

Lemma main_payment_rejected w j resp :
  reaches_payment w j ->
  outcome (purchase_reply w) = inr resp ->
  error_status resp = true ->
  exists r s b before,
    answers w = Some (r, s, b) /\
    requests (trace (run_main w)) =
      [availability_request w; start_job_request w r s b; purchase_request w j] /\
    prints (trace (run_main w)) =
      (before ++ [PaymentFailed (HTTPError (status_code resp) (text resp));
                  PaymentResponse (text resp);
                  PossibleIssues])%list /\
    result (run_main w) = Return.
Proof.
  intros Hr Ho Hs. destruct (reaches_payment_answers _ _ Hr) as (r & s & b & Hi).
  destruct Hr as (Hk & Ha & _ & Hj).
  exists r, s, b. eexists. split; [assumption|].
  unfold run_main, main. run_cbv. rewrite Hk. run_cbv.
  rewrite (check_availability_passes _ _ Ha). run_cbv.
  rewrite (create_job_succeeds _ _ _ _ _ _ Hi Hj). unfold create_job_prefix.
  run_cbv.
  rewrite (submit_payment_rejected _ _ _ _ Ho Hs). run_cbv.
  split; [reflexivity|]. split; [|reflexivity].
  cbn [prints flat_map snd app].
  repeat match goal with
         | |- (?x :: ?l = (?x :: _) ++ _)%list => idtac
         end.
  instantiate (1 := [_; _; _; _; _; _; _; _; _; _; _; _; _; _; _]). reflexivity.
Qed.

Lemma main_monitors w j tx :
  reaches_payment w j ->
  paid w = inr tx ->
  exists r s b before tm after,
    answers w = Some (r, s, b) /\
    trace (run_main w) = (before ++ trace (monitor w j tm) ++ after)%list /\
    requests before =
      [availability_request w; start_job_request w r s b; purchase_request w j] /\
    requests after = [].
Proof.
  intros Hr Hp. destruct (reaches_payment_answers _ _ Hr) as (r & s & b & Hi).
  destruct Hr as (Hk & Ha & _ & Hj).
  exists r, s, b.
  unfold run_main, main. run_cbv. rewrite Hk. run_cbv.
  rewrite (check_availability_passes _ _ Ha). run_cbv.
  rewrite (create_job_succeeds _ _ _ _ _ _ Hi Hj). unfold create_job_prefix.
  run_cbv.
  match goal with
  | |- context [submit_payment w j ?t] =>
      destruct (submit_payment_succeeds w j tx t Hp) as (Hq & Hc & Hres);
      destruct (submit_payment w j t) as [tr c res]
  end.
  cbn [trace result clock] in *. subst res. run_cbv.
  pose proof (monitor_total w j c) as Hm.
  destruct (monitor w j c) as [trm cm resm] eqn:Hmon. cbn [result] in Hm. subst resm.
  run_cbv. rewrite !trace_extend. cbn [app].
  eexists (_ :: _ :: _ :: _ :: _ :: _ :: _ :: _ :: _ :: _ :: _ :: _ :: _ :: _ :: _ :: _ :: _ :: tr)%list.
  exists c. eexists. split; [assumption|]. rewrite Hmon. cbn [trace].
  split; [cbn [app]; reflexivity|].
  split; [cbn [requests flat_map snd app]; fold (requests tr); rewrite Hq; reflexivity|].
  apply summary_requests.
Qed.

Lemma submit_payment_prints_exception w j e t :
  paid w = inl e ->
  In (match e with
      | HTTPError _ _ => PaymentFailed e
      | _ => PaymentError e
      end) (prints (trace (submit_payment w j t))).
Proof.
  unfold paid, received, submit_payment, http, raise_for_status, response_json.
  intros Hp. run_cbv.
  destruct (outcome (purchase_reply w)) as [e'|r] eqn:Ho.
  - inversion Hp; subst. destruct e; run_cbv; cbn; tauto.
  - run_cbv. destruct (error_status r) eqn:Hs.
    + inversion Hp; subst. run_cbv; cbn; tauto.
    + destruct (json r) as [v|] eqn:Hv.
      * cbn [and_then] in Hp. run_cbv. rewrite Hp. destruct e; run_cbv; cbn; tauto.
      * inversion Hp; subst. run_cbv; cbn; tauto.
Qed.

(** Every [except] block of [main] prints the exception it catches. *)
Lemma caught_exceptions_are_printed w j e : handlers_print w j e.
Proof.
  split; [|split; [|split]].
  - intros t H. rewrite (check_availability_fails _ _ _ H). cbn. tauto.
  - intros t Ha H. destruct (answers w) as [[[r s] b]|] eqn:Hi; [|easy].
    rewrite (create_job_fails _ _ _ _ _ _ Hi H). cbn. tauto.
  - intros t. apply submit_payment_prints_exception.
  - intros start i last t H. rewrite (poll_raises _ _ _ _ _ _ _ H). cbn. tauto.
Qed.

End PurchaseFacts.

Module PyFacts.
Import Py.






Lemma py_eq_None v : py_eq v PNone = true <-> v = PNone.
Proof.
  split; [|intros ->; reflexivity].
  destruct v; cbn; try discriminate; try reflexivity.
Qed.

End PyFacts.

Module FloatFacts.
Import Py.

(** The integer chosen is within one half of the quotient. *)
Lemma nearest_even_near num den :
  0 < den -> 2 * Z.abs (nearest_even num den * den - num) <= den.
Proof.
  intros Hd. unfold nearest_even.
  pose proof (Z.div_mod num den ltac:(lia)) as Hdm.
  pose proof (Z.mod_pos_bound num den Hd) as Hb.
  destruct (Z.ltb_spec (2 * (num mod den)) den);
    [|destruct (Z.ltb_spec den (2 * (num mod den)));
      [|destruct (Z.even (num / den))]]; nia.
Qed.

(** A quotient that is an integer is chosen as it is. *)
Lemma nearest_even_exact m den : 0 < den -> nearest_even (m * den) den = m.
Proof.
  intros Hd. unfold nearest_even.
  rewrite Z.div_mul, Z.mod_mul by lia.
  destruct (Z.ltb_spec (2 * 0) den); [reflexivity|lia].
Qed.

Lemma pow2_pos e : 0 < 2 ^ Z.max 0 e.
Proof. apply Z.pow_pos_nonneg; lia. Qed.

(** [2^e <= a / d < 2^(e+1)] for [e = exponent a d], without fractions. *)
Lemma exponent_spec a d :
  0 < a ->
  let e := exponent a d in
  Zpos d * 2 ^ Z.max 0 e <= a * 2 ^ Z.max 0 (- e) /\
  a * 2 ^ Z.max 0 (- e) < 2 * (Zpos d * 2 ^ Z.max 0 e).
Proof.
  intros Ha. unfold exponent.
  destruct (Z.log2_spec a Ha) as [Ha1 Ha2].
  destruct (Z.log2_spec (Zpos d) ltac:(lia)) as [Hd1 Hd2].
  pose proof (Z.log2_nonneg a) as Hla. pose proof (Z.log2_nonneg (Zpos d)) as Hld.
  set (la := Z.log2 a) in *. set (ld := Z.log2 (Zpos d)) in *.
  set (e0 := la - ld).
  assert (Hsucc : forall x, 0 <= x -> 2 ^ Z.succ x = 2 * 2 ^ x)
    by (intros x Hx; apply Z.pow_succ_r; assumption).
  rewrite !Hsucc in * by assumption.
  destruct (Z.ltb_spec (a * 2 ^ Z.max 0 (- e0)) (Zpos d * 2 ^ Z.max 0 e0)) as [Hlt|Hge];
    cbv zeta.
  - (* e = e0 - 1 *)
    destruct (Z.le_gt_cases 1 e0) as [He|He].
    + replace (Z.max 0 (e0 - 1)) with (e0 - 1) by lia.
      replace (Z.max 0 (- (e0 - 1))) with 0 by lia.
      replace (Z.max 0 e0) with e0 in Hlt by lia.
      replace (Z.max 0 (- e0)) with 0 in Hlt by lia.
      assert (2 ^ e0 = 2 * 2 ^ (e0 - 1)).
      { replace e0 with (Z.succ (e0 - 1)) at 1 by lia. apply Hsucc. lia. }
      assert (2 ^ la = 2 ^ ld * 2 ^ e0).
      { rewrite <- Z.pow_add_r by lia. f_equal. unfold e0. lia. }
      pose proof (pow2_pos (e0 - 1)). replace (Z.max 0 (e0 - 1)) with (e0 - 1) in * by lia.
      rewrite Z.pow_0_r in *. nia.
    + replace (Z.max 0 (e0 - 1)) with 0 by lia.
      replace (Z.max 0 (- (e0 - 1))) with (1 - e0) by lia.
      replace (Z.max 0 e0) with 0 in Hlt by lia.
      replace (Z.max 0 (- e0)) with (- e0) in Hlt by lia.
      assert (2 ^ (1 - e0) = 2 * 2 ^ (- e0)).
      { replace (1 - e0) with (Z.succ (- e0)) by lia. apply Hsucc. lia. }
      assert (2 ^ ld = 2 ^ la * 2 ^ (- e0)).
      { rewrite <- Z.pow_add_r by lia. f_equal. unfold e0. lia. }
      pose proof (pow2_pos (- e0)). replace (Z.max 0 (- e0)) with (- e0) in * by lia.
      rewrite Z.pow_0_r in *. nia.
  - (* e = e0 *)
    destruct (Z.le_gt_cases 0 e0) as [He|He].
    + replace (Z.max 0 e0) with e0 in * by lia.
      replace (Z.max 0 (- e0)) with 0 in * by lia.
      assert (2 ^ la = 2 ^ ld * 2 ^ e0).
      { rewrite <- Z.pow_add_r by lia. f_equal. unfold e0. lia. }
      pose proof (pow2_pos e0). replace (Z.max 0 e0) with e0 in * by lia.
      rewrite Z.pow_0_r in *. nia.
    + replace (Z.max 0 e0) with 0 in * by lia.
      replace (Z.max 0 (- e0)) with (- e0) in * by lia.
      assert (2 ^ ld = 2 ^ la * 2 ^ (- e0)).
      { rewrite <- Z.pow_add_r by lia. f_equal. unfold e0. lia. }
      pose proof (pow2_pos (- e0)). replace (Z.max 0 (- e0)) with (- e0) in * by lia.
      rewrite Z.pow_0_r in *. nia.
Qed.

Lemma exponent_lower a d :
  0 < a -> Zpos d < 2 ^ 1022 -> - 1022 <= exponent a d.
Proof.
  intros Ha Hd. destruct (exponent_spec a d Ha) as [_ H]. cbv zeta in H.
  destruct (Z.le_gt_cases (- 1022) (exponent a d)) as [|He]; [assumption|exfalso].
  replace (Z.max 0 (exponent a d)) with 0 in H by lia.
  replace (Z.max 0 (- exponent a d)) with (- exponent a d) in H by lia.
  assert (2 ^ 1023 <= 2 ^ (- exponent a d)) by (apply Z.pow_le_mono_r; lia).
  change (2 ^ 1023) with (2 * 2 ^ 1022) in *. rewrite Z.pow_0_r in H. nia.
Qed.

(** The relative error of the rounding is at most [2^(-53)] in the normal
    range. *)
Lemma binary64_error n d :
  n <> 0 -> - 1022 <= exponent (Z.abs n) d ->
  (Qabs (binary64 n d - (n # d)) * inject_Z (2 ^ 53) <= Qabs (n # d))%Q.
Proof.
  intros Hn He. unfold binary64.
  destruct (Z.eqb_spec n 0) as [|_]; [contradiction|]. cbv zeta.
  rewrite Qred_correct.
  destruct (exponent_spec (Z.abs n) d ltac:(lia)) as [Hlo _]. cbv zeta in Hlo.
  set (e := exponent (Z.abs n) d) in *.
  replace (Z.max e (- 1022)) with e by lia.
  set (k := 52 - e).
  pose proof (pow2_pos k) as HP. pose proof (pow2_pos (- k)) as HN.
  set (P := 2 ^ Z.max 0 k) in *. set (N := 2 ^ Z.max 0 (- k)) in *.
  pose proof (nearest_even_near (Z.abs n * P) (Zpos d * N) ltac:(lia)) as Hm.
  set (m := nearest_even (Z.abs n * P) (Zpos d * N)) in *.
  assert (Hkey : Zpos d * N * 2 ^ 52 <= Z.abs n * P).
  { subst P N k. destruct (Z.le_gt_cases e 52) as [Hk|Hk].
    - replace (Z.max 0 (- (52 - e))) with 0 by lia.
      replace (Z.max 0 (52 - e)) with (52 - e) by lia. rewrite Z.pow_0_r.
      destruct (Z.le_gt_cases 0 e) as [H0|H0].
      + replace (Z.max 0 e) with e in Hlo by lia.
        replace (Z.max 0 (- e)) with 0 in Hlo by lia. rewrite Z.pow_0_r in Hlo.
        assert (2 ^ 52 = 2 ^ e * 2 ^ (52 - e))
          by (rewrite <- Z.pow_add_r by lia; f_equal; lia).
        assert (0 < 2 ^ (52 - e)) by (apply Z.pow_pos_nonneg; lia). nia.
      + replace (Z.max 0 e) with 0 in Hlo by lia.
        replace (Z.max 0 (- e)) with (- e) in Hlo by lia. rewrite Z.pow_0_r in Hlo.
        assert (2 ^ (52 - e) = 2 ^ (- e) * 2 ^ 52)
          by (rewrite <- Z.pow_add_r by lia; f_equal; lia).
        nia.
    - replace (Z.max 0 (- (52 - e))) with (e - 52) by lia.
      replace (Z.max 0 (52 - e)) with 0 by lia. rewrite Z.pow_0_r.
      replace (Z.max 0 e) with e in Hlo by lia.
      replace (Z.max 0 (- e)) with 0 in Hlo by lia. rewrite Z.pow_0_r in Hlo.
      assert (2 ^ e = 2 ^ (e - 52) * 2 ^ 52)
        by (rewrite <- Z.pow_add_r by lia; f_equal; lia).
      nia. }
  unfold Qle, Qabs, Qminus, Qplus, Qopp, Qmult, inject_Z. cbn [Qnum Qden].
  rewrite !Pos2Z.inj_mul, Z2Pos.id by lia.
  change (2 ^ 53) with (2 * 2 ^ 52).
  assert (Hs : Z.abs (Z.sgn n * m * N * Zpos d + - n * P)
               = Z.abs (m * (Zpos d * N) - Z.abs n * P)).
  { destruct (Z.abs_spec n) as [[? ->]|[? ->]].
    - replace (Z.sgn n) with 1 by lia. f_equal. ring.
    - replace (Z.sgn n) with (-1) by lia.
      rewrite <- (Z.abs_opp (m * _ - _)). f_equal. ring. }
  rewrite Hs. set (D := Z.abs (m * (Zpos d * N) - Z.abs n * P)) in *.
  assert (0 <= D) by (subst D; apply Z.abs_nonneg).
  nia.
Qed.

(** A quotient that is an integer below [2^53] is not rounded. *)
Lemma binary64_exact m d :
  Z.abs m < 2 ^ 53 -> (binary64 (m * Zpos d) d == inject_Z m)%Q.
Proof.
  intros Hm. unfold binary64.
  destruct (Z.eqb_spec (m * Zpos d) 0) as [H0|Hn].
  - assert (m = 0) by nia. subst m. reflexivity.
  - cbv zeta. rewrite Qred_correct.
    assert (Hm0 : m <> 0) by (intros ->; now apply Hn).
    assert (Ha : Z.abs (m * Zpos d) = Z.abs m * Zpos d)
      by (rewrite Z.abs_mul; f_equal).
    rewrite Ha.
    destruct (exponent_spec (Z.abs m * Zpos d) d ltac:(nia)) as [Hlo Hhi].
    cbv zeta in Hlo, Hhi.
    set (e := exponent (Z.abs m * Zpos d) d) in *.
    assert (He : 0 <= e <= 52).
    { split.
      - destruct (Z.le_gt_cases 0 e) as [|H]; [assumption|exfalso].
        replace (Z.max 0 e) with 0 in Hhi by lia.
        replace (Z.max 0 (- e)) with (- e) in Hhi by lia.
        assert (2 ^ 1 <= 2 ^ (- e)) by (apply Z.pow_le_mono_r; lia).
        rewrite Z.pow_0_r in Hhi. change (2 ^ 1) with 2 in *. nia.
      - destruct (Z.le_gt_cases e 52) as [|H]; [assumption|exfalso].
        replace (Z.max 0 e) with e in Hlo by lia.
        replace (Z.max 0 (- e)) with 0 in Hlo by lia.
        assert (2 ^ 53 <= 2 ^ e) by (apply Z.pow_le_mono_r; lia).
        rewrite Z.pow_0_r in Hlo. nia. }
    replace (Z.max e (- 1022)) with e by lia.
    replace (Z.max 0 (- (52 - e))) with 0 by lia.
    replace (Z.max 0 (52 - e)) with (52 - e) by lia.
    rewrite Z.pow_0_r, !Z.mul_1_r.
    assert (HP : 0 < 2 ^ (52 - e)) by (apply Z.pow_pos_nonneg; lia).
    replace (Z.abs m * Zpos d * 2 ^ (52 - e))
      with (Z.abs m * 2 ^ (52 - e) * Zpos d) by ring.
    rewrite nearest_even_exact by lia.
    unfold Qeq, inject_Z. cbn [Qnum Qden]. rewrite Z2Pos.id by lia.
    assert (Z.sgn (m * Zpos d) = Z.sgn m) by (rewrite Z.sgn_mul; cbn; lia).
    pose proof (Z.sgn_abs m). nia.
Qed.

End FloatFacts.

Module MonitorFacts.
Import Py Run Purchase RunFacts PurchaseFacts PyFacts.

Lemma outcome_lines_app a b :
  outcome_lines (a ++ b) = (outcome_lines a ++ outcome_lines b)%list.
Proof. apply flat_map_app. Qed.

Lemma change_records_app a b :
  change_records (a ++ b) = (change_records a ++ change_records b)%list.
Proof. apply flat_map_app. Qed.

Lemma request_times_app a b :
  request_times (a ++ b) = (request_times a ++ request_times b)%list.
Proof. apply flat_map_app. Qed.

(** One iteration, whatever the poll reads. *)
Lemma poll_cases w j start i last t :
  (exists e,
     polled w i = inl e /\
     poll w j start i last t =
       Ran [(t, Request (status_request w j));
            (answered w i t, Print (StatusCheckError e));
            (answered w i t, Sleep poll_interval)]
           (woke w i (answered w i t)) (Done (last, false))) \/
  (exists d s p,
     polled w i = inr (d, s, p) /\
     poll w j start i last t =
       Ran ((t, Request (status_request w j))
            :: change_record start (answered w i t) s p last
            ++ outcome_record (answered w i t) d s)%list
           (if is_completed s || is_failed s then answered w i t
            else woke w i (answered w i t))
           (Done (if py_eq s last then last else s, is_completed s || is_failed s))).
Proof.
  destruct (polled w i) as [e|[[d s] p]] eqn:Hp.
  - left. exists e. split; [reflexivity|]. now apply poll_raises.
  - right. exists d, s, p. split; [reflexivity|]. now apply poll_reads.
Qed.

Lemma change_record_requests start t s p last :
  requests (change_record start t s p last) = [].
Proof. unfold change_record. now destruct (py_eq s last). Qed.

Lemma outcome_record_requests t d s : requests (outcome_record t d s) = [].
Proof.
  unfold outcome_record.
  destruct (is_completed s); [now destruct (truthy (result_of d))|].
  now destruct (is_failed s).
Qed.

Lemma monitor_loop_requests fuel : forall w j start i last t,
  Forall (eq (status_request w j))
    (requests (trace (monitor_loop fuel w j start i last t))).
Proof.
  induction fuel as [|fuel IH]; intros w j start i last t.
  - cbn [monitor_loop]. unfold bind, time, out_of_fuel, ret.
    destruct (t - start <? ms max_wait); constructor.
  - destruct (Z.lt_ge_cases (t - start) (ms max_wait)) as [Hlt|Hge];
      [|rewrite monitor_loop_exit by lia; constructor].
    destruct (poll_cases w j start i last t) as [(e & _ & Hp)|(d & s & p & _ & Hp)];
      rewrite (monitor_loop_step _ _ _ _ _ _ _ _ _ _ _ Hlt Hp).
    + cbn [trace]. rewrite requests_app. apply Forall_app. split; [|apply IH].
      repeat constructor.
    + destruct (is_completed s || is_failed s); cbn [trace];
        rewrite ?requests_app; cbn [requests flat_map snd app];
        fold (requests (change_record start (answered w i t) s p last
                        ++ outcome_record (answered w i t) d s));
        rewrite ?requests_app, change_record_requests, outcome_record_requests.
      * repeat constructor.
      * constructor; [reflexivity|]. apply IH.
Qed.

Lemma change_record_outcome start t s p last :
  outcome_lines (change_record start t s p last) = [].
Proof. unfold change_record. now destruct (py_eq s last). Qed.

Lemma change_record_times start t s p last :
  request_times (change_record start t s p last) = [].
Proof. unfold change_record. now destruct (py_eq s last). Qed.

Lemma outcome_record_times t d s : request_times (outcome_record t d s) = [].
Proof.
  unfold outcome_record.
  destruct (is_completed s); [now destruct (truthy (result_of d))|].
  now destruct (is_failed s).
Qed.

Lemma monitor_loop_request_times fuel : forall w j start i last t,
  Forall (fun t' => t' - start < ms max_wait)
    (request_times (trace (monitor_loop fuel w j start i last t))).
Proof.
  induction fuel as [|fuel IH]; intros w j start i last t.
  - cbn [monitor_loop]. unfold bind, time, out_of_fuel, ret.
    destruct (t - start <? ms max_wait); constructor.
  - destruct (Z.lt_ge_cases (t - start) (ms max_wait)) as [Hlt|Hge];
      [|rewrite monitor_loop_exit by lia; constructor].
    destruct (poll_cases w j start i last t) as [(e & _ & Hp)|(d & s & p & _ & Hp)];
      rewrite (monitor_loop_step _ _ _ _ _ _ _ _ _ _ _ Hlt Hp).
    + cbn [trace]. rewrite request_times_app. apply Forall_app. split; [|apply IH].
      repeat constructor. assumption.
    + destruct (is_completed s || is_failed s); cbn [trace];
        rewrite ?request_times_app; cbn [request_times flat_map snd fst app];
        fold (request_times (change_record start (answered w i t) s p last
                             ++ outcome_record (answered w i t) d s));
        rewrite ?request_times_app, change_record_times, outcome_record_times.
      * repeat constructor. assumption.
      * constructor; [assumption|]. apply IH.
Qed.

Lemma monitor_loop_runs_out fuel : forall w j start i last t,
  (forall k, (i <= k < i + fuel)%nat -> non_terminal w k) ->
  outcome_lines (trace (monitor_loop fuel w j start i last t)) = [] /\
  (result (monitor_loop fuel w j start i last t) = Done tt ->
   ms max_wait <= clock (monitor_loop fuel w j start i last t) - start).
Proof.
  induction fuel as [|fuel IH]; intros w j start i last t Hn.
  - cbn [monitor_loop]. unfold bind, time, out_of_fuel, ret.
    destruct (Z.ltb_spec (t - start) (ms max_wait)); cbn [trace clock result];
      split; try reflexivity; try discriminate. intros _. assumption.
  - destruct (Z.lt_ge_cases (t - start) (ms max_wait)) as [Hlt|Hge];
      [|rewrite monitor_loop_exit by lia; cbn [trace clock result];
        split; [reflexivity|intros _; lia]].
    assert (non_terminal w i) as Hi by (apply Hn; lia).
    assert (forall k, (S i <= k < S i + fuel)%nat -> non_terminal w k) as Hn'
      by (intros k Hk; apply Hn; lia).
    unfold non_terminal in Hi.
    destruct (poll_cases w j start i last t) as [(e & Hq & Hp)|(d & s & p & Hq & Hp)];
      rewrite (monitor_loop_step _ _ _ _ _ _ _ _ _ _ _ Hlt Hp); rewrite Hq in Hi.
    + cbn [trace clock result]. rewrite outcome_lines_app.
      destruct (IH w j start (S i) last (woke w i (answered w i t)) Hn') as [-> Hc].
      split; [reflexivity|exact Hc].
    + destruct Hi as [Hc Hf]. rewrite Hc, Hf. cbn [orb trace clock result].
      rewrite outcome_lines_app.
      destruct (IH w j start (S i) (if py_eq s last then last else s)
                  (woke w i (answered w i t)) Hn') as [-> Hcl].
      split; [|exact Hcl].
      rewrite app_nil_r. unfold outcome_record. rewrite Hc, Hf.
      cbn [outcome_lines flat_map snd app].
      fold (outcome_lines (change_record start (answered w i t) s p last)).
      rewrite outcome_lines_app, change_record_outcome. reflexivity.
Qed.

Lemma change_records_request t r l :
  change_records ((t, Request r) :: l) = change_records l.
Proof. reflexivity. Qed.

Lemma outcome_record_changes t d s : change_records (outcome_record t d s) = [].
Proof.
  unfold outcome_record.
  destruct (is_completed s); [now destruct (truthy (result_of d))|].
  now destruct (is_failed s).
Qed.

(** Once [last_status] equals the status every poll reads, no change
    record is printed any more. *)
Lemma monitor_loop_quiet s fuel : forall w j start i last t,
  (forall k, (i <= k < i + fuel)%nat -> exists d p, polled w k = inr (d, s, p)) ->
  py_eq s last = true ->
  change_records (trace (monitor_loop fuel w j start i last t)) = [].
Proof.
  induction fuel as [|fuel IH]; intros w j start i last t Hs Hl.
  - cbn [monitor_loop]. unfold bind, time, out_of_fuel, ret.
    now destruct (t - start <? ms max_wait).
  - destruct (Z.lt_ge_cases (t - start) (ms max_wait)) as [Hlt|Hge];
      [|now rewrite monitor_loop_exit by lia].
    destruct (Hs i) as (d & p & Hq); [lia|].
    rewrite (monitor_loop_step _ _ _ _ _ _ _ _ _ _ _ Hlt (poll_reads _ _ _ _ _ _ _ _ _ Hq)).
    unfold change_record. rewrite Hl. cbn [app].
    destruct (is_completed s || is_failed s); cbn [trace];
      rewrite change_records_request, ?change_records_app, outcome_record_changes;
      [reflexivity|].
    apply IH; [|assumption]. intros k Hk. apply Hs. lia.
Qed.

End MonitorFacts.

Module MainFacts.
Import Py Run Purchase RunFacts PurchaseFacts PyFacts MonitorFacts.

Lemma monitor_requests w j t :
  Forall (eq (status_request w j)) (requests (trace (monitor w j t))).
Proof.
  unfold monitor. run_cbv. rewrite !trace_extend. cbn [app].
  cbn [requests flat_map snd app]. apply monitor_loop_requests.
Qed.

Lemma main_requests_of_payment w j :
  reaches_payment w j ->
  exists r s b polls,
    answers w = Some (r, s, b) /\
    requests (trace (run_main w)) =
      ([availability_request w; start_job_request w r s b; purchase_request w j]
       ++ polls)%list /\
    Forall (eq (status_request w j)) polls.
Proof.
  intros Hr. destruct (paid w) as [e|tx] eqn:Hp.
  - destruct (main_payment_fails w j e Hr Hp) as (r & s & b & Hi & Hq & _).
    exists r, s, b, []. rewrite app_nil_r. auto.
  - destruct (main_monitors w j tx Hr Hp)
      as (r & s & b & before & tm & after & Hi & Ht & Hb & Ha).
    exists r, s, b, (requests (trace (monitor w j tm))).
    rewrite Ht, !requests_app, Hb, Ha, app_nil_r.
    auto using monitor_requests.
Qed.

Lemma main_prints_before_payment w j :
  reaches_payment w j ->
  exists r s b rest,
    answers w = Some (r, s, b) /\
    prints (trace (run_main w)) =
      ([Banner;
        ConfigReport (AGENT_URL w) (PAYMENT_SERVICE_URL w) (NETWORK w);
        Timestamp (start_clock w);
        PurchaserConfigured;
        Header "Step 1: Checking Service Availability";
        ServiceOnline;
        Header "Step 2: Creating Service Request with Payment";
        RequestingEmail r s;
        JobCreated (job_id j);
        BlockchainContract (blockchain_id j);
        PaymentRequired (amount_ada j) (amount_lovelace j);
        TrackOnExplorer (explorer_url j)] ++ rest)%list.
Proof.
  intros Hr. destruct (reaches_payment_answers _ _ Hr) as (r & s & b & Hi).
  destruct Hr as (Hk & Ha & _ & Hj).
  exists r, s, b.
  unfold run_main, main. run_cbv. rewrite Hk. run_cbv.
  rewrite (check_availability_passes _ _ Ha). run_cbv.
  rewrite (create_job_succeeds _ _ _ _ _ _ Hi Hj). unfold create_job_prefix.
  run_cbv.
  match goal with
  | |- context [bind ?m ?f ?t] => remember (bind m f t) as rest
  | |- context [match submit_payment w j ?t with _ => _ end] =>
      remember (submit_payment w j t) as pay
  end.
  eexists. split; [assumption|].
  rewrite !trace_extend. cbn [prints flat_map snd app]. reflexivity.
Qed.

Ltac invert_and_then H :=
  repeat match type of H with
         | and_then ?x _ = inr _ =>
             let E := fresh "E" in
             destruct x eqn:E; [discriminate|]; cbn [and_then] in H
         end.

Lemma read_job_fields w job_data j :
  read_job w job_data = inr j ->
  exists entries amounts first n,
    payment_details j = PDict entries /\
    map fst entries = descriptor_keys /\
    (forall k k', In (k, k') forwarded_fields ->
       exists v, lookup k entries = Some v /\ getitem job_data k' = inr v) /\
    lookup "network" entries = Some (PStr (NETWORK w)) /\
    lookup "paymentType" entries = Some (PStr "Web3CardanoV1") /\
    getitem job_data "amounts" = inr amounts /\
    getitem0 amounts = inr first /\
    getitem first "amount" = inr (amount_lovelace j) /\
    py_int (int_of_str w) (amount_lovelace j) = inr n /\
    true_div n 1000000 = inr (amount_ada j).
Proof.
  unfold read_job. intros H. invert_and_then H.
  inversion H; subst; clear H. cbn [payment_details amount_lovelace amount_ada].
  eexists. exists p1, p2, z. split; [reflexivity|]. split; [reflexivity|].
  split.
  - intros k k' Hin. cbn [forwarded_fields In] in Hin.
    repeat destruct Hin as [Hin|Hin]; try contradiction;
      inversion Hin; subst; eexists; (split; [reflexivity|assumption]).
  - repeat split; try reflexivity; assumption.
Qed.

Lemma created_job_received w j :
  created_job w = inr j ->
  exists job_data,
    received (start_job_reply w) = inr job_data /\ read_job w job_data = inr j.
Proof.
  unfold created_job. intros H.
  destruct (received (start_job_reply w)) as [|d]; [discriminate|]. eauto.
Qed.

Lemma occurs_in_shows needle text :
  occurs_in needle text -> shows needle (message (PaymentResponse text)).
Proof. intros H. exists text. split; [cbn; tauto|assumption]. Qed.

Lemma bind_within_fuel {A B} (m : M A) (f : A -> M B) :
  within_fuel m -> (forall a, within_fuel (f a)) -> within_fuel (bind m f).
Proof.
  intros Hm Hf t. rewrite result_bind. specialize (Hm t).
  destruct (result (m t)) eqn:E; try discriminate; [apply Hf|congruence].
Qed.

Lemma try_within_fuel {A} (m : M A) (h : exn -> M A) :
  within_fuel m -> (forall e, within_fuel (h e)) -> within_fuel (try_except m h).
Proof.
  intros Hm Hh t. unfold try_except. specialize (Hm t).
  destruct (m t) as [tr c [a|e| |]]; cbn in *; try assumption; try discriminate.
  rewrite result_extend. apply Hh.
Qed.

Lemma lift_within_fuel {A} (x : exn + A) : within_fuel (lift x).
Proof. intros t. now destruct x. Qed.

Lemma say_within_fuel l : within_fuel (say l).
Proof. intros t. discriminate. Qed.

Lemma raise_for_status_within_fuel r : within_fuel (raise_for_status r).
Proof. intros t. unfold raise_for_status. now destruct (error_status r). Qed.

Lemma response_json_within_fuel r : within_fuel (response_json r).
Proof. intros t. unfold response_json. now destruct (json r). Qed.

Lemma http_within_fuel rq rp : within_fuel (http rq rp).
Proof.
  unfold http. repeat (apply bind_within_fuel; [|intros ?]);
    try apply lift_within_fuel; intros t; discriminate.
Qed.

Lemma input_or_within_fuel w n p d : within_fuel (input_or w n p d).
Proof.
  unfold input_or. apply bind_within_fuel; [intros t; discriminate|].
  intros _ t. now destruct (nth_error (stdin w) n).
Qed.

Lemma prefix32_within_fuel v : within_fuel (prefix32 v).
Proof. intros t. now destruct v. Qed.

Lemma monitor_within_fuel w j : within_fuel (monitor w j).
Proof. intros t. now rewrite monitor_total. Qed.

Ltac within_fuel :=
  repeat first
    [ apply say_within_fuel
    | apply lift_within_fuel
    | apply raise_for_status_within_fuel
    | apply response_json_within_fuel
    | apply http_within_fuel
    | apply input_or_within_fuel
    | apply prefix32_within_fuel
    | apply monitor_within_fuel
    | apply bind_within_fuel; [|intros ?]
    | apply try_within_fuel; [|intros ?]
    | (intros ?; discriminate)
    | match goal with
      | |- within_fuel (if ?c then _ else _) => destruct c
      | |- within_fuel (match ?x with _ => _ end) => destruct x
      end ].

(** [main] never stops for lack of fuel: it returns, falls through or
    raises. *)
Lemma main_within_fuel w : within_fuel (main w).
Proof.
  unfold main, check_availability, create_job, submit_payment, summary.
  within_fuel.
Qed.

(** The sample worlds get as far as the payment. *)
Ltac reaches :=
  unfold reaches_payment; repeat split;
  try (vm_compute; reflexivity); vm_compute; discriminate.

Lemma world_reaches_payment : reaches_payment Sample.world Sample.job.
Proof. reaches. Qed.

Lemma world_rejected_reaches_payment : reaches_payment Sample.world_rejected Sample.job.
Proof. reaches. Qed.

Lemma pending_non_terminal i :
  (i < monitor_fuel)%nat -> non_terminal Sample.world_pending i.
Proof. intros _. unfold non_terminal. cbn. split; reflexivity. Qed.

Lemma same_status_pending k :
  (k < monitor_fuel)%nat ->
  exists d p, polled Sample.world_pending k = inr (d, PStr "pending", p).
Proof. intros _. eexists. eexists. reflexivity. Qed.

End MainFacts.

Module LoopFacts.
Import Py Run Purchase RunFacts PurchaseFacts PyFacts MonitorFacts MainFacts.

(** The loop leaves one of the traces of [loop_trace], whatever its
    fuel. *)
Lemma monitor_loop_traced fuel : forall w j start i last t,
  loop_trace w j start i last t
    (trace (monitor_loop fuel w j start i last t))
    (clock (monitor_loop fuel w j start i last t)).
Proof.
  induction fuel as [|fuel IH]; intros w j start i last t.
  - cbn [monitor_loop]. unfold bind, time, out_of_fuel, ret.
    destruct (t - start <? ms max_wait); constructor.
  - destruct (Z.lt_ge_cases (t - start) (ms max_wait)) as [Hlt|Hge];
      [|rewrite monitor_loop_exit by lia; constructor].
    destruct (poll_cases w j start i last t) as [(e & He & Hp)|(d & s & p & Hd & Hp)];
      rewrite (monitor_loop_step _ _ _ _ _ _ _ _ _ _ _ Hlt Hp).
    + cbn [trace clock app]. econstructor; eauto.
    + destruct (is_completed s || is_failed s) eqn:Hs; cbn [trace clock].
      * econstructor; eauto.
      * assert (Ho : outcome_record (answered w i t) d s
                     = [(answered w i t, Sleep poll_interval)]).
        { unfold outcome_record. apply orb_false_elim in Hs as [-> ->]. reflexivity. }
        rewrite Ho. cbn [app]. rewrite <- app_assoc. cbn [app].
        econstructor; eauto.
Qed.

Lemma monitor_run w j t :
  trace (monitor w j t) =
    ((t, Print (Header "Step 4: Monitoring Blockchain & Service Execution"))
     :: (t, Print WaitingForConfirmation)
     :: (t, Print (Plain "This may take 20-60 seconds on Cardano testnet"))
     :: trace (monitor_loop monitor_fuel w j t 0 PNone t))%list /\
  clock (monitor w j t) = clock (monitor_loop monitor_fuel w j t 0 PNone t).
Proof.
  unfold monitor, say, emit, time, bind.
  destruct (monitor_loop monitor_fuel w j t 0 PNone t). now cbn.
Qed.

Lemma change_record_prints start t s p last :
  prints (change_record start t s p last) =
    if py_eq s last then [] else [StatusChange ((t - start) / 1000) s p].
Proof. unfold change_record. now destruct (py_eq s last). Qed.

Lemma outcome_record_verdict t d s :
  is_completed s || is_failed s = true ->
  verdict (prints (outcome_record t d s)).
Proof.
  unfold outcome_record. intros H.
  destruct (is_completed s).
  - cbn [prints flat_map snd app].
    replace (flat_map _ _) with
      (if truthy (result_of d)
       then [Header "Your AI Service Result"; ServiceResult (result_of d)]
       else []) by now destruct (truthy (result_of d)).
    apply Completed.
  - cbn in H. rewrite H. apply Failed.
Qed.

(** Number of polls. *)
Lemma loop_trace_polls w j start i last t tr c :
  loop_trace w j start i last t tr c ->
  forall n, ms max_wait - (t - start) <= 5000 * Z.of_nat n ->
  (List.length (requests tr) <= n)%nat.
Proof.
  induction 1 as [i last t|i last t e tr c Hlt He _ IH|i last t d s p Hlt Hd Hs
                 |i last t d s p tr c Hlt Hd Hs _ IH]; intros n Hn.
  - cbn. lia.
  - destruct n as [|n]; [lia|].
    cbn [requests flat_map snd app List.length]. fold (requests tr).
    apply le_n_S, IH.
    pose proof (woke_late w i (answered w i t)). pose proof (answered_late w i t). lia.
  - cbn [requests flat_map snd app].
    fold (requests (change_record start (answered w i t) s p last
                    ++ outcome_record (answered w i t) d s)).
    rewrite requests_app, change_record_requests, outcome_record_requests.
    destruct n as [|n]; [lia|]. cbn. lia.
  - destruct n as [|n]; [lia|].
    cbn [requests flat_map snd app].
    fold (requests (change_record start (answered w i t) s p last
                    ++ (answered w i t, Sleep poll_interval) :: tr)).
    rewrite requests_app, change_record_requests.
    cbn [requests flat_map snd app List.length]. fold (requests tr).
    apply le_n_S, IH.
    pose proof (woke_late w i (answered w i t)). pose proof (answered_late w i t). lia.
Qed.

Lemma loop_trace_first w j start i last t tr c :
  loop_trace w j start i last t tr c ->
  tr = [] \/ exists rest, tr = (t, Request (status_request w j)) :: rest.
Proof. destruct 1; eauto. Qed.

(** Spacing of the polls. *)
Lemma spaced_cons gap a l :
  Forall (fun x => a + gap <= x) l -> spaced gap l -> spaced gap (a :: l).
Proof.
  destruct l as [|b l]; [easy|]. intros Hl Hs. split; [|assumption].
  now inversion Hl.
Qed.

Lemma loop_trace_spaced w j start i last t tr c :
  loop_trace w j start i last t tr c ->
  Forall (fun x => t <= x) (request_times tr) /\
  spaced (ms poll_interval) (request_times tr).
Proof.
  assert (Hmono : forall (a b : Z) l, a <= b ->
            Forall (fun x => b <= x) l -> Forall (fun x => a <= x) l).
  { intros a b l Hab. apply Forall_impl. intros; lia. }
  induction 1 as [i last t|i last t e tr c Hlt He _ [IH1 IH2]|i last t d s p Hlt Hd Hs
                 |i last t d s p tr c Hlt Hd Hs _ [IH1 IH2]].
  - cbn. split; [constructor|exact I].
  - cbn [request_times flat_map snd fst app]. fold (request_times tr).
    pose proof (woke_late w i (answered w i t)). pose proof (answered_late w i t).
    split.
    + constructor; [lia|]. eapply Hmono; [|exact IH1]. lia.
    + apply spaced_cons; [|assumption]. eapply Hmono; [|exact IH1].
      unfold ms, poll_interval. lia.
  - cbn [request_times flat_map snd fst app].
    fold (request_times (change_record start (answered w i t) s p last
                         ++ outcome_record (answered w i t) d s)).
    rewrite request_times_app, change_record_times, outcome_record_times.
    cbn. split; [constructor; [lia|constructor]|exact I].
  - cbn [request_times flat_map snd fst app].
    fold (request_times (change_record start (answered w i t) s p last
                         ++ (answered w i t, Sleep poll_interval) :: tr)).
    rewrite request_times_app, change_record_times.
    cbn [request_times flat_map snd fst app]. fold (request_times tr).
    pose proof (woke_late w i (answered w i t)). pose proof (answered_late w i t).
    split.
    + constructor; [lia|]. eapply Hmono; [|exact IH1]. lia.
    + apply spaced_cons; [|assumption]. eapply Hmono; [|exact IH1].
      unfold ms, poll_interval. lia.
Qed.

(** Where the clock is when the loop is left. *)
Lemma loop_trace_clock w j start L O i last t tr c :
  (forall k, Z.of_N (latency (status_reply w k)) <= L) ->
  (forall k, Z.of_N (sleep_overrun w k) <= O) ->
  loop_trace w j start i last t tr c ->
  t <= c /\
  (t < start + ms max_wait + L + 5000 + O ->
   c < start + ms max_wait + L + 5000 + O).
Proof.
  intros HL HO.
  assert (Hw : forall k x, woke w k (answered w k x) <= x + L + 5000 + O).
  { intros k x. unfold woke, answered. specialize (HL k). specialize (HO k).
    rewrite N2Z.inj_add. change (Z.of_N 5000) with 5000. lia. }
  assert (Ha : forall k x, answered w k x <= x + L).
  { intros k x. unfold answered. specialize (HL k). lia. }
  assert (HO0 : 0 <= O) by (specialize (HO 0%nat); lia).
  induction 1 as [i last t|i last t e tr c Hlt He _ [IH1 IH2]|i last t d s p Hlt Hd Hs
                 |i last t d s p tr c Hlt Hd Hs _ [IH1 IH2]].
  - lia.
  - pose proof (woke_late w i (answered w i t)). pose proof (answered_late w i t).
    specialize (Hw i t). lia.
  - pose proof (answered_late w i t). specialize (Ha i t). lia.
  - pose proof (woke_late w i (answered w i t)). pose proof (answered_late w i t).
    specialize (Hw i t). lia.
Qed.

(** What the loop prints: progress lines, then at most one verdict. *)
Lemma loop_trace_prints w j start i last t tr c :
  loop_trace w j start i last t tr c ->
  exists progress o,
    prints tr = (progress ++ o)%list /\
    forallb progress_line progress = true /\
    verdict o.
Proof.
  induction 1 as [i last t|i last t e tr c Hlt He _ (pr & o & IH1 & IH2 & IH3)
                 |i last t d s p Hlt Hd Hs
                 |i last t d s p tr c Hlt Hd Hs _ (pr & o & IH1 & IH2 & IH3)].
  - exists [], []. repeat split. constructor.
  - exists (StatusCheckError e :: pr), o.
    cbn [prints flat_map snd app]. fold (prints tr). rewrite IH1.
    repeat split; [cbn; assumption|assumption].
  - exists (prints (change_record start (answered w i t) s p last)),
           (prints (outcome_record (answered w i t) d s)).
    cbn [prints flat_map snd app].
    fold (prints (change_record start (answered w i t) s p last
                  ++ outcome_record (answered w i t) d s)).
    rewrite prints_app. repeat split.
    + rewrite change_record_prints. now destruct (py_eq s last).
    + now apply outcome_record_verdict.
  - exists (prints (change_record start (answered w i t) s p last) ++ pr)%list, o.
    cbn [prints flat_map snd app].
    fold (prints (change_record start (answered w i t) s p last
                  ++ (answered w i t, Sleep poll_interval) :: tr)).
    rewrite prints_app. cbn [prints flat_map snd app]. fold (prints tr).
    rewrite IH1, app_assoc. repeat split; [|assumption].
    rewrite forallb_app, IH2, change_record_prints. now destruct (py_eq s last).
Qed.

(** The change records of the loop. *)
Lemma loop_trace_changes w j start i last t tr c :
  loop_trace w j start i last t tr c ->
  changes_from last (change_records tr).
Proof.
  induction 1 as [i last t|i last t e tr c Hlt He _ IH|i last t d s p Hlt Hd Hs
                 |i last t d s p tr c Hlt Hd Hs _ IH].
  - exact I.
  - exact IH.
  - rewrite change_records_request, change_records_app, outcome_record_changes,
      app_nil_r.
    unfold change_record. destruct (py_eq s last) eqn:E; cbn; auto.
  - rewrite change_records_request, change_records_app.
    unfold change_record. destruct (py_eq s last) eqn:E; cbn; auto.
Qed.







End LoopFacts.

(** * Properties *)

Module MonitorSpec.
Import Py Run Purchase RunFacts PurchaseFacts PyFacts MonitorFacts MainFacts.
Import LoopFacts.

(** C2, as amended. When each of the polls, of which there are at most
    [monitor_fuel], raises or reads a status that is neither "completed"
    nor "failed", the monitor ends normally once the elapsed time has
    reached [max_wait]; every status request was issued before the
    deadline; and the monitor has printed no outcome line at all: nothing
    but its three opening lines, status changes and poll errors. *)
Theorem monitor_runs_out_silently w j t :
  (forall i, (i < monitor_fuel)%nat -> non_terminal w i) ->
  result (monitor w j t) = Done tt /\
  ms max_wait <= clock (monitor w j t) - t /\
  Forall (fun t' => t' - t < ms max_wait) (request_times (trace (monitor w j t))) /\
  outcome_lines (trace (monitor w j t)) =
    [Header "Step 4: Monitoring Blockchain & Service Execution";
     WaitingForConfirmation;
     Plain "This may take 20-60 seconds on Cardano testnet"].
Proof.
  intros Hn. pose proof (monitor_total w j t) as Hr. split; [assumption|].
  revert Hr. unfold monitor. run_cbv. rewrite !result_extend, !clock_extend,
    !trace_extend. cbn [app].
  intros Hr.
  destruct (monitor_loop_runs_out monitor_fuel w j t 0%nat PNone t) as [Ho Hc];
    [intros k Hk; apply Hn; lia|].
  split; [now apply Hc|]. split.
  - cbn [request_times flat_map snd app]. apply monitor_loop_request_times.
  - cbn [outcome_lines flat_map snd app progress_line].
    fold (outcome_lines (trace (monitor_loop monitor_fuel w j t 0 PNone t))).
    now rewrite Ho.
Qed.

(** The job of [Sample.world_pending] stays "pending": the monitor ends
    normally after the deadline. *)
Lemma monitor_runs_out_witness :
  (forall i, (i < monitor_fuel)%nat -> non_terminal Sample.world_pending i) /\
  result (monitor Sample.world_pending Sample.job 0) = Done tt /\
  ms max_wait <= clock (monitor Sample.world_pending Sample.job 0) - 0.
Proof.
  split; [exact pending_non_terminal|].
  destruct (monitor_runs_out_silently Sample.world_pending Sample.job 0 pending_non_terminal)
    as (H1 & H2 & _).
  split; [exact H1|exact H2].
Defined.

(** C2, counterexample. In [Sample.world_pending] every poll reads
    "pending"; the monitor polls 59 times and leaves the loop after 302.08
    seconds. All it has printed is its three opening lines and one status
    change, and the next line of the run is the header of the summary:
    no line reports the timeout. *)
Lemma timed_out_run_reports_no_timeout :
  (forall i, (i < monitor_fuel)%nat -> non_terminal Sample.world_pending i) /\
  List.length (requests (trace (monitor Sample.world_pending Sample.job 0))) = 59%nat /\
  clock (monitor Sample.world_pending Sample.job 0) = 302080 /\
  prints (trace (monitor Sample.world_pending Sample.job 0)) =
    [Header "Step 4: Monitoring Blockchain & Service Execution";
     WaitingForConfirmation;
     Plain "This may take 20-60 seconds on Cardano testnet";
     StatusChange 0 (PStr "pending") (PStr "locked")] /\
  skipn 20 (prints (trace (run_main Sample.world_pending))) =
    [Header "Step 4: Monitoring Blockchain & Service Execution";
     WaitingForConfirmation;
     Plain "This may take 20-60 seconds on Cardano testnet";
     StatusChange 0 (PStr "pending") (PStr "locked");
     Header "Transaction Summary";
     Plain "WHAT HAPPENED:";
     SummaryWhatHappened 5 "Preprod";
     Plain "Smart contract received and verified payment";
     Plain "AI service executed your request";
     Plain "Result delivered to you";
     Plain "Payment released to seller's wallet";
     Plain "BLOCKCHAIN VERIFICATION:";
     SummaryNetwork "Preprod";
     SummaryContract (PStr "contract-1");
     SummaryAmount 5;
     SummaryTransaction (PStr "abc123");
     SummaryExplorer [Lit "https://preprod.cardanoscan.io/transaction/";
                      Fmt (PStr "abc123")];
     Plain "YOUR WALLET:";
     Plain "Test ADA was deducted from your wallet";
     Plain "You can check your wallet balance in Masumi dashboard";
     Plain "Transaction is permanently recorded on blockchain";
     SummaryClosing;
     Plain "This was a REAL transaction on Cardano testnet!";
     Plain "Check the Cardano explorer link above to verify on-chain"].
Proof.
  split; [exact pending_non_terminal|].
  repeat split; vm_compute; reflexivity.
Qed.

(** C3, as amended. A poll that is performed and reads a status equal to
    "completed" ends the loop at once: the status request of that poll is
    the only one still issued, and the only outcome lines printed are one
    [ServiceCompleted] and, when the result is truthy, the result header
    and the result. A poll that reads "failed" ends it the same way with
    [ServiceFailed] and the whole status payload. *)
Theorem monitor_stops_on_terminal_status fuel w j start i last t d s p :
  t - start < ms max_wait ->
  polled w i = inr (d, s, p) ->
  is_completed s = true \/ is_failed s = true ->
  let r := monitor_loop (S fuel) w j start i last t in
  result r = Done tt /\
  requests (trace r) = [status_request w j] /\
  outcome_lines (trace r) =
    if is_completed s then
      ServiceCompleted
      :: (if truthy (result_of d)
          then [Header "Your AI Service Result"; ServiceResult (result_of d)]
          else [])
    else [ServiceFailed; StatusPayload d].
Proof.
  intros Hlt Hq Hs r. subst r.
  rewrite (monitor_loop_step _ _ _ _ _ _ _ _ _ _ _ Hlt (poll_reads _ _ _ _ _ _ _ _ _ Hq)).
  assert (is_completed s || is_failed s = true) as ->
    by (destruct Hs as [-> | ->]; [reflexivity|apply orb_true_r]).
  cbn [trace result]. split; [reflexivity|]. split.
  - cbn [requests flat_map snd app].
    fold (requests (change_record start (answered w i t) s p last
                    ++ outcome_record (answered w i t) d s)).
    now rewrite requests_app, change_record_requests, outcome_record_requests.
  - cbn [outcome_lines flat_map snd app].
    fold (outcome_lines (change_record start (answered w i t) s p last
                         ++ outcome_record (answered w i t) d s)).
    rewrite outcome_lines_app, change_record_outcome. cbn [app].
    unfold outcome_record. destruct (is_completed s).
    + now destruct (truthy (result_of d)).
    + destruct Hs as [Hs|Hs]; [discriminate|]. now rewrite Hs.
Qed.

(** The third poll of [Sample.world] reads "completed" with a result. *)
Lemma monitor_stops_witness :
  0 - 0 < ms max_wait /\
  polled Sample.world 2 = inr (Sample.completed, PStr "completed", PStr "locked") /\
  requests (trace (monitor_loop 1 Sample.world Sample.job 0 2 (PStr "pending") 0)) =
    [status_request Sample.world Sample.job] /\
  outcome_lines (trace (monitor_loop 1 Sample.world Sample.job 0 2 (PStr "pending") 0)) =
    [ServiceCompleted; Header "Your AI Service Result"; ServiceResult (PStr "Email sent")].
Proof.
  assert (0 - 0 < ms max_wait) as Hlt by (vm_compute; reflexivity).
  split; [exact Hlt|]. split; [reflexivity|].
  destruct (monitor_stops_on_terminal_status 0 Sample.world Sample.job 0 2
              (PStr "pending") 0 Sample.completed (PStr "completed") (PStr "locked")
              Hlt eq_refl (or_introl eq_refl))
    as (_ & Hq & Ho).
  split; [exact Hq|exact Ho].
Defined.

(** C3, counterexample. The status payload of [Sample.world_result_zero]
    has the result [0]: the result is present, and nothing is printed
    after [ServiceCompleted]. *)
Lemma falsy_result_is_not_printed :
  exists d,
    polled Sample.world_result_zero 0 = inr (PDict d, PStr "completed", PNone) /\
    lookup "result" d = Some (PInt 0) /\
    prints (trace (monitor Sample.world_result_zero Sample.job 0)) =
      [Header "Step 4: Monitoring Blockchain & Service Execution";
       WaitingForConfirmation;
       Plain "This may take 20-60 seconds on Cardano testnet";
       StatusChange 0 (PStr "completed") PNone;
       ServiceCompleted].
Proof. eexists. repeat split; vm_compute; reflexivity. Qed.




(** C5. A poll whose [try] block raises does not end the loop: the
    exception is printed, the monitor sleeps for the poll interval, and the
    loop goes on with the next iteration, with [last_status] unchanged. It
    polls again exactly when the deadline has not passed by then (the fuel
    left is enough for the time left, as it is from the start of the
    monitor on). Whatever the polls do, the monitor ends normally and no
    exception leaves it. *)
Theorem poll_error_is_retried fuel w j start i last t e :
  t - start < ms max_wait ->
  polled w i = inl e ->
  let t' := woke w i (answered w i t) in
  let next := monitor_loop fuel w j start (S i) last t' in
  monitor_loop (S fuel) w j start i last t =
    Ran ([(t, Request (status_request w j));
          (answered w i t, Print (StatusCheckError e));
          (answered w i t, Sleep poll_interval)] ++ trace next)%list
        (clock next) (result next) /\
  (ms max_wait <= t' - start -> trace next = []) /\
  (ms max_wait - (t - start) <= 5000 * Z.of_nat (S fuel) ->
   t' - start < ms max_wait ->
   exists rest, trace next = (t', Request (status_request w j)) :: rest) /\
  (forall t0, result (monitor w j t0) = Done tt).
Proof.
  intros Hlt Hq t' next. subst t' next. split; [|split; [|split]].
  - now rewrite (monitor_loop_step _ _ _ _ _ _ _ _ _ _ _ Hlt (poll_raises _ _ _ _ _ _ _ Hq)).
  - intros Hge. now rewrite monitor_loop_exit.
  - intros Hfuel Hlt'.
    pose proof (woke_late w i (answered w i t)) as Hw.
    pose proof (answered_late w i t) as Ha.
    destruct fuel as [|fuel']; [lia|].
    destruct (poll_cases w j start (S i) last (woke w i (answered w i t)))
      as [(e' & _ & Hp)|(d & s & p & _ & Hp)];
      rewrite (monitor_loop_step _ _ _ _ _ _ _ _ _ _ _ Hlt' Hp).
    + cbn [trace app]. eauto.
    + destruct (is_completed s || is_failed s); cbn [trace app]; eauto.
  - apply monitor_total.
Qed.

(** The first poll of [Sample.world_flaky] cannot connect; the second one,
    five seconds later, reads "completed". *)
Lemma poll_error_witness :
  0 - 0 < ms max_wait /\
  polled Sample.world_flaky 0 = inl (Exception "ConnectionError" "Connection refused") /\
  requests (trace (monitor_loop 60 Sample.world_flaky Sample.job 0 0 PNone 0)) =
    [status_request Sample.world_flaky Sample.job;
     status_request Sample.world_flaky Sample.job] /\
  prints (trace (monitor_loop 60 Sample.world_flaky Sample.job 0 0 PNone 0)) =
    [StatusCheckError (Exception "ConnectionError" "Connection refused");
     StatusChange 5 (PStr "completed") (PStr "locked");
     ServiceCompleted;
     Header "Your AI Service Result";
     ServiceResult (PStr "Email sent")].
Proof.
  assert (0 - 0 < ms max_wait) as Hlt by (vm_compute; reflexivity).
  split; [exact Hlt|]. split; [reflexivity|].
  destruct (poll_error_is_retried 59 Sample.world_flaky Sample.job 0 0 PNone 0
              (Exception "ConnectionError" "Connection refused") Hlt eq_refl)
    as (Hrun & _).
  rewrite Hrun. split; vm_compute; reflexivity.
Defined.

End MonitorSpec.

Module PurchaseSpec.
Import Py Run Purchase RunFacts PurchaseFacts PyFacts MonitorFacts MainFacts.
Import FloatFacts.

(** C1, as amended. When the job-creation response is valid, the body of
    the one purchase request is a dict with the twelve keys of
    [descriptor_keys] in that order. Ten of its values are the values the
    response has under the keys of [forwarded_fields], unchanged ([inputHash]
    is read from [input_hash] and [sellerVkey] from [sellerVKey]); the other
    two do not come from the response: [network] is the configured
    [NETWORK] and [paymentType] is the literal "Web3CardanoV1". *)
Theorem payment_descriptor_comes_from_job w j :
  reaches_payment w j ->
  exists job_data entries,
    received (start_job_reply w) = inr job_data /\
    payment_details j = PDict entries /\
    map fst entries = descriptor_keys /\
    (forall k k', In (k, k') forwarded_fields ->
       exists v, lookup k entries = Some v /\ getitem job_data k' = inr v) /\
    lookup "network" entries = Some (PStr (NETWORK w)) /\
    lookup "paymentType" entries = Some (PStr "Web3CardanoV1") /\
    exists r s b polls,
      requests (trace (run_main w)) =
        ([availability_request w; start_job_request w r s b;
          POST (purchase_url w) (PDict entries) (purchase_headers w) 60]
         ++ polls)%list /\
      Forall (eq (status_request w j)) polls.
Proof.
  intros Hr.
  destruct (main_requests_of_payment w j Hr) as (r & s & b & polls & _ & Hq & Hpolls).
  destruct Hr as (_ & _ & _ & Hj).
  destruct (created_job_received w j Hj) as (job_data & Hrec & Hread).
  destruct (read_job_fields w job_data j Hread)
    as (entries & amounts & first & n & Hd & Hkeys & Hfw & Hnet & Hty & _).
  exists job_data, entries. repeat (split; [assumption|]).
  exists r, s, b, polls. split; [|assumption].
  rewrite Hq. unfold purchase_request. now rewrite Hd.
Qed.

(** The run of [Sample.world] reaches the payment with [Sample.job]. *)
Lemma payment_descriptor_comes_from_job_witness :
  reaches_payment Sample.world Sample.job /\
  exists job_data entries,
    received (start_job_reply Sample.world) = inr job_data /\
    payment_details Sample.job = PDict entries /\
    map fst entries = descriptor_keys.
Proof.
  split; [exact world_reaches_payment|].
  destruct (payment_descriptor_comes_from_job Sample.world Sample.job world_reaches_payment)
    as (job_data & entries & H1 & H2 & H3 & _).
  exists job_data, entries. auto.
Defined.

(** C1, counterexample. In the run of [Sample.world] the body of the
    purchase request has the fields [network] and [paymentType], whose
    values "Preprod" and "Web3CardanoV1" are the value of no field of the
    job-creation response; and its keys are not the keys of the response. *)
Lemma descriptor_has_fields_not_from_response :
  received (start_job_reply Sample.world) = inr (PDict Sample.job_fields) /\
  exists entries,
    nth_error (requests (trace (run_main Sample.world))) 2 =
      Some (POST (purchase_url Sample.world) (PDict entries)
              (purchase_headers Sample.world) 60) /\
    lookup "network" entries = Some (PStr "Preprod") /\
    (forall k, lookup k Sample.job_fields <> Some (PStr "Preprod")) /\
    lookup "paymentType" entries = Some (PStr "Web3CardanoV1") /\
    (forall k, lookup k Sample.job_fields <> Some (PStr "Web3CardanoV1")) /\
    map fst entries <> map fst Sample.job_fields.
Proof.
  split; [reflexivity|]. eexists. split; [vm_compute; reflexivity|].
  split; [reflexivity|]. split.
  { intros k. unfold Sample.job_fields. cbn [lookup].
    repeat (destruct (String.eqb k _)); discriminate. }
  split; [reflexivity|]. split.
  { intros k. unfold Sample.job_fields. cbn [lookup].
    repeat (destruct (String.eqb k _)); discriminate. }
  vm_compute. discriminate.
Qed.

(** C7. When the payment service answers the purchase request with a 4xx
    or 5xx response, [main] returns at step 3: the purchase request is the
    last request of the run and is issued once, no status request is
    issued, and the last lines printed are the error, the line
    ["Response: " + response.text] and the hints. Any text that occurs in
    the body occurs in that line; for the body
    [{"message":"insufficient funds"}] it shows "insufficient funds". *)
Theorem rejected_payment_aborts w j resp :
  reaches_payment w j ->
  outcome (purchase_reply w) = inr resp ->
  error_status resp = true ->
  result (run_main w) = Return /\
  (exists r s b,
     requests (trace (run_main w)) =
       [availability_request w; start_job_request w r s b; purchase_request w j]) /\
  ~ In (status_request w j) (requests (trace (run_main w))) /\
  (exists before,
     prints (trace (run_main w)) =
       (before ++ [PaymentFailed (HTTPError (status_code resp) (text resp));
                   PaymentResponse (text resp);
                   PossibleIssues])%list) /\
  (forall needle, occurs_in needle (text resp) ->
     shows needle (message (PaymentResponse (text resp)))) /\
  (text resp = Sample.insufficient_funds ->
     shows "insufficient funds" (message (PaymentResponse (text resp)))).
Proof.
  intros Hr Ho Hs.
  destruct (main_payment_rejected w j resp Hr Ho Hs)
    as (r & s & b & before & _ & Hq & Hp & Hres).
  split; [assumption|]. split; [eauto|]. split.
  - rewrite Hq. unfold availability_request, start_job_request, purchase_request,
      status_request. cbn [In]. intros [H|[H|[H|[]]]]; discriminate.
  - split; [eauto|]. split; [intros needle; apply occurs_in_shows|].
    intros ->. apply occurs_in_shows.
    exists ("{" ++ Sample.dq ++ "message" ++ Sample.dq ++ ":" ++ Sample.dq),
      (Sample.dq ++ "}"). reflexivity.
Qed.

(** In [Sample.world_rejected] the payment service answers 402 with the
    body [{"message":"insufficient funds"}]. *)
Lemma rejected_witness :
  reaches_payment Sample.world_rejected Sample.job /\
  result (run_main Sample.world_rejected) = Return /\
  shows "insufficient funds" (message (PaymentResponse Sample.insufficient_funds)).
Proof.
  split; [exact world_rejected_reaches_payment|].
  destruct (rejected_payment_aborts Sample.world_rejected Sample.job
              {| status_code := 402; text := Sample.insufficient_funds;
                 json := Some (PDict [("message", PStr "insufficient funds")]) |}
              world_rejected_reaches_payment eq_refl eq_refl)
    as (Hres & _ & _ & _ & _ & Hshow).
  split; [exact Hres|exact (Hshow eq_refl)].
Defined.

(** C8, as amended. Each of the first three steps is a gate. The health
    check fails exactly when the request raises or the response has a
    status from 400 to 599, which is when [raise_for_status] raises: then
    the run issues no request after it and [main] returns. A response with
    any other status passes the check, also one that is no success, and
    the run goes on to the job-creation request. If job creation raises,
    the requests of the run are the health check and the job creation
    only. If the payment raises, they are these two and the purchase
    request: no status request is issued. *)
Theorem failed_stage_aborts_run w :
  (forall e, availability_error w = Some e ->
     requests (trace (run_main w)) =
       (if no_purchaser_key w then [] else [availability_request w]) /\
     result (run_main w) = Return) /\
  (availability_error w = None <->
   exists resp,
     outcome (availability_reply w) = inr resp /\
     (status_code resp < 400 \/ 600 <= status_code resp)) /\
  (forall r s b,
     no_purchaser_key w = false ->
     availability_error w = None ->
     answers w = Some (r, s, b) ->
     exists rest,
       requests (trace (run_main w)) =
         (availability_request w :: start_job_request w r s b :: rest)%list) /\
  (forall r s b e,
     no_purchaser_key w = false ->
     availability_error w = None ->
     answers w = Some (r, s, b) ->
     created_job w = inl e ->
     requests (trace (run_main w)) =
       [availability_request w; start_job_request w r s b] /\
     result (run_main w) = Return) /\
  (forall j e,
     reaches_payment w j ->
     paid w = inl e ->
     (exists r s b,
        requests (trace (run_main w)) =
          [availability_request w; start_job_request w r s b; purchase_request w j]) /\
     result (run_main w) = Return).
Proof.
  split; [|split; [|split; [|split]]].
  - intros e Ha. destruct (no_purchaser_key w) eqn:Hk.
    + now apply main_no_key.
    + now apply (main_unavailable w e).
  - unfold availability_error, error_status.
    destruct (outcome (availability_reply w)) as [e|resp]; split.
    + discriminate.
    + intros (resp & H & _). discriminate.
    + destruct (Z.leb_spec 400 (status_code resp));
        destruct (Z.ltb_spec (status_code resp) 600); cbn [andb];
        try discriminate; intros _; exists resp; split; auto; lia.
    + intros (resp' & H & Hs). inversion H; subst resp'.
      destruct (Z.leb_spec 400 (status_code resp));
        destruct (Z.ltb_spec (status_code resp) 600); cbn [andb];
        try reflexivity; lia.
  - intros r s b Hk Ha Hi. destruct (created_job w) as [e|j] eqn:Hj.
    + destruct (main_job_fails w r s b e Hk Ha Hi Hj) as [-> _]. eauto.
    + assert (Hr : reaches_payment w j).
      { repeat split; try assumption. congruence. }
      destruct (main_requests_of_payment w j Hr)
        as (r' & s' & b' & polls & Hi' & -> & _).
      rewrite Hi in Hi'. inversion Hi'; subst. cbn [app]. eauto.
  - intros r s b e. apply main_job_fails.
  - intros j e Hr Hp.
    destruct (main_payment_fails w j e Hr Hp) as (r & s & b & _ & Hq & Hres).
    eauto.
Qed.

(** In [Sample.world_down] the health check cannot connect. *)
Lemma failed_stage_witness :
  availability_error Sample.world_down = Some (Exception "ConnectionError" "Connection refused") /\
  requests (trace (run_main Sample.world_down)) = [availability_request Sample.world_down] /\
  result (run_main Sample.world_down) = Return.
Proof.
  split; [reflexivity|].
  exact (proj1 (failed_stage_aborts_run Sample.world_down) _ eq_refl).
Defined.

(** C8, counterexample. The health check of [Sample.world_not_modified]
    is answered with the status 304, which is no success and on which
    [raise_for_status] does not raise: the check passes, and the run
    creates the job, pays and polls to the end. *)
Lemma non_success_reply_passes_health_check :
  (exists resp,
     outcome (availability_reply Sample.world_not_modified) = inr resp /\
     status_code resp = 304) /\
  In (Print ServiceOnline) (map snd (trace (run_main Sample.world_not_modified))) /\
  requests (trace (run_main Sample.world_not_modified)) =
    [availability_request Sample.world_not_modified;
     start_job_request Sample.world_not_modified "user@example.com"
       "Test Email Subject" "This is a test email sent via Masumi-paid agent.";
     purchase_request Sample.world_not_modified Sample.job;
     status_request Sample.world_not_modified Sample.job;
     status_request Sample.world_not_modified Sample.job;
     status_request Sample.world_not_modified Sample.job] /\
  result (run_main Sample.world_not_modified) = Done tt.
Proof.
  split; [eexists; split; reflexivity|].
  split; [vm_compute; tauto|].
  split; vm_compute; reflexivity.
Qed.

(** C9, as amended. When the job-creation response is valid, the amount
    shown in the "Payment Required" line is the float that
    [int(amounts[0]["amount"]) / 1_000_000] gives: the binary64 nearest to
    the quotient, which differs from it by at most [2^(-53)] of it, is the
    quotient itself when that is a whole number below [2^53], and is 5 for
    the amount "5000000". The [amounts] value of the purchase request is
    the value [job_data["amounts"]] of the response, whatever the amount
    shown. *)
Theorem amount_is_converted_for_display_only w j :
  reaches_payment w j ->
  exists job_data amounts first n,
    received (start_job_reply w) = inr job_data /\
    getitem job_data "amounts" = inr amounts /\
    getitem0 amounts = inr first /\
    getitem first "amount" = inr (amount_lovelace j) /\
    py_int (int_of_str w) (amount_lovelace j) = inr n /\
    amount_ada j = binary64 n 1000000 /\
    (Qabs (amount_ada j - (n # 1000000)) * inject_Z (2 ^ 53)
     <= Qabs (n # 1000000))%Q /\
    (forall m, n = m * 1000000 -> Z.abs m < 2 ^ 53 ->
       (amount_ada j == inject_Z m)%Q) /\
    (n = 5000000 -> amount_ada j = 5%Q) /\
    In (PaymentRequired (amount_ada j) (amount_lovelace j))
       (prints (trace (run_main w))) /\
    getitem (payment_details j) "amounts" = inr amounts /\
    In (purchase_request w j) (requests (trace (run_main w))).
Proof.
  intros Hr.
  destruct (main_requests_of_payment w j Hr) as (r & s & b & polls & _ & Hq & _).
  destruct (main_prints_before_payment w j Hr) as (r' & s' & b' & rest & _ & Hpr).
  destruct Hr as (_ & _ & _ & Hj).
  destruct (created_job_received w j Hj) as (job_data & Hrec & Hread).
  destruct (read_job_fields w job_data j Hread)
    as (entries & amounts & first & n & Hd & _ & Hfw & _ & _ & Ham & Hfirst & Hamt & Hint & Hdiv).
  exists job_data, amounts, first, n.
  assert (amount_ada j = binary64 n 1000000) as Hada.
  { unfold true_div in Hdiv.
    destruct (float_limit * 1000000 <=? Z.abs n); [discriminate|].
    now inversion Hdiv. }
  repeat (split; [assumption|]).
  split.
  { rewrite Hada. destruct (Z.eq_dec n 0) as [->|Hn]; [discriminate|].
    apply binary64_error; [assumption|].
    apply exponent_lower; [lia|reflexivity]. }
  split.
  { intros m -> Hm. rewrite Hada. now apply (binary64_exact m 1000000). }
  split; [intros ->; now rewrite Hada|].
  split; [rewrite Hpr; apply in_or_app; left; cbn; tauto|].
  split.
  - destruct (Hfw "amounts" "amounts") as (v & Hl & Hg); [cbn; tauto|].
    rewrite Hd. unfold getitem. rewrite Hl. congruence.
  - rewrite Hq. cbn. tauto.
Qed.

(** The amount "5000000" of [Sample.world] is shown as 5. *)
Lemma amount_witness :
  reaches_payment Sample.world Sample.job /\
  amount_ada Sample.job = 5%Q /\
  In (purchase_request Sample.world Sample.job) (requests (trace (run_main Sample.world))).
Proof.
  split; [exact world_reaches_payment|].
  destruct (amount_is_converted_for_display_only Sample.world Sample.job world_reaches_payment)
    as (job_data & amounts & first & n & _ & _ & _ & _ & _ & _ & _ & _ & _ & _ & _ & Hin).
  split; [reflexivity|exact Hin].
Defined.

(** C9, counterexample. The job of [Sample.world_large_amount] costs
    8600000000000001 lovelace. The amount shown is the float
    4508876800000001 / 2^19, which Python writes 8600000000.000002: it is
    not the quotient 8600000000.000001, and it is the amount shown for
    8600000000000002 lovelace as well. *)
Lemma large_amount_is_rounded :
  exists j,
    reaches_payment Sample.world_large_amount j /\
    amount_lovelace j = PStr "8600000000000001" /\
    amount_ada j = 4508876800000001 # 524288 /\
    ~ (amount_ada j == 8600000000000001 # 1000000)%Q /\
    In (PaymentRequired (4508876800000001 # 524288) (PStr "8600000000000001"))
       (prints (trace (run_main Sample.world_large_amount))) /\
    binary64 8600000000000002 1000000 = amount_ada j.
Proof.
  eexists. split; [|split; [|split; [|split; [|split]]]].
  - unfold reaches_payment. repeat split; try (vm_compute; reflexivity).
    vm_compute. discriminate.
  - reflexivity.
  - vm_compute. reflexivity.
  - vm_compute. discriminate.
  - vm_compute. tauto.
  - vm_compute. reflexivity.
Qed.

End PurchaseSpec.

Module EmailFacts.
Import Py Email.

Lemma nonempty_false s : nonempty s = false <-> s = EmptyString.
Proof.
  unfold nonempty. rewrite negb_false_iff. apply String.eqb_eq.
Qed.

Lemma enhance_unavailable w self keypoints subject body :
  unavailable w self ->
  snd (_enhance_email_with_gemini w self keypoints subject body) = (subject, body).
Proof.
  unfold unavailable, _enhance_email_with_gemini.
  intros [H|[H|H]].
  - now rewrite H.
  - rewrite H, orb_true_r. reflexivity.
  - destruct (negb (ChatGoogleGenerativeAI w) || negb (ChatPromptTemplate w));
      [reflexivity|].
    apply nonempty_false in H. now rewrite H.
Qed.

Lemma enhance_raises w self keypoints subject body e :
  enhance_try w keypoints subject body = inl e ->
  snd (_enhance_email_with_gemini w self keypoints subject body) = (subject, body).
Proof.
  unfold _enhance_email_with_gemini. intros H. rewrite H.
  destruct (negb (ChatGoogleGenerativeAI w) || negb (ChatPromptTemplate w));
    [reflexivity|].
  now destruct (negb (nonempty (gemini_api_key self))).
Qed.

Lemma enhance_succeeds w self keypoints subject body new :
  ChatGoogleGenerativeAI w = true ->
  ChatPromptTemplate w = true ->
  gemini_api_key self <> EmptyString ->
  enhance_try w keypoints subject body = inr new ->
  snd (_enhance_email_with_gemini w self keypoints subject body) = new.
Proof.
  unfold _enhance_email_with_gemini. intros H1 H2 H3 H. rewrite H, H1, H2.
  cbn [negb orb]. destruct (nonempty (gemini_api_key self)) eqn:Hk; [reflexivity|].
  now apply nonempty_false in Hk.
Qed.

(** The result of [execute_task] is the result of validation and sending
    on the enhanced subject and body. *)
Lemma execute_task_result w self input_data :
  snd (execute_task w self input_data) =
  snd (validate_and_send w self (get_or_empty input_data "recipient_email")
         (fst (enhanced w self input_data)) (snd (enhanced w self input_data))).
Proof. reflexivity. Qed.

Lemma valid_true self r s b :
  valid self r s b = true <->
  truthy r = true /\ truthy s = true /\ truthy b = true /\
  nonempty (brevo_api_key self) = true /\ nonempty (sender_email self) = true.
Proof. unfold valid. rewrite !andb_true_iff. tauto. Qed.

Lemma send_result w self r s b :
  valid self r s b = true ->
  snd (validate_and_send w self r s b) =
  if has_api_instance self then
    match send_transac_email w (outgoing self r s b) with
    | SendReturns message_id =>
        new_ServiceResult r s true
          [Lit "Email sent successfully to "; Fmt r;
           Lit " (Message ID: "; Fmt message_id; Lit ")"]
    | SendRaises (ApiException t) =>
        new_ServiceResult r s false [Lit "Brevo API error: "; FmtExn (ApiException t)]
    | SendRaises e =>
        new_ServiceResult r s false [Lit "Error sending email: "; FmtExn e]
    end
  else
    new_ServiceResult r s false
      [Lit "Error sending email: ";
       FmtExn (Exception "AttributeError"
                 "'NoneType' object has no attribute 'send_transac_email'")].
Proof.
  intros H. apply valid_true in H as (H1 & H2 & H3 & H4 & H5).
  unfold validate_and_send. rewrite H1, H2, H3, H4, H5. cbn [negb].
  destruct (has_api_instance self); cbn [negb]; [|reflexivity].
  destruct (send_transac_email w (outgoing self r s b)) as [[]|]; reflexivity.
Qed.

Lemma invalid_result w self r s b :
  valid self r s b = false ->
  success (snd (validate_and_send w self r s b)) = false /\
  message (snd (validate_and_send w self r s b)) =
    [Lit (if negb (truthy r) then "recipient_email is required"
          else if negb (truthy s) then "subject is required"
          else if negb (truthy b) then "body is required"
          else if negb (nonempty (brevo_api_key self))
          then "Brevo API key not configured (BREVO_API_KEY missing)"
          else "Sender email not configured (SENDER_EMAIL missing)")].
Proof.
  unfold valid, validate_and_send. intros H.
  destruct (truthy r); cbn [negb]; [|now split].
  destruct (truthy s); cbn [negb]; [|now split].
  destruct (truthy b); cbn [negb]; [|now split].
  destruct (nonempty (brevo_api_key self)); cbn [negb]; [|now split].
  destruct (nonempty (sender_email self)); cbn [negb]; [discriminate|now split].
Qed.

End EmailFacts.

Module EmailSpec.
Import Py Email EmailFacts.

(** C6. [_enhance_email_with_gemini] returns the subject and body it was
    given, unchanged, when LangChain or the API key is missing and when
    anything raises inside its [try] block: the call of the model, or
    the parsing of its answer, which fails when [json.loads] raises on the
    text and either the text has no brace-delimited part or [json.loads]
    raises on that part too. The exception is swallowed: the result of
    [execute_task] is then the one computed from the caller's subject and
    body. No other [except] block swallows what it catches: an exception
    of the provider makes the result of [execute_task] a failure whose
    message carries the exception, and every [except] block of the
    purchase script prints the exception it catches. *)
Theorem enhancement_failure_falls_back w self :
  (forall keypoints subject body,
     let new := snd (_enhance_email_with_gemini w self keypoints subject body) in
     (unavailable w self -> new = (subject, body)) /\
     (forall e, enhance_try w keypoints subject body = inl e -> new = (subject, body)) /\
     (forall points,
        chain_setup w = None ->
        join_lines keypoints = inr points ->
        (forall e,
           chain_invoke w points subject body = LlmRaises e ->
           enhance_try w keypoints subject body = inl e) /\
        (forall text e,
           chain_invoke w points subject body = LlmContent (PStr text) ->
           parse_reply w text = inl e ->
           enhance_try w keypoints subject body = inl e))) /\
  (forall text m,
     json_loads w text = inl (JSONDecodeError m) ->
     parse_reply w text =
     match search_braces text with
     | None => inl (JSONDecodeError m)
     | Some found => json_loads w found
     end) /\
  (forall input_data,
     let subject := get_or_empty input_data "subject" in
     let body := get_or_empty input_data "body" in
     unavailable w self \/
     (exists e, enhance_try w [subject; body] subject body = inl e) ->
     snd (execute_task w self input_data) =
     snd (validate_and_send w self (get_or_empty input_data "recipient_email")
            subject body)) /\
  (forall input_data e,
     let r := get_or_empty input_data "recipient_email" in
     let sb := enhanced w self input_data in
     valid self r (fst sb) (snd sb) = true ->
     has_api_instance self = true ->
     send_transac_email w (outgoing self r (fst sb) (snd sb)) = SendRaises e ->
     success (snd (execute_task w self input_data)) = false /\
     In (FmtExn e) (message (snd (execute_task w self input_data)))) /\
  (forall purchase_world job e, Purchase.handlers_print purchase_world job e).
Proof.
  split; [|split; [|split; [|split]]];
    [| | | |exact PurchaseFacts.caught_exceptions_are_printed].
  - intros keypoints subject body new. subst new. split; [|split].
    + apply enhance_unavailable.
    + intros e. apply enhance_raises.
    + intros points Hc Hj. unfold enhance_try. rewrite Hc, Hj. split.
      * intros e ->. reflexivity.
      * intros text e -> ->. reflexivity.
  - intros text m H. unfold parse_reply. now rewrite H.
  - intros input_data subject body H. rewrite execute_task_result.
    unfold enhanced. fold subject body.
    destruct H as [H|[e H]].
    + now rewrite (enhance_unavailable w self _ _ _ H).
    + now rewrite (enhance_raises w self _ _ _ e H).
  - intros input_data e r sb Hv Ha Hs. rewrite execute_task_result.
    fold r sb. rewrite (send_result w self _ _ _ Hv), Ha, Hs.
    destruct e; cbn; auto.
Qed.

(** In [Sample.mail_world_words] the model answers with plain words:
    the mail is sent with the subject of the caller. *)
Lemma enhancement_fallback_witness :
  (exists e,
     enhance_try Sample.mail_world_words [PStr "Report"; PStr "report is ready"]
       (PStr "Report") (PStr "report is ready") = inl e) /\
  subject (snd (execute_task Sample.mail_world_words
                  (new_EmailService Sample.mail_world_words false)
                  Sample.input_complete)) = PStr "Report" /\
  success (snd (execute_task Sample.mail_world_words
                  (new_EmailService Sample.mail_world_words false)
                  Sample.input_complete)) = true.
Proof.
  assert (exists e,
            enhance_try Sample.mail_world_words [PStr "Report"; PStr "report is ready"]
              (PStr "Report") (PStr "report is ready") = inl e) as H
    by (eexists; vm_compute; reflexivity).
  split; [exact H|].
  destruct (enhancement_failure_falls_back Sample.mail_world_words
              (new_EmailService Sample.mail_world_words false))
    as (_ & _ & Hexec & _).
  rewrite (Hexec Sample.input_complete (or_intror H)).
  split; vm_compute; reflexivity.
Defined.

(** C10, as amended. [execute_task] is a total function to
    [ServiceResult]: every statement of it that can raise is inside a [try]
    block. The checks are made on the subject and body that the
    enhancement step returns, which runs first; they are the caller's own
    when the step is unavailable or raises. A falsy recipient, a falsy
    subject or body after enhancement, a missing Brevo key or sender email
    give a failure whose message names the first of them; so do a missing
    [api_instance] and any exception of the provider call. The result is a
    success exactly when all checks pass and the provider call returns. *)
Theorem execute_task_reports_failures w self input_data :
  let r := get_or_empty input_data "recipient_email" in
  let subject := get_or_empty input_data "subject" in
  let body := get_or_empty input_data "body" in
  let sb := enhanced w self input_data in
  let res := snd (execute_task w self input_data) in
  (unavailable w self \/
   (exists e, enhance_try w [subject; body] subject body = inl e) ->
   sb = (subject, body)) /\
  (valid self r (fst sb) (snd sb) = false ->
   success res = false /\
   message res =
     [Lit (if negb (truthy r) then "recipient_email is required"
           else if negb (truthy (fst sb)) then "subject is required"
           else if negb (truthy (snd sb)) then "body is required"
           else if negb (nonempty (brevo_api_key self))
           then "Brevo API key not configured (BREVO_API_KEY missing)"
           else "Sender email not configured (SENDER_EMAIL missing)")]) /\
  (valid self r (fst sb) (snd sb) = true ->
   has_api_instance self = false ->
   success res = false /\
   exists e, message res = [Lit "Error sending email: "; FmtExn e]) /\
  (valid self r (fst sb) (snd sb) = true ->
   has_api_instance self = true ->
   forall e,
     send_transac_email w (outgoing self r (fst sb) (snd sb)) = SendRaises e ->
     success res = false /\
     (message res = [Lit "Brevo API error: "; FmtExn e] \/
      message res = [Lit "Error sending email: "; FmtExn e])) /\
  (success res = true <->
   valid self r (fst sb) (snd sb) = true /\
   has_api_instance self = true /\
   exists message_id,
     send_transac_email w (outgoing self r (fst sb) (snd sb)) = SendReturns message_id).
Proof.
  intros r subject body sb res. subst res. rewrite execute_task_result.
  fold r sb. split; [|split; [|split; [|split]]].
  - unfold sb, enhanced. fold subject body. intros [H|[e H]].
    + now apply enhance_unavailable.
    + now apply (enhance_raises w self _ _ _ e).
  - apply invalid_result.
  - intros Hv Ha. rewrite (send_result w self _ _ _ Hv), Ha. cbn. eauto.
  - intros Hv Ha e Hs. rewrite (send_result w self _ _ _ Hv), Ha, Hs.
    destruct e; cbn; auto.
  - destruct (valid self r (fst sb) (snd sb)) eqn:Hv.
    + rewrite (send_result w self _ _ _ Hv).
      destruct (has_api_instance self).
      * destruct (send_transac_email w (outgoing self r (fst sb) (snd sb))) as [e|id].
        -- split; [destruct e; discriminate|]. intros (_ & _ & id & H). discriminate.
        -- split; [eauto|reflexivity].
      * split; [discriminate|]. intros (_ & H & _). discriminate.
    + destruct (invalid_result w self _ _ _ Hv) as [-> _].
      split; [discriminate|]. intros (H & _). discriminate.
Qed.

(** Without LangChain, an input without a subject fails. *)
Lemma execute_task_witness :
  valid (new_EmailService Sample.mail_world_plain false)
    (PStr "user@example.com") (PStr EmptyString) (PStr "report is ready") = false /\
  success (snd (execute_task Sample.mail_world_plain
                  (new_EmailService Sample.mail_world_plain false)
                  Sample.input_without_subject)) = false /\
  message (snd (execute_task Sample.mail_world_plain
                  (new_EmailService Sample.mail_world_plain false)
                  Sample.input_without_subject)) = [Lit "subject is required"].
Proof.
  split; [reflexivity|].
  destruct (execute_task_reports_failures Sample.mail_world_plain
              (new_EmailService Sample.mail_world_plain false)
              Sample.input_without_subject) as (_ & H & _).
  exact (H eq_refl).
Defined.

(** C10, counterexample. The input has no subject; the model supplies
    one, the checks pass and the mail is sent: the result is a success. *)
Lemma missing_subject_can_succeed :
  lookup "subject" Sample.input_without_subject = None /\
  success (snd (execute_task Sample.mail_world_json
                  (new_EmailService Sample.mail_world_json false)
                  Sample.input_without_subject)) = true /\
  subject (snd (execute_task Sample.mail_world_json
                  (new_EmailService Sample.mail_world_json false)
                  Sample.input_without_subject)) = PStr "Quarterly report".
Proof. repeat split; vm_compute; reflexivity. Qed.

End EmailSpec.

(** * Further facts *)

Module StageFacts.
Import Py Run Purchase RunFacts PurchaseFacts PyFacts MonitorFacts MainFacts.
Local Open Scope run_scope.

#[local] Arguments error_status : simpl never.
#[local] Arguments py_eq : simpl never.
#[local] Arguments truthy : simpl never.
#[local] Arguments dict_get : simpl never.
#[local] Arguments Z.add : simpl never.
#[local] Arguments Z.sub : simpl never.
#[local] Arguments Z.div : simpl never.
#[local] Arguments Z.ltb : simpl never.
#[local] Arguments Z.of_N : simpl never.
#[local] Arguments N.add : simpl never.
#[local] Arguments String.append : simpl never.

Lemma prompts_app a b : prompts (a ++ b) = (prompts a ++ prompts b)%list.
Proof. apply flat_map_app. Qed.

(** The only exception [read_tx_hash] raises. *)
Lemma read_tx_hash_raises v e :
  read_tx_hash v = inl e ->
  e = Exception "AttributeError" "object has no attribute 'get'".
Proof.
  unfold read_tx_hash, dict_get_or_empty, dict_get.
  destruct v; cbn [and_then]; try congruence.
  destruct (lookup "data" d) as [x|]; cbn [and_then].
  - destruct x; cbn [and_then]; try congruence.
    destruct (lookup "txHash" d0) as [h|]; cbn [and_then];
      [destruct (truthy h)|]; try discriminate;
      destruct (lookup "transactionHash" d0); discriminate.
  - cbn [lookup]. unfold truthy. discriminate.
Qed.

(** Step 3 when the purchase request is answered with a JSON value. *)
Lemma submit_payment_answered w j v t :
  received (purchase_reply w) = inr v ->
  let t' := t + Z.of_N (latency (purchase_reply w)) in
  submit_payment w j t =
    match read_tx_hash v with
    | inr tx =>
        Ran ([(t, Print (Header "Step 3: Making Real Blockchain Payment from Your Wallet"));
              (t, Print (Plain "Initiating payment from your testnet wallet..."));
              (t, Print (InitiatingPayment (amount_ada j)));
              (t, Request (purchase_request w j));
              (t', Print PaymentSubmitted);
              (t', Print (PaymentResultDump v))]
             ++ (if truthy tx
                 then [(t', Print (TransactionHash tx));
                       (t', Print (ViewOnExplorer (explorer (NETWORK w) tx)))]
                 else [])
             ++ [(t', Print WalletSentAda)])%list
            t' (Done (tx, link w j tx))
    | inl e =>
        Ran [(t, Print (Header "Step 3: Making Real Blockchain Payment from Your Wallet"));
             (t, Print (Plain "Initiating payment from your testnet wallet..."));
             (t, Print (InitiatingPayment (amount_ada j)));
             (t, Request (purchase_request w j));
             (t', Print PaymentSubmitted);
             (t', Print (PaymentResultDump v));
             (t', Print (PaymentError e))]
            t' Return
    end.
Proof.
  unfold received, submit_payment, http, raise_for_status, response_json, link,
    purchase_request.
  intros Hv. run_cbv.
  destruct (outcome (purchase_reply w)) as [e'|r]; [discriminate|].
  run_cbv. destruct (error_status r); [discriminate|].
  destruct (json r) as [v'|]; [|discriminate]. inversion Hv; subst v'. run_cbv.
  destruct (read_tx_hash v) as [e|tx] eqn:Hh.
  - rewrite (read_tx_hash_raises _ _ Hh). run_cbv. reflexivity.
  - run_cbv. destruct (truthy tx); run_cbv; reflexivity.
Qed.

Lemma prefix32_run v t :
  prefix32 v t =
    Ran [] t (if sliceable v then Done tt
              else Raise (Exception "TypeError" "object is not subscriptable")).
Proof. destruct v; reflexivity. Qed.

(** Step 5. *)
Lemma summary_run w j tx t :
  prints (trace (summary w j (tx, link w j tx) t)) =
    (if sliceable (blockchain_id j) then
       if truthy tx && negb (sliceable tx)
       then (summary_head w j ++ summary_contract j)%list
       else summary_lines w j tx
     else summary_head w j) /\
  clock (summary w j (tx, link w j tx) t) = t /\
  result (summary w j (tx, link w j tx) t) =
    if sliceable (blockchain_id j) && (negb (truthy tx) || sliceable tx)
    then Done tt
    else Raise (Exception "TypeError" "object is not subscriptable").
Proof.
  unfold summary, summary_lines, summary_head, summary_contract, summary_tail.
  cbn [fst snd]. run_cbv. rewrite prefix32_run.
  destruct (sliceable (blockchain_id j)); run_cbv; [|now cbn].
  destruct (truthy tx); run_cbv; [|now cbn].
  rewrite prefix32_run. destruct (sliceable tx); run_cbv; now cbn.
Qed.

(** The summary ends with its closing box and the two notes after it. *)
Lemma summary_lines_end w j tx :
  exists front,
    summary_lines w j tx =
      (front
       ++ [SummaryClosing;
           Plain "This was a REAL transaction on Cardano testnet!";
           Plain "Check the Cardano explorer link above to verify on-chain"])%list.
Proof.
  exists (summary_head w j ++ summary_contract j
          ++ (if truthy tx
              then [SummaryTransaction tx; SummaryExplorer (link w j tx)]
              else [])
          ++ firstn 4 summary_tail)%list.
  unfold summary_lines. rewrite <- !app_assoc. reflexivity.
Qed.

(** A run that gets past step 3 is the opening, step 3, the monitor and
    the summary, one after the other. *)
Lemma main_after_payment w j tx :
  reaches_payment w j ->
  paid w = inr tx ->
  exists r s b before,
    answers w = Some (r, s, b) /\
    prints before = opening_lines w r s j /\
    requests before = [availability_request w; start_job_request w r s b] /\
    let tp := submit_payment w j (payment_time w) in
    let tm := monitor w j (clock tp) in
    let ts := summary w j (tx, link w j tx) (clock tm) in
    run_main w =
      Ran (before ++ trace tp ++ trace tm ++ trace ts)%list (clock ts) (result ts).
Proof.
  intros Hr Hp. destruct (reaches_payment_answers _ _ Hr) as (r & s & b & Hi).
  destruct Hr as (Hk & Ha & _ & Hj).
  exists r, s, b.
  unfold run_main, main, payment_time, job_time. run_cbv. rewrite Hk. run_cbv.
  rewrite (check_availability_passes _ _ Ha). run_cbv.
  rewrite (create_job_succeeds _ _ _ _ _ _ Hi Hj). unfold create_job_prefix.
  run_cbv.
  match goal with
  | |- context [submit_payment w j ?t] =>
      destruct (submit_payment_succeeds w j tx t Hp) as (Hq & Hc & Hres);
      destruct (submit_payment w j t) as [tr c res]
  end.
  cbn [trace result clock] in *. subst res. run_cbv.
  pose proof (monitor_total w j c) as Hm.
  destruct (monitor w j c) as [trm cm resm] eqn:Hmon. cbn [result] in Hm. subst resm.
  run_cbv. fold (link w j tx).
  destruct (summary w j (tx, link w j tx) cm) as [trs cs ress].
  cbn [extend trace clock result app].
  eexists (_ :: _ :: _ :: _ :: _ :: _ :: _ :: _ :: _ :: _ :: _ :: _ :: _ :: _ :: _ :: _ :: _ :: []).
  split; [assumption|].
  split; [|split]; [| |cbn [app]; reflexivity]; reflexivity.
Qed.

End StageFacts.

Module JobFacts.
Import Py Run Purchase RunFacts PurchaseFacts PyFacts MonitorFacts MainFacts StageFacts.
Local Open Scope run_scope.

#[local] Arguments error_status : simpl never.
#[local] Arguments py_eq : simpl never.
#[local] Arguments truthy : simpl never.
#[local] Arguments dict_get : simpl never.
#[local] Arguments Z.add : simpl never.
#[local] Arguments Z.sub : simpl never.
#[local] Arguments Z.div : simpl never.
#[local] Arguments Z.ltb : simpl never.
#[local] Arguments Z.of_N : simpl never.
#[local] Arguments N.add : simpl never.
#[local] Arguments String.append : simpl never.

Lemma getitem_dict d k v : getitem (PDict d) k = inr v <-> lookup k d = Some v.
Proof.
  unfold getitem. destruct (lookup k d); split; intros H; congruence.
Qed.

Lemma getitem_is_dict v k x : getitem v k = inr x -> exists d, v = PDict d.
Proof. destruct v; try discriminate. eauto. Qed.

Lemma true_div_defined n d q :
  true_div n d = inr q <-> Z.abs n < float_limit * Zpos d /\ q = binary64 n d.
Proof.
  unfold true_div. destruct (Z.leb_spec (float_limit * Zpos d) (Z.abs n)); split.
  - discriminate.
  - intros [H' _]. lia.
  - intros E. inversion E. split; [lia|reflexivity].
  - intros [_ ->]. reflexivity.
Qed.

(** When [read_job] returns. *)
Lemma read_job_defined w job_data :
  (exists j, read_job w job_data = inr j) <->
  exists d amounts first amount n,
    job_data = PDict d /\
    (forall k, In k required_fields -> lookup k d <> None) /\
    lookup "amounts" d = Some amounts /\
    getitem0 amounts = inr first /\
    getitem first "amount" = inr amount /\
    py_int (int_of_str w) amount = inr n /\
    Z.abs n < float_limit * 1000000.
Proof.
  split.
  - intros [j H]. unfold read_job in H. invert_and_then H.
    destruct (getitem_is_dict _ _ _ E) as [d ->].
    rewrite getitem_dict in *. apply true_div_defined in E5 as [Hn _].
    exists d, p1, p2, p3, z. repeat split; try assumption.
    intros k Hk. cbn in Hk.
    repeat (destruct Hk as [<-|Hk]; [congruence|]). destruct Hk.
  - intros (d & amounts & first & amount & n & -> & Hall & Ha & H0 & H1 & Hn & Hlt).
    assert (Hget : forall k, In k required_fields ->
                     exists v, getitem (PDict d) k = inr v).
    { intros k Hk. specialize (Hall k Hk). unfold getitem.
      destruct (lookup k d); [eauto|congruence]. }
    unfold read_job.
    repeat match goal with
           | |- context [getitem (PDict d) ?k] =>
               let v := fresh "v" in
               let E := fresh "E" in
               destruct (Hget k) as [v E]; [cbn; tauto|];
               rewrite E; cbn [and_then]
           | |- context [getitem0 _] => rewrite H0; cbn [and_then]
           | |- context [getitem first "amount"] => rewrite H1; cbn [and_then]
           | |- context [py_int _ _] => rewrite Hn; cbn [and_then]
           | |- context [true_div n 1000000] =>
               replace (true_div n 1000000) with (@inr exn Q (binary64 n 1000000))
                 by (symmetry; apply true_div_defined; auto);
               cbn [and_then]
           | E : getitem (PDict d) "amounts" = inr ?v |- _ =>
               apply getitem_dict in E; rewrite Ha in E; inversion E; subst v; clear E
           end.
    eauto.
Qed.

Lemma read_job_missing_field w d k :
  In k required_fields -> lookup k d = None ->
  exists e, read_job w (PDict d) = inl e.
Proof.
  intros Hk Hn. destruct (read_job w (PDict d)) as [e|j] eqn:E; [eauto|].
  assert (H : exists j, read_job w (PDict d) = inr j) by eauto.
  apply read_job_defined in H as (d' & _ & _ & _ & _ & Hd & Hall & _).
  inversion Hd; subst d'. now destruct (Hall k Hk).
Qed.

(** The whole run when job creation fails. *)
Lemma main_job_fails_run w r s b e :
  no_purchaser_key w = false ->
  availability_error w = None ->
  answers w = Some (r, s, b) ->
  created_job w = inl e ->
  prints (trace (run_main w)) =
    [Banner;
     ConfigReport (AGENT_URL w) (PAYMENT_SERVICE_URL w) (NETWORK w);
     Timestamp (start_clock w);
     PurchaserConfigured;
     Header "Step 1: Checking Service Availability";
     ServiceOnline;
     Header "Step 2: Creating Service Request with Payment";
     RequestingEmail r s;
     FailedToCreateJob e].
Proof.
  unfold run_main, main. intros Hk Ha Hi Hj. run_cbv. rewrite Hk. run_cbv.
  rewrite (check_availability_passes _ _ Ha). run_cbv.
  rewrite (create_job_fails _ _ _ _ _ _ Hi Hj). unfold create_job_prefix.
  run_cbv. reflexivity.
Qed.

(** Standard input ends before the third answer. *)
Lemma create_job_short_input w t :
  (List.length (stdin w) < 3)%nat ->
  result (create_job w t) = Raise (Exception "EOFError" "EOF when reading a line") /\
  requests (trace (create_job w t)) = [] /\
  List.length (prompts (trace (create_job w t))) = S (List.length (stdin w)).
Proof.
  intros Hl. unfold create_job, input_or. run_cbv.
  destruct (stdin w) as [|a [|b [|c l]]]; cbn [nth_error]; run_cbv;
    [now cbn|now cbn|now cbn|cbn in Hl; lia].
Qed.

Lemma main_short_input w :
  no_purchaser_key w = false ->
  availability_error w = None ->
  (List.length (stdin w) < 3)%nat ->
  result (run_main w) = Raise (Exception "EOFError" "EOF when reading a line") /\
  requests (trace (run_main w)) = [availability_request w] /\
  List.length (prompts (trace (run_main w))) = S (List.length (stdin w)).
Proof.
  unfold run_main, main. intros Hk Ha Hl. run_cbv. rewrite Hk. run_cbv.
  rewrite (check_availability_passes _ _ Ha). run_cbv.
  destruct (create_job_short_input w
              (start_clock w + Z.of_N (latency (availability_reply w))) Hl)
    as (Hres & Hr & Hp).
  destruct (create_job w _) as [tr c res]. cbn [trace result] in *. subst res.
  run_cbv. cbn [requests prompts flat_map snd app].
  fold (requests tr). fold (prompts tr). rewrite Hr, Hp. auto.
Qed.


(** The whole run when the purchase request is answered with JSON that
    [read_tx_hash] cannot read. *)
Lemma main_payment_unreadable w j v e :
  reaches_payment w j ->
  received (purchase_reply w) = inr v ->
  read_tx_hash v = inl e ->
  exists r s b,
    answers w = Some (r, s, b) /\
    prints (trace (run_main w)) =
      (opening_lines w r s j ++ submitted_lines j v ++ [PaymentError e])%list /\
    requests (trace (run_main w)) =
      [availability_request w; start_job_request w r s b; purchase_request w j] /\
    result (run_main w) = Return.
Proof.
  intros Hr Hv He. destruct (reaches_payment_answers _ _ Hr) as (r & s & b & Hi).
  destruct Hr as (Hk & Ha & _ & Hj).
  exists r, s, b. split; [assumption|].
  unfold run_main, main. run_cbv. rewrite Hk. run_cbv.
  rewrite (check_availability_passes _ _ Ha). run_cbv.
  rewrite (create_job_succeeds _ _ _ _ _ _ Hi Hj). unfold create_job_prefix.
  run_cbv.
  rewrite (submit_payment_answered _ _ _ _ Hv). cbv zeta. rewrite He. run_cbv.
  repeat split.
Qed.

Lemma status_request_differs w j r s b :
  ~ In (status_request w j)
      [availability_request w; start_job_request w r s b; purchase_request w j].
Proof.
  unfold status_request, availability_request, start_job_request, purchase_request.
  intros [H|[H|[H|[]]]]; discriminate.
Qed.

Lemma paid_received w tx :
  paid w = inr tx ->
  exists v, received (purchase_reply w) = inr v /\ read_tx_hash v = inr tx.
Proof.
  unfold paid. destruct (received (purchase_reply w)) as [e|v]; [discriminate|].
  cbn [and_then]. eauto.
Qed.

(** What a run that gets past step 3 prints. *)
Lemma main_prints_after_payment w j v tx :
  reaches_payment w j ->
  received (purchase_reply w) = inr v ->
  read_tx_hash v = inr tx ->
  exists r s b,
    answers w = Some (r, s, b) /\
    let tm := monitor w j (payment_time w + Z.of_N (latency (purchase_reply w))) in
    let ts := summary w j (tx, link w j tx) (clock tm) in
    prints (trace (run_main w)) =
      (opening_lines w r s j
       ++ submitted_lines j v
       ++ (if truthy tx
           then [TransactionHash tx; ViewOnExplorer (explorer (NETWORK w) tx)]
           else [])
       ++ WalletSentAda :: prints (trace tm) ++ prints (trace ts))%list /\
    requests (trace (run_main w)) =
      ([availability_request w; start_job_request w r s b; purchase_request w j]
       ++ requests (trace tm))%list /\
    result (run_main w) = result ts.
Proof.
  intros Hr Hv Hh.
  assert (Hp : paid w = inr tx) by (unfold paid; rewrite Hv; exact Hh).
  destruct (main_after_payment _ _ _ Hr Hp) as (r & s & b & before & Hi & Hpr & Hrq & Hrun).
  exists r, s, b. split; [assumption|]. cbv zeta in *.
  rewrite Hrun. cbn [trace result].
  rewrite (submit_payment_answered _ _ _ _ Hv). cbv zeta. rewrite Hh. cbn [trace clock].
  rewrite !prints_app, !requests_app, Hpr, Hrq, summary_requests, app_nil_r.
  set (tm := monitor w j _). set (ts := summary w j _ _).
  generalize (prints (trace tm)) (prints (trace ts)) (requests (trace tm)).
  intros pm ps rm.
  destruct (truthy tx); cbn [prints requests flat_map snd app]; rewrite ?app_nil_r;
    repeat split.
Qed.

Lemma world_legacy_hash_reaches_payment :
  reaches_payment Sample.world_legacy_hash Sample.job.
Proof. reaches. Qed.

Lemma world_null_data_reaches_payment :
  reaches_payment Sample.world_null_data Sample.job.
Proof. reaches. Qed.

Lemma world_failed_reaches_payment :
  reaches_payment Sample.world_failed Sample.job.
Proof. reaches. Qed.

End JobFacts.

Module BraceFacts.
Import Py.

Lemma append_assoc (a b c : string) : (a ++ b) ++ c = a ++ (b ++ c).
Proof. induction a as [|x a IH]; cbn; [reflexivity|now rewrite IH]. Qed.

(** The first opening brace. *)
Lemma from_open_brace_some s m :
  from_open_brace s = Some m ->
  exists pre rest,
    s = pre ++ String "{" rest /\ m = String "{" rest /\
    ~ In "{"%char (list_ascii_of_string pre).
Proof.
  revert m. induction s as [|c s IH]; intros m H; [discriminate|].
  cbn [from_open_brace] in H. destruct (Ascii.eqb_spec c "{") as [->|Hc].
  - inversion H. exists EmptyString, s. repeat split. intros [].
  - destruct (IH m H) as (pre & rest & -> & -> & Hpre).
    exists (String c pre), rest. repeat split.
    intros [E|E]; [now apply Hc|now apply Hpre].
Qed.

Lemma from_open_brace_first pre rest :
  ~ In "{"%char (list_ascii_of_string pre) ->
  from_open_brace (pre ++ String "{" rest) = Some (String "{" rest).
Proof.
  induction pre as [|c pre IH]; intros H; [reflexivity|].
  cbn [append from_open_brace]. destruct (Ascii.eqb_spec c "{") as [->|Hc].
  - destruct H. now left.
  - apply IH. intros E. apply H. now right.
Qed.

Lemma from_open_brace_any pre rest :
  exists u, from_open_brace (pre ++ String "{" rest) = Some (String "{" (u ++ rest)).
Proof.
  induction pre as [|c pre [u IH]].
  - exists EmptyString. reflexivity.
  - cbn [append from_open_brace]. destruct (Ascii.eqb_spec c "{") as [->|Hc].
    + exists (pre ++ String "{" EmptyString). rewrite append_assoc. reflexivity.
    + eauto.
Qed.

(** The last closing brace. *)
Lemma to_last_close_brace_some s p :
  to_last_close_brace s = Some p ->
  exists mid post,
    s = mid ++ String "}" post /\ p = mid ++ String "}" EmptyString /\
    ~ In "}"%char (list_ascii_of_string post).
Proof.
  revert p. induction s as [|c s IH]; intros p H; [discriminate|].
  cbn [to_last_close_brace] in H.
  destruct (to_last_close_brace s) as [q|] eqn:E.
  - inversion H. destruct (IH q eq_refl) as (mid & post & -> & -> & Hpost).
    exists (String c mid), post. repeat split. assumption.
  - destruct (Ascii.eqb_spec c "}") as [->|Hc]; [|discriminate].
    inversion H. exists EmptyString, s. repeat split.
    clear - E. induction s as [|c s IH]; [intros []|].
    cbn [to_last_close_brace] in E.
    destruct (to_last_close_brace s); [discriminate|].
    destruct (Ascii.eqb_spec c "}") as [->|Hc]; [discriminate|].
    intros [H|H]; [now apply Hc|now apply IH].
Qed.

Lemma to_last_close_brace_none post :
  ~ In "}"%char (list_ascii_of_string post) -> to_last_close_brace post = None.
Proof.
  induction post as [|c post IH]; intros H; [reflexivity|].
  cbn [to_last_close_brace]. rewrite IH by (intros E; apply H; now right).
  destruct (Ascii.eqb_spec c "}") as [->|Hc]; [|reflexivity].
  destruct H. now left.
Qed.

Lemma to_last_close_brace_last mid post :
  ~ In "}"%char (list_ascii_of_string post) ->
  to_last_close_brace (mid ++ String "}" post) = Some (mid ++ String "}" EmptyString).
Proof.
  intros H. induction mid as [|c mid IH].
  - cbn [append to_last_close_brace]. rewrite (to_last_close_brace_none _ H).
    reflexivity.
  - cbn [append to_last_close_brace]. now rewrite IH.
Qed.

Lemma to_last_close_brace_any mid post :
  to_last_close_brace (mid ++ String "}" post) <> None.
Proof.
  induction mid as [|c mid IH]; cbn [append to_last_close_brace].
  - destruct (to_last_close_brace post); discriminate.
  - destruct (to_last_close_brace (mid ++ String "}" post)); [discriminate|].
    now destruct IH.
Qed.

Lemma search_braces_some s m :
  search_braces s = Some m <->
  exists pre mid post,
    s = pre ++ String "{" (mid ++ String "}" post) /\
    m = String "{" (mid ++ String "}" EmptyString) /\
    ~ In "{"%char (list_ascii_of_string pre) /\
    ~ In "}"%char (list_ascii_of_string post).
Proof.
  unfold search_braces. split.
  - destruct (from_open_brace s) as [o|] eqn:E; [|discriminate].
    destruct (from_open_brace_some _ _ E) as (pre & rest & -> & -> & Hpre).
    destruct (to_last_close_brace rest) as [p|] eqn:E'; [|discriminate].
    destruct (to_last_close_brace_some _ _ E') as (mid & post & -> & -> & Hpost).
    intros H. inversion H. exists pre, mid, post. repeat split; assumption.
  - intros (pre & mid & post & -> & -> & Hpre & Hpost).
    rewrite (from_open_brace_first _ _ Hpre), (to_last_close_brace_last _ _ Hpost).
    reflexivity.
Qed.

Lemma search_braces_none s :
  search_braces s = None <->
  forall pre mid post, s <> pre ++ String "{" (mid ++ String "}" post).
Proof.
  unfold search_braces. split.
  - intros H pre mid post ->.
    destruct (from_open_brace_any pre (mid ++ String "}" post)) as [u E].
    rewrite E in H. rewrite <- append_assoc in H.
    destruct (to_last_close_brace ((u ++ mid) ++ String "}" post)) eqn:E';
      [discriminate|]. now apply to_last_close_brace_any in E'.
  - intros H. destruct (from_open_brace s) as [o|] eqn:E; [|reflexivity].
    destruct (from_open_brace_some _ _ E) as (pre & rest & -> & -> & _).
    destruct (to_last_close_brace rest) as [p|] eqn:E'; [|reflexivity].
    destruct (to_last_close_brace_some _ _ E') as (mid & post & -> & _).
    now destruct (H pre mid post).
Qed.

End BraceFacts.

Module ServiceFacts.
Import Py Email EmailFacts BraceFacts.

(** What [validate_and_send] logs and returns, in terms of its result. *)
Lemma validate_and_send_shape w self r s b :
  let res := snd (validate_and_send w self r s b) in
  res = new_ServiceResult r s (success res) (message res) /\
  fst (validate_and_send w self r s b) =
    if logger self then [closing_entry res] else [].
Proof.
  unfold validate_and_send, closing_entry, error, info.
  repeat match goal with
         | |- context [if negb ?c then _ else _] => destruct c; cbn [negb]
         end;
    try (destruct (logger self); split; reflexivity).
  destruct (send_transac_email w (outgoing self r s b)) as [[]|];
    destruct (logger self); split; reflexivity.
Qed.

Lemma enhance_logs_nothing w self keypoints s b :
  logger self = false ->
  fst (_enhance_email_with_gemini w self keypoints s b) = [].
Proof.
  intros H. unfold _enhance_email_with_gemini, info, error. rewrite H.
  destruct (negb (ChatGoogleGenerativeAI w) || negb (ChatPromptTemplate w));
    [reflexivity|].
  destruct (negb (nonempty (gemini_api_key self))); [reflexivity|].
  now destruct (enhance_try w keypoints s b).
Qed.

Lemma available_guards w self :
  available w self ->
  negb (ChatGoogleGenerativeAI w) || negb (ChatPromptTemplate w) = false /\
  negb (nonempty (gemini_api_key self)) = false.
Proof.
  intros (H1 & H2 & H3). rewrite H1, H2. split; [reflexivity|].
  unfold nonempty. rewrite negb_involutive. now apply String.eqb_neq.
Qed.

(** [pick] on an answer that is an object, for a [str] original. *)
Lemma pick_chosen w d key o :
  pick w (PDict d) key (PStr o) =
    match chosen d key o with
    | Some x => inr (PStr (str_strip w x))
    | None => inl (Exception "AttributeError" "object has no attribute 'strip'")
    end.
Proof.
  unfold pick, chosen, offered, dict_get, py_or.
  destruct (lookup key d) as [v|].
  - destruct (truthy v) eqn:Hv.
    + rewrite Hv. now destruct v.
    + cbn [truthy]. now destruct (negb (o =? "")%string) eqn:Ho;
        [|apply negb_false_iff, String.eqb_eq in Ho; subst o].
  - cbn [truthy]. now destruct (negb (o =? "")%string) eqn:Ho;
      [|apply negb_false_iff, String.eqb_eq in Ho; subst o].
Qed.

Lemma enhance_try_object w s b text d :
  chain_setup w = None ->
  asked w s b = LlmContent (PStr text) ->
  parse_reply w text = inr (PDict d) ->
  enhance_try w [PStr s; PStr b] (PStr s) (PStr b) =
    match chosen d "subject" s, chosen d "body" b with
    | Some ns, Some nb => inr (PStr (str_strip w ns), PStr (str_strip w nb))
    | _, _ => inl (Exception "AttributeError" "object has no attribute 'strip'")
    end.
Proof.
  unfold enhance_try, asked. intros -> Ha Hp. cbn [join_lines].
  rewrite Ha, Hp, !pick_chosen.
  destruct (chosen d "subject" s); [|reflexivity].
  now destruct (chosen d "body" b).
Qed.

Lemma join_lines_not_str (x y : pyval) :
  (forall s, x <> PStr s) \/ (forall b, y <> PStr b) ->
  join_lines [x; y] =
    inl (Exception "TypeError" "sequence item: expected str instance").
Proof.
  intros [H|H].
  - destruct x; try reflexivity. now destruct (H s).
  - destruct x; try reflexivity. destruct y; try reflexivity. now destruct (H s0).
Qed.

Lemma new_service_key w l :
  has_api_instance (new_EmailService w l) =
    nonempty (brevo_api_key (new_EmailService w l)).
Proof. reflexivity. Qed.

Lemma getenv_nonempty w name :
  nonempty (getenv w name EmptyString) = true <->
  exists v, environ w name = Some v /\ v <> EmptyString.
Proof.
  unfold getenv, nonempty. destruct (environ w name) as [v|]; split.
  - intros H. exists v. split; [reflexivity|].
    now apply String.eqb_neq, negb_true_iff.
  - intros (v' & E & H). inversion E; subst v'.
    now apply negb_true_iff, String.eqb_neq.
  - discriminate.
  - intros (v' & E & _). discriminate.
Qed.

(** The log of [execute_task]. *)
Lemma execute_task_log w self input_data :
  fst (execute_task w self input_data) =
    if logger self then
      (LogInfo [Lit "Sending email to "; Fmt (get_or_empty input_data "recipient_email");
                Lit " with subject: '"; Fmt (get_or_empty input_data "subject");
                Lit "'"]
       :: fst (_enhance_email_with_gemini w self
                 [get_or_empty input_data "subject"; get_or_empty input_data "body"]
                 (get_or_empty input_data "subject") (get_or_empty input_data "body"))
       ++ [closing_entry (snd (execute_task w self input_data))])%list
    else [].
Proof.
  unfold execute_task. cbn [fst snd].
  match goal with
  | |- context [validate_and_send w self ?r ?s ?b] =>
      destruct (validate_and_send_shape w self r s b) as [_ Hl]
  end.
  cbv zeta in Hl. rewrite Hl. unfold info.
  destruct (logger self) eqn:Hlog; [reflexivity|].
  rewrite enhance_logs_nothing by assumption. reflexivity.
Qed.

End ServiceFacts.

(** * Further properties *)

Module RunProperties.
Import Py Run Purchase RunFacts PurchaseFacts PyFacts MonitorFacts MainFacts.
Import StageFacts LoopFacts JobFacts.

(** X1. Without a purchaser key, unset or set to the empty string, [main]
    prints the banner, the configuration and the setup guidance, and
    returns: it shows no prompt and issues no request, not even the health
    check. *)
Theorem run_without_purchaser_key w :
  environ w "PURCHASER_API_KEY" = None \/
  environ w "PURCHASER_API_KEY" = Some EmptyString ->
  run_main w =
    Ran [(start_clock w, Print Banner);
         (start_clock w,
          Print (ConfigReport (AGENT_URL w) (PAYMENT_SERVICE_URL w) (NETWORK w)));
         (start_clock w, Print (Timestamp (start_clock w)));
         (start_clock w,
          Print (SetupRequired (PAYMENT_SERVICE_URL w) (environ w "PAYMENT_API_KEY")
                   (NETWORK w)))]
        (start_clock w) Return.
Proof.
  intros H.
  assert (Hk : no_purchaser_key w = true).
  { unfold no_purchaser_key, PURCHASER_API_KEY. now destruct H as [-> | ->]. }
  unfold run_main, main. run_cbv. rewrite Hk. run_cbv. reflexivity.
Qed.

(** In [Sample.world_without_key] the environment is empty. *)
Lemma run_without_purchaser_key_witness :
  requests (trace (run_main Sample.world_without_key)) = [] /\
  result (run_main Sample.world_without_key) = Return.
Proof.
  rewrite (run_without_purchaser_key Sample.world_without_key (or_introl eq_refl)).
  split; reflexivity.
Defined.

(** X2. When standard input ends before the third answer, the [input]
    call that finds it empty raises [EOFError], which no [try] block of
    [main] encloses: the exception leaves [main] after the health check,
    the run has shown one prompt more than there were answers, and no
    job-creation request is issued. *)
Theorem short_input_raises w :
  no_purchaser_key w = false ->
  availability_error w = None ->
  (List.length (stdin w) < 3)%nat ->
  result (run_main w) = Raise (Exception "EOFError" "EOF when reading a line") /\
  requests (trace (run_main w)) = [availability_request w] /\
  List.length (prompts (trace (run_main w))) = S (List.length (stdin w)).
Proof. apply main_short_input. Qed.

(** [Sample.world_short_input] has one answer: the second prompt raises. *)
Lemma short_input_witness :
  result (run_main Sample.world_short_input) =
    Raise (Exception "EOFError" "EOF when reading a line") /\
  List.length (prompts (trace (run_main Sample.world_short_input))) = 2%nat.
Proof.
  destruct (short_input_raises Sample.world_short_input eq_refl eq_refl)
    as (H1 & _ & H2); [cbn; lia|].
  split; [exact H1|exact H2].
Defined.

(** X3. The reads of lines 160 to 178 succeed exactly when the body of the
    job-creation response is an object that has each of the eleven keys of
    [required_fields], its [amounts] has a first element with an [amount],
    [int] accepts that amount, and the integer is small enough for the
    division by 1_000_000 to give a finite float. *)
Theorem job_is_read_iff_fields_present w job_data :
  (exists j, read_job w job_data = inr j) <->
  exists d amounts first amount n,
    job_data = PDict d /\
    (forall k, In k required_fields -> lookup k d <> None) /\
    lookup "amounts" d = Some amounts /\
    getitem0 amounts = inr first /\
    getitem first "amount" = inr amount /\
    py_int (int_of_str w) amount = inr n /\
    Z.abs n < float_limit * 1000000.
Proof. apply read_job_defined. Qed.

(** X4. When the job-creation response is an object that lacks one of the
    required keys, step 2 fails: the last line of the run is "Failed to
    create job" with the exception, the job-creation request is the last
    request, so nothing is paid, and [main] returns. *)
Theorem missing_job_field_aborts w r s b d k :
  no_purchaser_key w = false ->
  availability_error w = None ->
  answers w = Some (r, s, b) ->
  received (start_job_reply w) = inr (PDict d) ->
  In k required_fields ->
  lookup k d = None ->
  exists e,
    prints (trace (run_main w)) =
      [Banner;
       ConfigReport (AGENT_URL w) (PAYMENT_SERVICE_URL w) (NETWORK w);
       Timestamp (start_clock w);
       PurchaserConfigured;
       Header "Step 1: Checking Service Availability";
       ServiceOnline;
       Header "Step 2: Creating Service Request with Payment";
       RequestingEmail r s;
       FailedToCreateJob e] /\
    requests (trace (run_main w)) =
      [availability_request w; start_job_request w r s b] /\
    result (run_main w) = Return.
Proof.
  intros Hk Ha Hi Hv Hin Hn.
  destruct (read_job_missing_field w d k Hin Hn) as [e He].
  assert (Hj : created_job w = inl e) by (unfold created_job; now rewrite Hv).
  exists e. split; [now apply (main_job_fails_run w r s b e)|].
  now apply (main_job_fails w r s b e).
Qed.

(** The response of [Sample.world_missing_field] has no [sellerVKey]. *)
Lemma missing_job_field_witness :
  exists e,
    In (FailedToCreateJob e) (prints (trace (run_main Sample.world_missing_field))) /\
    result (run_main Sample.world_missing_field) = Return.
Proof.
  destruct (missing_job_field_aborts Sample.world_missing_field
              "user@example.com" "Test Email Subject"
              "This is a test email sent via Masumi-paid agent."
              Sample.fields_without_seller "sellerVKey"
              eq_refl eq_refl eq_refl eq_refl)
    as (e & Hp & _ & Hr); [cbn; tauto|reflexivity|].
  exists e. split; [rewrite Hp; cbn; tauto|exact Hr].
Defined.

(** X5. The transaction hash is read from the [data] object of the payment
    result, an absent [data] counting as an empty object: it is [txHash]
    when that is truthy, else [transactionHash], else [None]. A run whose
    payment result has no hash is not an error: after "PAYMENT TRANSACTION
    SUBMITTED!" and the dump of the result the hash and its explorer link
    are printed if there is a hash, then the run goes on with the wallet
    line and the monitor, which polls. *)
Theorem transaction_hash_is_read_from_data w j d data :
  reaches_payment w j ->
  received (purchase_reply w) = inr (PDict d) ->
  match lookup "data" d with
  | Some x => x = PDict data
  | None => data = []
  end ->
  let field k := match lookup k data with Some v => v | None => PNone end in
  let h := if truthy (field "txHash") then field "txHash"
           else field "transactionHash" in
  paid w = inr h /\
  exists r s rest,
    prints (trace (run_main w)) =
      (opening_lines w r s j
       ++ submitted_lines j (PDict d)
       ++ (if truthy h
           then [TransactionHash h; ViewOnExplorer (explorer (NETWORK w) h)]
           else [])
       ++ [WalletSentAda;
           Header "Step 4: Monitoring Blockchain & Service Execution";
           WaitingForConfirmation;
           Plain "This may take 20-60 seconds on Cardano testnet"]
       ++ rest)%list /\
    In (status_request w j) (requests (trace (run_main w))).
Proof.
  intros Hr Hv Hd field h.
  assert (Hh : read_tx_hash (PDict d) = inr h).
  { unfold read_tx_hash, dict_get_or_empty, h, field.
    destruct (lookup "data" d) as [x|]; subst; cbn [and_then dict_get lookup].
    - destruct (lookup "txHash" data) as [v|]; cbn [and_then].
      + destruct (truthy v); [reflexivity|].
        now destruct (lookup "transactionHash" data).
      + cbn [truthy]. now destruct (lookup "transactionHash" data).
    - reflexivity. }
  split; [unfold paid; rewrite Hv; exact Hh|].
  destruct (main_prints_after_payment _ _ _ _ Hr Hv Hh)
    as (r & s & b & _ & Hp & Hq & _).
  cbv zeta in Hp, Hq. exists r, s.
  set (t := payment_time w + Z.of_N (latency (purchase_reply w))) in *.
  destruct (monitor_run w j t) as [Hm _].
  change monitor_fuel with (S 59) in Hm.
  assert (Hfirst : exists rest,
            trace (monitor_loop (S 59) w j t 0 PNone t)
            = (t, Request (status_request w j)) :: rest).
  { assert (Hlt : t - t < ms max_wait) by (unfold ms, max_wait; lia).
    destruct (poll_cases w j t 0 PNone t) as [(e & _ & P)|(d' & s' & p' & _ & P)];
      rewrite (monitor_loop_step _ _ _ _ _ _ _ _ _ _ _ Hlt P).
    - cbn [trace app]. eauto.
    - destruct (is_completed s' || is_failed s'); cbn [trace app]; eauto. }
  destruct Hfirst as [rest Hrest]. rewrite Hrest in Hm.
  eexists. split.
  - rewrite Hp, Hm. cbn [prints flat_map snd app]. reflexivity.
  - rewrite Hq, Hm. apply in_or_app. right. cbn. tauto.
Qed.

(** The payment result of [Sample.world_legacy_hash] has an empty [txHash]
    and the hash under [transactionHash]. *)
Lemma transaction_hash_witness :
  paid Sample.world_legacy_hash = inr (PStr "def456") /\
  In (status_request Sample.world_legacy_hash Sample.job)
     (requests (trace (run_main Sample.world_legacy_hash))).
Proof.
  destruct (transaction_hash_is_read_from_data Sample.world_legacy_hash Sample.job
              [("data", PDict [("txHash", PStr EmptyString);
                               ("transactionHash", PStr "def456")])]
              [("txHash", PStr EmptyString); ("transactionHash", PStr "def456")]
              world_legacy_hash_reaches_payment eq_refl eq_refl)
    as (H1 & _ & _ & _ & _ & H2).
  split; [exact H1|exact H2].
Defined.

(** X6. A purchase request answered with success and a JSON body from
    which the hash cannot be read (the body is not an object, or its
    [data] is there and is not an object) ends the run at step 3: after
    "PAYMENT TRANSACTION SUBMITTED!" and the dump of the body the script
    prints "Payment error" with the [AttributeError] of [.get], and
    [main] returns without a single status request. *)
Theorem unreadable_payment_result_stops_run w j v :
  reaches_payment w j ->
  received (purchase_reply w) = inr v ->
  (forall d, v <> PDict d) \/
  (exists d x, v = PDict d /\ lookup "data" d = Some x /\ forall data, x <> PDict data) ->
  exists r s b text,
    prints (trace (run_main w)) =
      (opening_lines w r s j
       ++ submitted_lines j v
       ++ [PaymentError (Exception "AttributeError" text)])%list /\
    requests (trace (run_main w)) =
      [availability_request w; start_job_request w r s b; purchase_request w j] /\
    ~ In (status_request w j) (requests (trace (run_main w))) /\
    result (run_main w) = Return.
Proof.
  intros Hr Hv Hbad.
  assert (He : read_tx_hash v =
               inl (Exception "AttributeError" "object has no attribute 'get'")).
  { unfold read_tx_hash, dict_get_or_empty.
    destruct Hbad as [Hn|(d & x & -> & Hx & Hn)].
    - destruct v; try reflexivity. now destruct (Hn d).
    - rewrite Hx. cbn [and_then]. destruct x; try reflexivity. now destruct (Hn d0). }
  destruct (main_payment_unreadable _ _ _ _ Hr Hv He) as (r & s & b & _ & Hp & Hq & Hres).
  exists r, s, b. eexists. repeat split; [exact Hp|exact Hq| |exact Hres].
  rewrite Hq. apply status_request_differs.
Qed.

(** The payment service of [Sample.world_null_data] answers
    [{"data": null}]. *)
Lemma unreadable_payment_result_witness :
  exists r s b,
    requests (trace (run_main Sample.world_null_data)) =
      [availability_request Sample.world_null_data;
       start_job_request Sample.world_null_data r s b;
       purchase_request Sample.world_null_data Sample.job] /\
    result (run_main Sample.world_null_data) = Return.
Proof.
  destruct (unreadable_payment_result_stops_run Sample.world_null_data Sample.job
              (PDict [("data", PNone)]) world_null_data_reaches_payment eq_refl)
    as (r & s & b & _ & _ & Hq & _ & Hres).
  - right. exists [("data", PNone)], PNone. repeat split. discriminate.
  - exists r, s, b. split; [exact Hq|exact Hres].
Defined.



(** X14. Whatever the monitor has seen (a completed job, a failed one, or
    no outcome before the deadline), a run that has paid prints the
    transaction summary: the run ends with the lines of [summary_lines],
    the transaction and the explorer lines among them exactly when there is
    a hash, and the last three of them "REAL BLOCKCHAIN TRANSACTION
    COMPLETE!" and the two notes that follow it; and [main] ends normally.
    The contract identifier, and the hash if there is one, have to be
    sequences. *)
Theorem summary_follows_any_outcome w j tx :
  reaches_payment w j ->
  paid w = inr tx ->
  sliceable (blockchain_id j) = true ->
  (truthy tx = true -> sliceable tx = true) ->
  result (run_main w) = Done tt /\
  (exists before,
     prints (trace (run_main w)) = (before ++ summary_lines w j tx)%list) /\
  exists before,
    prints (trace (run_main w)) =
      (before
       ++ [SummaryClosing;
           Plain "This was a REAL transaction on Cardano testnet!";
           Plain "Check the Cardano explorer link above to verify on-chain"])%list.
Proof.
  intros Hr Hp Hb Ht.
  destruct (main_after_payment _ _ _ Hr Hp) as (? & ? & ? & before & _ & _ & _ & Hrun).
  cbv zeta in Hrun. rewrite Hrun. cbn [result trace].
  match goal with
  | |- result (summary w j _ ?t) = _ /\ _ =>
      destruct (summary_run w j tx t) as (Hpr & _ & Hres)
  end.
  rewrite Hres, Hb in *. cbn [andb] in *.
  assert (Hs : negb (truthy tx) || sliceable tx = true).
  { destruct (truthy tx); [now rewrite Ht|reflexivity]. }
  assert (Hn : truthy tx && negb (sliceable tx) = false).
  { destruct (truthy tx); [now rewrite Ht|reflexivity]. }
  rewrite Hs, Hn in *. split; [reflexivity|].
  rewrite !app_assoc, prints_app, Hpr. split; [eauto|].
  destruct (summary_lines_end w j tx) as [front ->].
  eexists. apply app_assoc.
Qed.

(** The job of [Sample.world_failed] has failed: the run still ends with
    the lines of the summary. *)
Lemma summary_follows_any_outcome_witness :
  result (run_main Sample.world_failed) = Done tt /\
  In ServiceFailed (prints (trace (run_main Sample.world_failed))) /\
  exists before,
    prints (trace (run_main Sample.world_failed)) =
      (before ++ summary_lines Sample.world_failed Sample.job (PStr "abc123"))%list.
Proof.
  destruct (summary_follows_any_outcome Sample.world_failed Sample.job (PStr "abc123")
              world_failed_reaches_payment eq_refl eq_refl (fun _ => eq_refl))
    as (H1 & H2 & _).
  split; [exact H1|]. split; [|exact H2].
  vm_compute. tauto.
Defined.

End RunProperties.

Module MonitorProperties.
Import Py Run Purchase RunFacts PurchaseFacts PyFacts MonitorFacts MainFacts.
Import StageFacts LoopFacts JobFacts.

Lemma Forall_eq_repeat {A} (x : A) l : Forall (eq x) l -> l = repeat x (List.length l).
Proof.
  induction 1 as [|y l <- _ IH]; [reflexivity|]. cbn. now rewrite <- IH.
Qed.

(** X7. The monitor polls at least once and at most sixty times, and the
    status request of the job is the only request it issues. *)
Theorem monitor_polls_at_most_sixty_times w j t :
  exists n,
    (1 <= n <= 60)%nat /\
    requests (trace (monitor w j t)) = repeat (status_request w j) n.
Proof.
  exists (List.length (requests (trace (monitor w j t)))).
  split; [|apply Forall_eq_repeat, monitor_requests].
  destruct (monitor_run w j t) as [Hm _]. rewrite Hm.
  cbn [requests flat_map snd app].
  fold (requests (trace (monitor_loop monitor_fuel w j t 0 PNone t))).
  pose proof (monitor_loop_traced monitor_fuel w j t 0 PNone t) as Ht.
  split.
  - change monitor_fuel with (S 59) in *.
    assert (Hlt : t - t < ms max_wait) by (unfold ms, max_wait; lia).
    destruct (poll_cases w j t 0 PNone t) as [(e & _ & P)|(d' & s' & p' & _ & P)];
      rewrite (monitor_loop_step _ _ _ _ _ _ _ _ _ _ _ Hlt P).
    + cbn [trace app requests flat_map snd List.length]. lia.
    + destruct (is_completed s' || is_failed s');
        cbn [trace app requests flat_map snd List.length]; lia.
  - apply (loop_trace_polls _ _ _ _ _ _ _ _ Ht 60%nat).
    unfold ms, max_wait. lia.
Qed.

(** X8. Two successive status requests of the monitor are at least five
    seconds apart, and none is issued before the monitor starts. *)
Theorem polls_are_five_seconds_apart w j t :
  spaced (ms poll_interval) (request_times (trace (monitor w j t))) /\
  Forall (fun t' => t <= t') (request_times (trace (monitor w j t))).
Proof.
  destruct (monitor_run w j t) as [Hm _]. rewrite Hm.
  cbn [request_times flat_map snd fst app].
  fold (request_times (trace (monitor_loop monitor_fuel w j t 0 PNone t))).
  destruct (loop_trace_spaced _ _ _ _ _ _ _ _
              (monitor_loop_traced monitor_fuel w j t 0 PNone t)) as [H1 H2].
  now split.
Qed.

(** X9. The monitor overruns its deadline by less than one iteration: when
    every status reply takes at most [L] milliseconds and every sleep
    returns at most [O] milliseconds late, the monitor is over less than
    [max_wait] seconds plus [L], one poll interval and [O] after it
    started. *)
Theorem monitor_ends_soon_after_deadline w j t L O :
  (forall k, Z.of_N (latency (status_reply w k)) <= L) ->
  (forall k, Z.of_N (sleep_overrun w k) <= O) ->
  t <= clock (monitor w j t) < t + ms max_wait + L + ms poll_interval + O.
Proof.
  intros HL HO. destruct (monitor_run w j t) as [_ Hc]. rewrite Hc.
  destruct (loop_trace_clock w j t L O _ _ _ _ _ HL HO
              (monitor_loop_traced monitor_fuel w j t 0 PNone t)) as [H1 H2].
  split; [exact H1|].
  change (ms poll_interval) with 5000. apply H2.
  specialize (HL 0%nat). specialize (HO 0%nat). unfold ms, max_wait. lia.
Qed.

(** In [Sample.world_pending] a reply takes 120 milliseconds and the
    sleeps are punctual: the monitor is over within 305.12 seconds. *)
Lemma monitor_ends_witness :
  0 <= clock (monitor Sample.world_pending Sample.job 0) < 305120.
Proof.
  apply (monitor_ends_soon_after_deadline Sample.world_pending Sample.job 0 120 0).
  - intros k. cbn. lia.
  - intros k. cbn. lia.
Defined.

(** X10. The monitor reports at most one outcome, and it is the last thing
    it prints: after its three opening lines (the header of the step, the
    waiting notice and the note on the delay to expect) come status
    changes and poll errors only, and then nothing, or the lines of a
    completed job, or those of a failed one. *)
Theorem monitor_prints_at_most_one_verdict w j t :
  exists progress o,
    prints (trace (monitor w j t)) =
      ([Header "Step 4: Monitoring Blockchain & Service Execution";
        WaitingForConfirmation;
        Plain "This may take 20-60 seconds on Cardano testnet"]
       ++ progress ++ o)%list /\
    forallb progress_line progress = true /\
    verdict o.
Proof.
  destruct (loop_trace_prints _ _ _ _ _ _ _ _
              (monitor_loop_traced monitor_fuel w j t 0 PNone t))
    as (progress & o & Hp & Hf & Hv).
  exists progress, o. split; [|now split].
  destruct (monitor_run w j t) as [Hm _]. rewrite Hm.
  cbn [prints flat_map snd app].
  fold (prints (trace (monitor_loop monitor_fuel w j t 0 PNone t))).
  now rewrite Hp.
Qed.

(** X11. No two successive status-change records of the monitor show the
    same job status, and the first one does not show [None]: a record is
    printed only for a status that differs from the one recorded last. *)
Theorem change_records_never_repeat w j t :
  changes_from PNone (change_records (trace (monitor w j t))).
Proof.
  destruct (monitor_run w j t) as [Hm _]. rewrite Hm.
  cbn [change_records flat_map snd app].
  fold (change_records (trace (monitor_loop monitor_fuel w j t 0 PNone t))).
  apply (loop_trace_changes _ _ _ _ _ _ _ _
           (monitor_loop_traced monitor_fuel w j t 0 PNone t)).
Qed.

(** X12. A status reply whose JSON body is not an object (a list, a
    string, a number, [null]) is handled like a failed poll: the
    [AttributeError] of [status_data.get] is printed as a status check
    error, the loop sleeps and goes on, and [last_status] is unchanged. *)
Theorem non_object_status_is_a_poll_error w j start i last t v :
  received (status_reply w i) = inr v ->
  (forall d, v <> PDict d) ->
  exists text,
    poll w j start i last t =
      Ran [(t, Request (status_request w j));
           (answered w i t,
            Print (StatusCheckError (Exception "AttributeError" text)));
           (answered w i t, Sleep poll_interval)]
          (woke w i (answered w i t)) (Done (last, false)).
Proof.
  intros Hv Hn. eexists. apply poll_raises. unfold polled. rewrite Hv.
  cbn [and_then]. destruct v; try reflexivity. now destruct (Hn d).
Qed.

(** The status endpoint answers with the list [[]]. *)
Lemma non_object_status_witness :
  exists text,
    prints (trace (poll (Sample.with_status (fun _ => Sample.ok (PList [])) Sample.world)
                     Sample.job 0 0 PNone 0)) =
      [StatusCheckError (Exception "AttributeError" text)].
Proof.
  destruct (non_object_status_is_a_poll_error
              (Sample.with_status (fun _ => Sample.ok (PList [])) Sample.world)
              Sample.job 0 0 PNone 0 (PList []) eq_refl) as [text H].
  - discriminate.
  - exists text. rewrite H. reflexivity.
Defined.

End MonitorProperties.

Module EmailProperties.
Import Py Email EmailFacts BraceFacts ServiceFacts.

(** X15. Without a logger [execute_task] logs nothing. With one, the log
    starts with the "Sending email to" entry for the subject the caller
    gave, goes on with the entries of the enhancement step, and ends with
    one entry that carries the message of the result: an [info] entry for
    a success, an [error] entry for a failure. *)
Theorem log_ends_with_the_result w self input_data :
  let r := get_or_empty input_data "recipient_email" in
  let s := get_or_empty input_data "subject" in
  let b := get_or_empty input_data "body" in
  let res := snd (execute_task w self input_data) in
  fst (execute_task w self input_data) =
    if logger self then
      (LogInfo [Lit "Sending email to "; Fmt r; Lit " with subject: '"; Fmt s; Lit "'"]
       :: fst (_enhance_email_with_gemini w self [s; b] s b)
       ++ [closing_entry res])%list
    else [].
Proof. cbv zeta. apply execute_task_log. Qed.

(** X16. Every result of [execute_task] is a [ServiceResult] built by the
    constructor from the recipient of the input and the subject the
    enhancement returned: [raw] says "sent" or "failed" as [success]
    does, and [json_dict] repeats the four fields and the task name. *)
Theorem result_is_consistent w self input_data :
  let res := snd (execute_task w self input_data) in
  res = new_ServiceResult (get_or_empty input_data "recipient_email")
          (fst (enhanced w self input_data)) (success res) (message res) /\
  recipient res = get_or_empty input_data "recipient_email" /\
  raw res =
    ([Lit "Email "; Lit (if success res then "sent" else "failed"); Lit " to ";
      Fmt (recipient res); Lit ": "] ++ message res)%list /\
  json_dict res =
    [("recipient", FVal (recipient res)); ("subject", FVal (subject res));
     ("success", FBool (success res)); ("message", FText (message res));
     ("task", FVal (PStr "send_email"))].
Proof.
  cbv zeta. rewrite execute_task_result.
  match goal with
  | |- context [validate_and_send w self ?r ?s ?b] =>
      destruct (validate_and_send_shape w self r s b) as [Hs _];
      cbv zeta in Hs; set (res := snd (validate_and_send w self r s b)) in *
  end.
  split; [exact Hs|]. rewrite Hs. repeat split.
Qed.

(** X17. When the enhancement step is available and the model answers
    with text that parses to an object, the subject and the body that
    [execute_task] goes on with are chosen field by field: the value of the
    answer if it is truthy, else the caller's own, and [strip()] is applied
    to either. If a truthy value of the answer is not a [str] the step
    fails and both originals are kept as they were. *)
Theorem enhancement_chooses_field_by_field w self input_data s b text d :
  available w self ->
  chain_setup w = None ->
  get_or_empty input_data "subject" = PStr s ->
  get_or_empty input_data "body" = PStr b ->
  asked w s b = LlmContent (PStr text) ->
  parse_reply w text = inr (PDict d) ->
  enhanced w self input_data =
    match chosen d "subject" s, chosen d "body" b with
    | Some ns, Some nb => (PStr (str_strip w ns), PStr (str_strip w nb))
    | _, _ => (PStr s, PStr b)
    end.
Proof.
  intros Hav Hc Hs Hb Ha Hp. unfold enhanced, _enhance_email_with_gemini.
  destruct (available_guards _ _ Hav) as [-> ->]. rewrite Hs, Hb.
  rewrite (enhance_try_object _ _ _ _ _ Hc Ha Hp).
  destruct (chosen d "subject" s); [|reflexivity].
  now destruct (chosen d "body" b).
Qed.

(** In [Sample.mail_world_json] the model offers a subject and a body. *)
Lemma enhancement_chooses_witness :
  enhanced Sample.mail_world_json (new_EmailService Sample.mail_world_json false)
    Sample.input_complete =
  (PStr "Quarterly report", PStr "Please find it attached.").
Proof.
  apply (enhancement_chooses_field_by_field Sample.mail_world_json
           (new_EmailService Sample.mail_world_json false) Sample.input_complete
           "Report" "report is ready" Sample.answer
           [("subject", PStr "Quarterly report");
            ("body", PStr "Please find it attached.")]);
    try reflexivity.
  repeat split; discriminate.
Defined.

(** X18. The model is asked only when the subject and the body of the
    input are both [str]: for any other value (a number, [None], a list)
    joining the keypoints raises [TypeError] inside the [try] block, the
    failure is logged, and the originals are validated and sent as they
    are. *)
Theorem non_string_input_is_not_enhanced w self input_data :
  let s := get_or_empty input_data "subject" in
  let b := get_or_empty input_data "body" in
  available w self ->
  chain_setup w = None ->
  (forall x, s <> PStr x) \/ (forall x, b <> PStr x) ->
  (exists text,
     _enhance_email_with_gemini w self [s; b] s b =
       ((info self [Lit "Enhancing email with Gemini from keypoints."]
         ++ error self
              [Lit "Gemini enhancement failed, using original subject/body: ";
               FmtExn (Exception "TypeError" text)])%list,
        (s, b))) /\
  snd (execute_task w self input_data) =
    snd (validate_and_send w self (get_or_empty input_data "recipient_email") s b).
Proof.
  cbv zeta. intros Hav Hc Hbad.
  assert (He : enhance_try w [get_or_empty input_data "subject";
                              get_or_empty input_data "body"]
                 (get_or_empty input_data "subject") (get_or_empty input_data "body")
               = inl (Exception "TypeError" "sequence item: expected str instance")).
  { unfold enhance_try. rewrite Hc. now rewrite (join_lines_not_str _ _ Hbad). }
  split.
  - eexists. unfold _enhance_email_with_gemini.
    destruct (available_guards _ _ Hav) as [-> ->]. rewrite He. reflexivity.
  - rewrite execute_task_result. unfold enhanced.
    now rewrite (enhance_raises _ _ _ _ _ _ He).
Qed.

(** The subject of [Sample.input_null_subject] is [None]: the model,
    which would supply a subject, is not asked, and the subject check
    fails. *)
Lemma non_string_input_witness :
  subject (snd (execute_task Sample.mail_world_json
                  (new_EmailService Sample.mail_world_json false)
                  Sample.input_null_subject)) = PNone /\
  message (snd (execute_task Sample.mail_world_json
                  (new_EmailService Sample.mail_world_json false)
                  Sample.input_null_subject)) = [Lit "subject is required"].
Proof.
  destruct (non_string_input_is_not_enhanced Sample.mail_world_json
              (new_EmailService Sample.mail_world_json false)
              Sample.input_null_subject) as [_ H].
  - repeat split; discriminate.
  - reflexivity.
  - left. discriminate.
  - rewrite H. split; reflexivity.
Defined.

(** X19. The brace pattern of line 139 finds a match exactly when the
    text has an opening brace with a closing brace somewhere after it, and
    the match runs from the first opening brace of the text to its last
    closing brace, whatever is in between. *)
Theorem brace_pattern_matches_first_to_last s :
  (forall m,
     search_braces s = Some m <->
     exists pre mid post,
       s = pre ++ String "{" (mid ++ String "}" post) /\
       m = String "{" (mid ++ String "}" EmptyString) /\
       ~ In "{"%char (list_ascii_of_string pre) /\
       ~ In "}"%char (list_ascii_of_string post)) /\
  (search_braces s = None <->
   forall pre mid post, s <> pre ++ String "{" (mid ++ String "}" post)).
Proof.
  split; [intros m; apply search_braces_some|apply search_braces_none].
Qed.

(** X20. An answer of the model that wraps one JSON object in other text
    is recovered: when [json.loads] rejects the whole text, the part from
    the first opening brace to the last closing brace is parsed instead,
    and its result, value or exception, is the result of the parsing. *)
Theorem wrapped_answer_is_recovered w pre mid post m :
  json_loads w (pre ++ String "{" (mid ++ String "}" post)) = inl (JSONDecodeError m) ->
  ~ In "{"%char (list_ascii_of_string pre) ->
  ~ In "}"%char (list_ascii_of_string post) ->
  parse_reply w (pre ++ String "{" (mid ++ String "}" post)) =
    json_loads w (String "{" (mid ++ String "}" EmptyString)).
Proof.
  intros Hl Hpre Hpost. unfold parse_reply. rewrite Hl.
  assert (H : search_braces (pre ++ String "{" (mid ++ String "}" post))
              = Some (String "{" (mid ++ String "}" EmptyString))).
  { apply search_braces_some. exists pre, mid, post. auto. }
  now rewrite H.
Qed.

(** The model of [Sample.mail_world_wrapped] puts the object in a
    sentence; the mail is sent with the subject of the object. *)
Lemma wrapped_answer_witness :
  parse_reply Sample.mail_world_wrapped Sample.wrapped_answer =
    inr (PDict [("subject", PStr "Quarterly report");
                ("body", PStr "Please find it attached.")]) /\
  subject (snd (execute_task Sample.mail_world_wrapped
                  (new_EmailService Sample.mail_world_wrapped false)
                  Sample.input_complete)) = PStr "Quarterly report".
Proof.
  split; [|reflexivity].
  pose proof (wrapped_answer_is_recovered Sample.mail_world_wrapped
                "Here is the email: "
                (match Sample.answer with
                 | String _ r => substring 0 (String.length r - 1) r
                 | EmptyString => EmptyString
                 end)
                " Let me know if it works." "Expecting value" eq_refl) as H.
  apply H; cbn; intuition discriminate.
Defined.

(** X21. A service made by [get_agentic_service] has a provider client
    exactly when [BREVO_API_KEY] is set and not empty, so the call of the
    provider is never made on a missing client: [execute_task] succeeds if
    and only if the recipient and the enhanced subject and body are truthy,
    [BREVO_API_KEY] and [SENDER_EMAIL] are set and not empty, and the
    provider returns. *)
Theorem factory_service_sends_iff w logger input_data :
  let self := get_agentic_service w logger in
  let r := get_or_empty input_data "recipient_email" in
  let sb := enhanced w self input_data in
  success (snd (execute_task w self input_data)) = true <->
  truthy r = true /\ truthy (fst sb) = true /\ truthy (snd sb) = true /\
  (exists k, environ w "BREVO_API_KEY" = Some k /\ k <> EmptyString) /\
  (exists a, environ w "SENDER_EMAIL" = Some a /\ a <> EmptyString) /\
  exists message_id,
    send_transac_email w (outgoing self r (fst sb) (snd sb)) = SendReturns message_id.
Proof.
  cbv zeta. unfold get_agentic_service.
  set (self := new_EmailService w logger).
  set (r := get_or_empty input_data "recipient_email").
  set (sb := enhanced w self input_data).
  rewrite execute_task_result. fold r. fold sb.
  rewrite <- !getenv_nonempty.
  change (getenv w "BREVO_API_KEY" EmptyString) with (brevo_api_key self).
  change (getenv w "SENDER_EMAIL" EmptyString) with (sender_email self).
  destruct (valid self r (fst sb) (snd sb)) eqn:Hv.
  - rewrite (send_result _ _ _ _ _ Hv).
    apply valid_true in Hv as (H1 & H2 & H3 & H4 & H5).
    replace (has_api_instance self) with (nonempty (brevo_api_key self))
      by reflexivity.
    rewrite H4.
    destruct (send_transac_email w (outgoing self r (fst sb) (snd sb))) as [[]|id];
      cbn [success new_ServiceResult]; split;
      try discriminate; try (intros (_ & _ & _ & _ & _ & ? & ?); discriminate);
      try (intros _; reflexivity).
    intros _. repeat split; try assumption. eauto.
  - destruct (invalid_result w self _ _ _ Hv) as [-> _]. split; [discriminate|].
    intros (H1 & H2 & H3 & H4 & H5 & _).
    assert (valid self r (fst sb) (snd sb) = true) by (apply valid_true; auto).
    congruence.
Qed.

(** X22. The checks see the text after [strip()] when the enhancement
    step has run, and before it otherwise. With a subject that [strip()]
    empties and an answer of the model that offers no subject, the call
    fails with "subject is required"; the same input passes the subject
    check when the step is not available. *)
Theorem blank_subject_fails_only_after_enhancement w self input_data s b text d :
  get_or_empty input_data "subject" = PStr s ->
  get_or_empty input_data "body" = PStr b ->
  truthy (get_or_empty input_data "recipient_email") = true ->
  s <> EmptyString ->
  str_strip w s = EmptyString ->
  (available w self ->
   chain_setup w = None ->
   asked w s b = LlmContent (PStr text) ->
   parse_reply w text = inr (PDict d) ->
   offered d "subject" = None ->
   (exists nb, chosen d "body" b = Some nb) ->
   success (snd (execute_task w self input_data)) = false /\
   message (snd (execute_task w self input_data)) = [Lit "subject is required"]) /\
  (unavailable w self ->
   message (snd (execute_task w self input_data)) <> [Lit "subject is required"]).
Proof.
  intros Hs Hb Hr Hne Hstrip. split.
  - intros Hav Hc Ha Hp Ho [nb Hnb].
    assert (He : enhanced w self input_data
                 = (PStr EmptyString, PStr (str_strip w nb))).
    { unfold enhanced, _enhance_email_with_gemini.
      destruct (available_guards _ _ Hav) as [-> ->]. rewrite Hs, Hb.
      rewrite (enhance_try_object _ _ _ _ _ Hc Ha Hp).
      unfold chosen at 1. rewrite Ho, Hnb, Hstrip. reflexivity. }
    rewrite execute_task_result, He. cbn [fst snd].
    assert (Hv : valid self (get_or_empty input_data "recipient_email")
                   (PStr EmptyString) (PStr (str_strip w nb)) = false).
    { unfold valid. rewrite Hr. reflexivity. }
    destruct (invalid_result w self _ _ _ Hv) as [H1 H2]. split; [exact H1|].
    rewrite H2, Hr. reflexivity.
  - intros Hun. rewrite execute_task_result. unfold enhanced.
    rewrite (enhance_unavailable _ _ _ _ _ Hun), Hs, Hb. cbn [fst snd].
    assert (Ht : truthy (PStr s) = true).
    { cbn. now apply negb_true_iff, String.eqb_neq. }
    destruct (valid self (get_or_empty input_data "recipient_email") (PStr s) (PStr b))
      eqn:Hv.
    + rewrite (send_result _ _ _ _ _ Hv).
      destruct (has_api_instance self); [|discriminate].
      destruct (send_transac_email w _) as [[]|]; discriminate.
    + destruct (invalid_result w self _ _ _ Hv) as [_ ->]. rewrite Hr, Ht.
      cbn [negb]. destruct (negb (truthy (PStr b)));
        [|destruct (negb (nonempty (brevo_api_key self)))]; discriminate.
Qed.

(** The subject of [Sample.input_blank_subject] is three spaces and the
    model of [Sample.mail_world_body_only] offers a body only. *)
Lemma blank_subject_witness :
  message (snd (execute_task Sample.mail_world_body_only
                  (new_EmailService Sample.mail_world_body_only false)
                  Sample.input_blank_subject)) = [Lit "subject is required"] /\
  success (snd (execute_task Sample.mail_world_plain
                  (new_EmailService Sample.mail_world_plain false)
                  Sample.input_blank_subject)) = true.
Proof.
  split; [|reflexivity].
  destruct (blank_subject_fails_only_after_enhancement Sample.mail_world_body_only
              (new_EmailService Sample.mail_world_body_only false)
              Sample.input_blank_subject "   " "report is ready"
              Sample.answer_body_only [("body", PStr "Please find it attached.")]
              eq_refl eq_refl eq_refl) as [H _].
  - discriminate.
  - reflexivity.
  - apply H; try reflexivity.
    + repeat split; discriminate.
    + eexists. reflexivity.
Defined.

(** X23. The enhancement step comes before every check: when it is
    available, [execute_task] enters it for any input, also one that the
    checks will reject, for instance one without a recipient. With a
    logger, the second entry of the log is "Enhancing email with Gemini
    from keypoints.", before the entry of the failed check. *)
Theorem enhancement_precedes_validation w self input_data :
  available w self ->
  logger self = true ->
  exists rest,
    fst (execute_task w self input_data) =
      (LogInfo [Lit "Sending email to "; Fmt (get_or_empty input_data "recipient_email");
                Lit " with subject: '"; Fmt (get_or_empty input_data "subject"); Lit "'"]
       :: LogInfo [Lit "Enhancing email with Gemini from keypoints."]
       :: rest ++ [closing_entry (snd (execute_task w self input_data))])%list.
Proof.
  intros Hav Hlog. rewrite execute_task_log, Hlog.
  unfold _enhance_email_with_gemini, info, error.
  destruct (available_guards _ _ Hav) as [-> ->]. rewrite Hlog.
  destruct (enhance_try w _ _ _); eexists; cbn [app]; reflexivity.
Qed.

(** An input without a recipient, for a service with a logger: the model
    is asked, and then the call fails. *)
Lemma enhancement_precedes_validation_witness :
  In (LogInfo [Lit "Enhancing email with Gemini from keypoints."])
     (fst (execute_task Sample.mail_world_json
             (new_EmailService Sample.mail_world_json true)
             [("subject", PStr "Report"); ("body", PStr "report is ready")])) /\
  message (snd (execute_task Sample.mail_world_json
                  (new_EmailService Sample.mail_world_json true)
                  [("subject", PStr "Report"); ("body", PStr "report is ready")]))
  = [Lit "recipient_email is required"].
Proof.
  split; [|reflexivity].
  destruct (enhancement_precedes_validation Sample.mail_world_json
              (new_EmailService Sample.mail_world_json true)
              [("subject", PStr "Report"); ("body", PStr "report is ready")])
    as [rest H].
  - repeat split; discriminate.
  - reflexivity.
  - rewrite H. right. left. reflexivity.
Defined.

End EmailProperties.
